(** * A command-line calculator: operations, calculations, history

    Shallow embedding of the Python sources

      - [app/operation/__init__.py]    (module [operation])
      - [app/calculation/__init__.py]  (module [calculation])
      - [app/calculator/__init__.py]   (module [calculator])

    together with the part of Python's [decimal] library that the program
    calls (module [decimal]), and the properties of the specification proved
    about them.

    Conventions.
    - A Python call either returns a value or raises: [outcome A].
    - [Decimal] values are immutable and are modelled as values.
    - [Calculation] objects and Python lists are mutable and shared by
      reference: they live in a store ([heap]) and are named by locations.
    - Methods that read or write the store, or print, are computations in the
      monad [M], which threads the program state and keeps every effect that
      happened before an exception was raised.
    - The arithmetic context is the default one, which the program never
      replaces or edits; its status flags, which no code of the program
      reads, are not part of the state.
    - The terminal is a list of events, the lines typed and the
      interrupts, that [input] takes one by one; an interrupt arrives only
      while [input] waits.
    - Text is made of the characters U+0000 to U+00FF, on which the string
      methods are those of Python. *)

From Stdlib Require Import ZArith NArith Ascii String DecimalString.
From Stdlib Require Import DecimalPos DecimalN Lia.
From stdpp Require Import base option list gmap strings fin_maps.

Local Open Scope string_scope.
Local Open Scope Z_scope.

(** ** Exceptions and outcomes *)

(** The exception classes that the program raises or lets through.
    [InvalidOperation], [Overflow] and [DivisionByZero] are the trapped
    signals of the default decimal context; they derive from
    [ArithmeticError], not from [ValueError].  [TypeError] is what a method
    meets when the reference it is given names no object of the class it
    expects. *)
Inductive exn : Type :=
| ValueError (msg : string)
| IndexError (msg : string)
| InvalidOperation (msg : string)
| Overflow (msg : string)
| DivisionByZero (msg : string)
| TypeError (msg : string).

Inductive outcome (A : Type) : Type :=
| Returns (v : A)
| Raises (e : exn).
Arguments Returns {A} v.
Arguments Raises {A} e.

#[global] Instance outcome_ret : MRet outcome := fun A v => Returns v.

#[global] Instance outcome_bind : MBind outcome := fun A B k o =>
  match o with
  | Returns v => k v
  | Raises e => Raises e
  end.

(** ** Python's [str] methods used by the program

    A string is a sequence of characters of the range U+0000 to U+00FF, one
    8-bit character for each code point.  On this range the methods are
    those of Python: the whitespace that [split] and [strip] look for is the
    twelve characters that [str.isspace] accepts (U+0009 to U+000D, U+001C
    to U+0020, U+0085 and U+00A0); [lower] maps [A-Z] and the capital
    letters of U+00C0 to U+00DE to their small letters, 32 code points
    further, and keeps every other character; the decimal digits are [0-9].
    Text with a character beyond U+00FF is outside the model. *)

Module pystr.

Definition code (c : ascii) : N := N_of_ascii c.

Definition isdigit (c : ascii) : bool :=
  ((48 <=? code c) && (code c <=? 57))%N.

Definition isupper (c : ascii) : bool :=
  (((65 <=? code c) && (code c <=? 90))
   || ((192 <=? code c) && (code c <=? 222) && negb (code c =? 215)))%N.

Definition isspace (c : ascii) : bool :=
  (((9 <=? code c) && (code c <=? 13))
   || ((28 <=? code c) && (code c <=? 32))
   || (code c =? 133) || (code c =? 160))%N.

Definition lower_char (c : ascii) : ascii :=
  if isupper c then ascii_of_N (code c + 32) else c.

(** [s.lower()] *)
Fixpoint lower (s : string) : string :=
  match s with
  | EmptyString => EmptyString
  | String c s' => String (lower_char c) (lower s')
  end.

(** [s.lstrip()], [s.rstrip()], [s.strip()] *)
Fixpoint lstrip (s : string) : string :=
  match s with
  | String c s' => if isspace c then lstrip s' else s
  | EmptyString => EmptyString
  end.

Fixpoint rstrip (s : string) : string :=
  match s with
  | EmptyString => EmptyString
  | String c s' =>
      match rstrip s' with
      | EmptyString => if isspace c then EmptyString else String c EmptyString
      | r => String c r
      end
  end.

Definition strip (s : string) : string := rstrip (lstrip s).

(** [s.replace(c, "")] for a one-character [c]. *)
Fixpoint remove (c : ascii) (s : string) : string :=
  match s with
  | EmptyString => EmptyString
  | String d s' => if Ascii.eqb c d then remove c s' else String d (remove c s')
  end.

(** [s.split()]: the maximal runs of non-whitespace characters, in order.
    [word] is the run being read, if one has begun. *)
Fixpoint split_from (word : option string) (s : string) : list string :=
  match s with
  | EmptyString =>
      match word with
      | Some w => [w]
      | None => []
      end
  | String c s' =>
      if isspace c then
        match word with
        | Some w => w :: split_from None s'
        | None => split_from None s'
        end
      else
        match word with
        | Some w => split_from (Some (w ++ String c EmptyString)) s'
        | None => split_from (Some (String c EmptyString)) s'
        end
  end.

Definition split (s : string) : list string := split_from None s.

(** ['0' * n]-style repetition of a character. *)
Definition repeat_char (c : ascii) (n : Z) : string :=
  Nat.iter (Z.to_nat n) (String c) EmptyString.

(** [s[:n]] and [s[n:]] for [0 <= n]. *)
Fixpoint take (n : nat) (s : string) : string :=
  match n, s with
  | S n', String c s' => String c (take n' s')
  | _, _ => EmptyString
  end.

Fixpoint drop (n : nat) (s : string) : string :=
  match n, s with
  | S n', String _ s' => drop n' s'
  | _, _ => s
  end.

(** [str(n)] for a non-negative integer and ["%+d" % n]. *)
Definition of_nonneg (n : Z) : string :=
  NilZero.string_of_uint (N.to_uint (Z.to_N n)).

Definition signed (n : Z) : string :=
  if n <? 0 then "-" ++ of_nonneg (- n) else "+" ++ of_nonneg n.

(** [format(n, "<width>d")]: the decimal digits of [n], right-aligned with
    spaces in a field of [width] characters (longer numbers are not cut). *)
Definition format_d (width : Z) (n : Z) : string :=
  let digits := if n <? 0 then "-" ++ of_nonneg (- n) else of_nonneg n in
  repeat_char " " (width - Z.of_nat (String.length digits)) ++ digits.

(** The newline character. *)
Definition nl : string := String "010" EmptyString.

(** The longest prefix of digits, and what follows it. *)
Fixpoint span_digits (s : string) : string * string :=
  match s with
  | String c s' =>
      if isdigit c
      then let '(ds, rest) := span_digits s' in (String c ds, rest)
      else (EmptyString, s)
  | EmptyString => (EmptyString, EmptyString)
  end.

(** [int(s)] for a string of digits; the empty string gives [0]. *)
Fixpoint int_of_digits (acc : Z) (s : string) : Z :=
  match s with
  | String c s' => int_of_digits (10 * acc + (Z.of_N (code c) - 48)) s'
  | EmptyString => acc
  end.

Definition len (s : string) : Z := Z.of_nat (String.length s).

(** Whether some character of [s] is an uppercase letter. *)
Fixpoint has_upper (s : string) : bool :=
  match s with
  | EmptyString => false
  | String c s' => isupper c || has_upper s'
  end.

End pystr.

(** ** Python's [decimal] module under the default context

    The definitions follow the reference implementation of the library
    ([_pydecimal.py]) function by function, specialised to the default
    context. *)

Module decimal.

(** The context in force ([decimal.DefaultContext]; the program never
    changes it): [prec=28], [rounding=ROUND_HALF_EVEN], [Emax=999999],
    [Emin=-999999], [capitals=1], [clamp=0], traps on [InvalidOperation],
    [DivisionByZero] and [Overflow]. *)
Definition prec : Z := 28.
Definition Emax : Z := 999999.
Definition Emin : Z := -999999.
Definition Etiny : Z := Emin - prec + 1.
Definition Etop : Z := Emax - prec + 1.

(** A [Decimal] is a sign ([true] is negative, Python's [_sign = 1]), and
    either a coefficient with an exponent, an infinity, or a NaN (quiet or
    signaling) with a diagnostic payload.  The coefficient [_int] is a string
    of digits without leading zeros in Python; here it is the natural number
    it denotes.  An empty payload is [0]. *)
Inductive Decimal : Type :=
| Finite (_sign : bool) (_int : N) (_exp : Z)
| Infinity (_sign : bool)
| NaN (_sign : bool) (signaling : bool) (payload : N).

(** [len(str(n))]: the number of decimal digits of [n]; one for zero. *)
Fixpoint ndigits_fuel (fuel : nat) (n : Z) : Z :=
  match fuel with
  | O => 1
  | S fuel' => if n <? 10 then 1 else 1 + ndigits_fuel fuel' (n / 10)
  end.

Definition ndigits (n : Z) : Z := ndigits_fuel (Z.to_nat (Z.log2 n)) n.

Definition _dec_from_triple (sign : bool) (coefficient : Z) (exponent : Z)
  : Decimal :=
  Finite sign (Z.to_N coefficient) exponent.

(** [Decimal(n)] for a Python [int]. *)
Definition of_int (value : Z) : Decimal :=
  Finite (value <? 0) (Z.to_N (Z.abs value)) 0.

(** [__bool__]: zero is false; NaNs and infinities are true. *)
Definition __bool__ (self : Decimal) : bool :=
  match self with
  | Finite _ c _ => negb (c =? 0)%N
  | _ => true
  end.

Definition _isinfinity (self : Decimal) : Z :=
  match self with
  | Infinity s => if s then -1 else 1
  | _ => 0
  end.

Definition sign_of (self : Decimal) : bool :=
  match self with
  | Finite s _ _ | Infinity s | NaN s _ _ => s
  end.

(** [_fix_nan]: a payload longer than [prec - clamp = 28] digits keeps its
    last 28 digits. *)
Definition _fix_nan (self : Decimal) : Decimal :=
  match self with
  | NaN s sig p =>
      if prec <? ndigits (Z.of_N p)
      then NaN s sig (Z.to_N (Z.of_N p mod 10 ^ prec))
      else self
  | _ => self
  end.

(** [_check_nans]: [Raises] on a signaling NaN (the trapped
    [InvalidOperation]); otherwise the quiet NaN that is the answer, if any. *)
Definition _check_nans (self other : Decimal) : outcome (option Decimal) :=
  match self, other with
  | NaN _ true _, _ => Raises (InvalidOperation "sNaN")
  | _, NaN _ true _ => Raises (InvalidOperation "sNaN")
  | NaN _ false _, _ => Returns (Some (_fix_nan self))
  | _, NaN _ false _ => Returns (Some (_fix_nan other))
  | _, _ => Returns None
  end.

(** The rounding function [_round_half_even(self, prec)] on the coefficient
    [c] of which the [keep] leading digits stay: [1] rounds away from zero,
    [0] truncates zeros only, [-1] truncates nonzero digits. *)
Definition dropped (c keep : Z) : Z := ndigits c - keep.

Definition _round_half_up (c keep : Z) : Z :=
  let r := c mod 10 ^ dropped c keep in
  if 5 * 10 ^ (dropped c keep - 1) <=? r then 1
  else if r =? 0 then 0
  else -1.

Definition _round_half_even (c keep : Z) : Z :=
  let r := c mod 10 ^ dropped c keep in
  let q := c / 10 ^ dropped c keep in
  if (r =? 5 * 10 ^ (dropped c keep - 1)) && ((keep =? 0) || Z.even q)
  then -1
  else _round_half_up c keep.

(** [self._int[:digits] or '0'] *)
Definition leading (c keep : Z) : Z := c / 10 ^ dropped c keep.

(** [_fix]: round to [prec] digits and bring the exponent into range. *)
Definition _fix (self : Decimal) : outcome Decimal :=
  match self with
  | NaN _ _ _ => Returns (_fix_nan self)
  | Infinity _ => Returns self
  | Finite s c e =>
      let c := Z.of_N c in
      if c =? 0 then
        Returns (_dec_from_triple s 0 (Z.min (Z.max e Etiny) Emax))
      else
        let exp_min := ndigits c + e - prec in
        if Etop <? exp_min then Raises (Overflow "above Emax")
        else
          let exp_min := if exp_min <? Etiny then Etiny else exp_min in
          if e <? exp_min then
            let digits := ndigits c + e - exp_min in
            let '(c, digits) := if digits <? 0 then (1, 0) else (c, digits) in
            let changed := _round_half_even c digits in
            let coeff := leading c digits in
            let '(coeff, exp_min) :=
              if 0 <? changed then
                let coeff := coeff + 1 in
                if prec <? ndigits coeff
                then (coeff / 10, exp_min + 1)
                else (coeff, exp_min)
              else (coeff, exp_min) in
            if Etop <? exp_min then Raises (Overflow "above Emax")
            else Returns (_dec_from_triple s coeff exp_min)
          else Returns self
  end.

(** [_rescale(exp, ROUND_HALF_EVEN)] *)
Definition _rescale (self : Decimal) (exp : Z) : Decimal :=
  match self with
  | Finite s c e =>
      let c := Z.of_N c in
      if c =? 0 then _dec_from_triple s 0 exp
      else if exp <=? e then _dec_from_triple s (c * 10 ^ (e - exp)) exp
      else
        let digits := ndigits c + e - exp in
        let '(c, digits) := if digits <? 0 then (1, 0) else (c, digits) in
        let changed := _round_half_even c digits in
        let coeff := leading c digits in
        let coeff := if changed =? 1 then coeff + 1 else coeff in
        _dec_from_triple s coeff exp
  | _ => self
  end.

(** [_WorkRep]: sign, integer coefficient, exponent. *)
Record _WorkRep : Type := WorkRep { wsign : bool; wint : Z; wexp : Z }.

(** [_normalize(op1, op2, prec)]: bring both operands to the same exponent;
    an operand too small to matter is replaced by [1] at a nearby exponent. *)
Definition _normalize (op1 op2 : _WorkRep) : _WorkRep * _WorkRep :=
  let swap := wexp op1 <? wexp op2 in
  let tmp := if swap then op2 else op1 in
  let other := if swap then op1 else op2 in
  let tmp_len := ndigits (wint tmp) in
  let other_len := ndigits (wint other) in
  let exp := wexp tmp + Z.min (-1) (tmp_len - prec - 2) in
  let other :=
    if other_len + wexp other - 1 <? exp
    then WorkRep (wsign other) 1 exp
    else other in
  let tmp :=
    WorkRep (wsign tmp) (wint tmp * 10 ^ (wexp tmp - wexp other)) (wexp other) in
  if swap then (other, tmp) else (tmp, other).

(** [Decimal.__add__] *)
Definition __add__ (self other : Decimal) : outcome Decimal :=
  ans ← _check_nans self other;
  match ans with
  | Some nan => Returns nan
  | None =>
      match self, other with
      | Infinity s1, Infinity s2 =>
          if negb (Bool.eqb s1 s2)
          then Raises (InvalidOperation "-INF + INF")
          else Returns self
      | Infinity _, _ => Returns self
      | _, Infinity _ => Returns other
      | Finite s1 c1 e1, Finite s2 c2 e2 =>
          let exp := Z.min e1 e2 in
          if negb (__bool__ self) && negb (__bool__ other) then
            _fix (_dec_from_triple (s1 && s2) 0 exp)
          else if negb (__bool__ self) then
            _fix (_rescale other (Z.max exp (e2 - prec - 1)))
          else if negb (__bool__ other) then
            _fix (_rescale self (Z.max exp (e1 - prec - 1)))
          else
            let '(op1, op2) :=
              _normalize (WorkRep s1 (Z.of_N c1) e1) (WorkRep s2 (Z.of_N c2) e2) in
            if negb (Bool.eqb (wsign op1) (wsign op2)) then
              if wint op1 =? wint op2 then
                _fix (_dec_from_triple false 0 exp)
              else
                let '(op1, op2) :=
                  if wint op1 <? wint op2 then (op2, op1) else (op1, op2) in
                _fix (_dec_from_triple (wsign op1) (wint op1 - wint op2) (wexp op1))
            else
              _fix (_dec_from_triple (wsign op1) (wint op1 + wint op2) (wexp op1))
      | _, _ => Returns self
      end
  end.

(** [copy_negate] *)
Definition copy_negate (self : Decimal) : Decimal :=
  match self with
  | Finite s c e => Finite (negb s) c e
  | Infinity s => Infinity (negb s)
  | NaN s sig p => NaN (negb s) sig p
  end.

(** [Decimal.__sub__] *)
Definition __sub__ (self other : Decimal) : outcome Decimal :=
  ans ← _check_nans self other;
  match ans with
  | Some nan => Returns nan
  | None => __add__ self (copy_negate other)
  end.

(** [Decimal.__mul__] *)
Definition __mul__ (self other : Decimal) : outcome Decimal :=
  let resultsign := xorb (sign_of self) (sign_of other) in
  ans ← _check_nans self other;
  match ans with
  | Some nan => Returns nan
  | None =>
      match self, other with
      | Infinity _, _ =>
          if negb (__bool__ other)
          then Raises (InvalidOperation "(+-)INF * 0")
          else Returns (Infinity resultsign)
      | _, Infinity _ =>
          if negb (__bool__ self)
          then Raises (InvalidOperation "0 * (+-)INF")
          else Returns (Infinity resultsign)
      | Finite _ c1 e1, Finite _ c2 e2 =>
          let resultexp := e1 + e2 in
          if negb (__bool__ self) || negb (__bool__ other) then
            _fix (_dec_from_triple resultsign 0 resultexp)
          else if (c1 =? 1)%N then
            _fix (_dec_from_triple resultsign (Z.of_N c2) resultexp)
          else if (c2 =? 1)%N then
            _fix (_dec_from_triple resultsign (Z.of_N c1) resultexp)
          else
            _fix (_dec_from_triple resultsign (Z.of_N c1 * Z.of_N c2) resultexp)
      | _, _ => Returns self
      end
  end.

(** The loop of [__truediv__] that removes trailing zeros of an exact
    quotient while the exponent is below the ideal one; it runs at most
    [ideal_exp - exp] times. *)
Fixpoint strip_zeros (fuel : nat) (coeff exp ideal_exp : Z) : Z * Z :=
  match fuel with
  | O => (coeff, exp)
  | S fuel' =>
      if (exp <? ideal_exp) && (coeff mod 10 =? 0)
      then strip_zeros fuel' (coeff / 10) (exp + 1) ideal_exp
      else (coeff, exp)
  end.

(** [Decimal.__truediv__] *)
Definition __truediv__ (self other : Decimal) : outcome Decimal :=
  let sign := xorb (sign_of self) (sign_of other) in
  ans ← _check_nans self other;
  match ans with
  | Some nan => Returns nan
  | None =>
      match self, other with
      | Infinity _, Infinity _ => Raises (InvalidOperation "(+-)INF/(+-)INF")
      | Infinity _, _ => Returns (Infinity sign)
      | _, Infinity _ => Returns (_dec_from_triple sign 0 Etiny)
      | Finite _ c1 e1, Finite _ c2 e2 =>
          if negb (__bool__ other) then
            if negb (__bool__ self)
            then Raises (InvalidOperation "0 / 0")
            else Raises (DivisionByZero "x / 0")
          else if negb (__bool__ self) then
            _fix (_dec_from_triple sign 0 (e1 - e2))
          else
            let c1 := Z.of_N c1 in
            let c2 := Z.of_N c2 in
            let shift := ndigits c2 - ndigits c1 + prec + 1 in
            let exp := e1 - e2 - shift in
            let '(coeff, remainder) :=
              if 0 <=? shift
              then Z.div_eucl (c1 * 10 ^ shift) c2
              else Z.div_eucl c1 (c2 * 10 ^ (- shift)) in
            let '(coeff, exp) :=
              if negb (remainder =? 0) then
                ((if coeff mod 5 =? 0 then coeff + 1 else coeff), exp)
              else
                let ideal_exp := e1 - e2 in
                strip_zeros (Z.to_nat (ideal_exp - exp)) coeff exp ideal_exp in
            _fix (_dec_from_triple sign coeff exp)
      | _, _ => Returns self
      end
  end.

(** [adjusted()]: the exponent of the most significant digit. *)
Definition adjusted (self : Decimal) : Z :=
  match self with
  | Finite _ c e => e + ndigits (Z.of_N c) - 1
  | _ => 0
  end.

(** [_cmp]: compare two non-NaN decimals; [-1], [0] or [1]. *)
Definition sgn (s : bool) : Z := if s then -1 else 1.

Definition _cmp (self other : Decimal) : Z :=
  match self, other with
  | Finite s1 c1 e1, Finite s2 c2 e2 =>
      if negb (__bool__ self) then
        if negb (__bool__ other) then 0 else - sgn s2
      else if negb (__bool__ other) then sgn s1
      else if s1 && negb s2 then -1
      else if negb s1 && s2 then 1
      else
        let self_adjusted := adjusted self in
        let other_adjusted := adjusted other in
        if self_adjusted =? other_adjusted then
          let self_padded := Z.of_N c1 * 10 ^ Z.max 0 (e1 - e2) in
          let other_padded := Z.of_N c2 * 10 ^ Z.max 0 (e2 - e1) in
          if self_padded =? other_padded then 0
          else if self_padded <? other_padded then - sgn s1
          else sgn s1
        else if other_adjusted <? self_adjusted then sgn s1
        else - sgn s1
  | _, _ =>
      let self_inf := _isinfinity self in
      let other_inf := _isinfinity other in
      if self_inf =? other_inf then 0
      else if self_inf <? other_inf then -1
      else 1
  end.

(** [Decimal.__eq__]: a quiet NaN equals nothing; a signaling NaN raises. *)
Definition __eq__ (self other : Decimal) : outcome bool :=
  ans ← _check_nans self other;
  match ans with
  | Some _ => Returns false
  | None => Returns (_cmp self other =? 0)
  end.

(** The numeric-string syntax of [Decimal(str)], after the optional sign:
    digits with an optional fraction and exponent (at least one digit before
    the exponent). Returns the coefficient and the exponent. *)
Definition parse_exponent (s : string) : option Z :=
  match s with
  | String c s' =>
      if Ascii.eqb (pystr.lower_char c) "e" then
        let '(neg, s'') :=
          match s' with
          | String "-" r => (true, r)
          | String "+" r => (false, r)
          | _ => (false, s')
          end in
        let '(ds, rest) := pystr.span_digits s'' in
        match ds, rest with
        | String _ _, EmptyString =>
            let n := pystr.int_of_digits 0 ds in
            Some (if neg then - n else n)
        | _, _ => None
        end
      else None
  | EmptyString => Some 0
  end.

Definition parse_number (s : string) : option (Z * Z) :=
  let '(intpart, rest) := pystr.span_digits s in
  let '(fracpart, rest) :=
    match rest with
    | String "." r => pystr.span_digits r
    | _ => (EmptyString, rest)
    end in
  match intpart ++ fracpart with
  | EmptyString => None
  | digits =>
      match parse_exponent rest with
      | Some exp =>
          Some (pystr.int_of_digits 0 digits, exp - pystr.len fracpart)
      | None => None
      end
  end.

Definition parse_infinity (s : string) : bool :=
  let l := pystr.lower s in
  String.eqb l "inf" || String.eqb l "infinity".

(** [sNaN] or [NaN] followed by diagnostic digits: the signaling flag and
    the payload. *)
Definition parse_nan (s : string) : option (bool * Z) :=
  let '(signal, s) :=
    match s with
    | String c r =>
        if Ascii.eqb (pystr.lower_char c) "s" then (true, r) else (false, s)
    | EmptyString => (false, s)
    end in
  if String.eqb (pystr.lower (pystr.take 3 s)) "nan" then
    let '(diag, rest) := pystr.span_digits (pystr.drop 3 s) in
    match rest with
    | EmptyString => Some (signal, pystr.int_of_digits 0 diag)
    | _ => None
    end
  else None.

(** [Decimal(value)] for a string: surrounding whitespace and underscores
    are dropped; a string outside the syntax raises the trapped
    [InvalidOperation] (condition [ConversionSyntax]).  The exponent is read
    without bound, as the reference implementation reads it; the compiled
    implementation of the library refuses a number whose exponent is beyond
    about [10^18] in magnitude, with [InvalidOperation] and another text.
    The properties of a request therefore take the outcome of [Decimal] on
    each of its numbers as given. *)
Definition of_str (value : string) : outcome Decimal :=
  let s := pystr.remove "_" (pystr.strip value) in
  let '(sign, s) :=
    match s with
    | String "-" r => (true, r)
    | String "+" r => (false, r)
    | _ => (false, s)
    end in
  match parse_number s with
  | Some (c, e) => Returns (Finite sign (Z.to_N c) e)
  | None =>
      if parse_infinity s then Returns (Infinity sign)
      else
        match parse_nan s with
        | Some (signal, p) => Returns (NaN sign signal (Z.to_N p))
        | None => Raises (InvalidOperation "[<class 'decimal.ConversionSyntax'>]")
        end
  end.

(** [Decimal.__str__]: the scientific string of the number. *)
Definition __str__ (self : Decimal) : string :=
  let sign := if sign_of self then "-" else "" in
  match self with
  | Infinity _ => sign ++ "Infinity"
  | NaN _ signal p =>
      sign ++ (if signal then "sNaN" else "NaN")
           ++ (if (p =? 0)%N then "" else pystr.of_nonneg (Z.of_N p))
  | Finite _ c e =>
      let _int := pystr.of_nonneg (Z.of_N c) in
      let leftdigits := e + pystr.len _int in
      let dotplace := if (e <=? 0) && (-6 <? leftdigits) then leftdigits else 1 in
      let '(intpart, fracpart) :=
        if dotplace <=? 0 then
          ("0", "." ++ pystr.repeat_char "0" (- dotplace) ++ _int)
        else if pystr.len _int <=? dotplace then
          (_int ++ pystr.repeat_char "0" (dotplace - pystr.len _int), "")
        else
          (pystr.take (Z.to_nat dotplace) _int,
           "." ++ pystr.drop (Z.to_nat dotplace) _int) in
      let exp :=
        if leftdigits =? dotplace then ""
        else "E" ++ pystr.signed (leftdigits - dotplace) in
      sign ++ intpart ++ fracpart ++ exp
  end.

End decimal.

(** ** [app/operation/__init__.py] *)

Module operation.

Import decimal.

(** The concrete subclasses of the abstract class [Operation].  They carry
    no state: an instance is its class. *)
Inductive Operation : Type :=
| Addition
| Subtraction
| Multiplication
| Division.

Module Addition.
Definition execute (a b : Decimal) : outcome Decimal := __add__ a b.
Definition __str__ : string := "+".
End Addition.

Module Subtraction.
Definition execute (a b : Decimal) : outcome Decimal := __sub__ a b.
Definition __str__ : string := "-".
End Subtraction.

Module Multiplication.
Definition execute (a b : Decimal) : outcome Decimal := __mul__ a b.
Definition __str__ : string := "*".
End Multiplication.

Module Division.
Definition execute (a b : Decimal) : outcome Decimal :=
  zero ← __eq__ b (of_int 0);
  if zero : bool then Raises (ValueError "Cannot divide by zero")
  else __truediv__ a b.
Definition __str__ : string := "/".
End Division.

(** Method dispatch on the class of [self]. *)
Definition execute (self : Operation) (a b : Decimal) : outcome Decimal :=
  match self with
  | Addition => Addition.execute a b
  | Subtraction => Subtraction.execute a b
  | Multiplication => Multiplication.execute a b
  | Division => Division.execute a b
  end.

Definition __str__ (self : Operation) : string :=
  match self with
  | Addition => Addition.__str__
  | Subtraction => Subtraction.__str__
  | Multiplication => Multiplication.__str__
  | Division => Division.__str__
  end.

(** [self.__class__.__name__] *)
Definition __name__ (self : Operation) : string :=
  match self with
  | Addition => "Addition"
  | Subtraction => "Subtraction"
  | Multiplication => "Multiplication"
  | Division => "Division"
  end.

End operation.

(** ** Objects, the store and the monad of effects *)

Module runtime.

Import decimal operation.

(** A reference to a mutable object. *)
Definition loc : Type := nat.

(** The attributes of a [Calculation] instance; [_result] is [None] until
    the result has been computed. *)
Record Calculation : Type := mkCalculation {
  a : Decimal;
  b : Decimal;
  operation : Operation;
  _result : option Decimal
}.

Inductive object : Type :=
| Obj_Calculation (c : Calculation)
| Obj_list (items : list loc).

(** The program state: the store, the lines printed so far, and a ghost
    trace [executed] with one entry per invocation of [Operation.execute]
    (no code reads it; it makes the number of invocations observable). *)
Record state : Type := mkState {
  heap : gmap loc object;
  stdout : list string;
  executed : list (Operation * Decimal * Decimal)
}.

Definition set_heap (f : gmap loc object -> gmap loc object) (σ : state)
  : state :=
  mkState (f (heap σ)) (stdout σ) (executed σ).

Definition M (A : Type) : Type := state -> outcome A * state.

#[global] Instance M_ret : MRet M := fun A v σ => (Returns v, σ).

#[global] Instance M_bind : MBind M := fun A B k m σ =>
  match m σ with
  | (Returns v, σ') => k v σ'
  | (Raises e, σ') => (Raises e, σ')
  end.

Definition raise {A : Type} (e : exn) : M A := fun σ => (Raises e, σ).

(** A call of a function that touches no state. *)
Definition lift {A : Type} (o : outcome A) : M A := fun σ => (o, σ).

(** [try: body except ...: handler]: [handler e] is [None] when no [except]
    clause matches [e], which then propagates. *)
Definition try_except {A : Type} (body : M A) (handler : exn -> option (M A))
  : M A := fun σ =>
  match body σ with
  | (Returns v, σ') => (Returns v, σ')
  | (Raises e, σ') =>
      match handler e with
      | Some h => h σ'
      | None => (Raises e, σ')
      end
  end.

(** Object creation: a location that is not in use. *)
Definition alloc (o : object) : M loc := fun σ =>
  let l := fresh (dom (heap σ)) in
  (Returns l, set_heap (insert l o) σ).

Definition get_Calculation (l : loc) : M Calculation := fun σ =>
  match heap σ !! l with
  | Some (Obj_Calculation c) => (Returns c, σ)
  | _ => (Raises (TypeError "not a Calculation"), σ)
  end.

Definition get_list (l : loc) : M (list loc) := fun σ =>
  match heap σ !! l with
  | Some (Obj_list items) => (Returns items, σ)
  | _ => (Raises (TypeError "not a list"), σ)
  end.

Definition put (l : loc) (o : object) : M unit := fun σ =>
  (Returns tt, set_heap (insert l o) σ).

Definition print (line : string) : M unit := fun σ =>
  (Returns tt, mkState (heap σ) (stdout σ ++ [line])%list (executed σ)).

(** An in-place mutation of a list object by its holder ([append],
    [remove], [reverse], [sort], [clear], ...): [f] maps the old items to the
    new ones. *)
Definition list_mutate (l : loc) (f : list loc -> list loc) : M unit :=
  items ← get_list l;
  put l (Obj_list (f items)).

(** The call [operation.execute(a, b)], recorded in the ghost trace. *)
Definition call_execute (op : Operation) (x y : Decimal) : M Decimal :=
  fun σ =>
  (operation.execute op x y,
   mkState (heap σ) (stdout σ) (executed σ ++ [(op, x, y)])%list).

(** A list iterator, [iter(l)]: the list it walks (the list itself, not a
    copy) and the index of the item that comes next. *)
Record list_iterator : Type := mk_list_iterator {
  it_seq : loc;
  it_index : nat
}.

(** [next(it)] on the list as it is at the time of the call: the item and
    the iterator moved on, or [None] for [StopIteration]. *)
Definition __next__ (it : list_iterator) : M (option (loc * list_iterator)) :=
  items ← get_list (it_seq it);
  mret (match items !! it_index it with
        | Some item => Some (item, mk_list_iterator (it_seq it) (S (it_index it)))
        | None => None
        end).

(** [for i, item in enumerate(it, i): body].  Every turn asks the iterator
    for the next item; the loop ends when there is none.  [turns] bounds
    the number of turns: a walk of a list that does not grow meanwhile takes
    one turn per item and one more to find the end. *)
Fixpoint for_enumerate (turns : nat) (it : list_iterator) (i : Z)
  (body : Z -> loc -> M unit) : M unit :=
  match turns with
  | O => mret tt
  | S turns' =>
      next ← __next__ it;
      match next with
      | None => mret tt
      | Some (item, it') =>
          body i item;; for_enumerate turns' it' (i + 1) body
      end
  end.

(** What the terminal sends to a call of [input]: a line, without its
    newline, or the interrupt key, which makes [input] raise
    [KeyboardInterrupt].  A session is a list of such events; when it is used
    up the input is at its end and [input] raises [EOFError]. *)
Inductive stdin_event : Type :=
| Line (text : string)
| Interrupt.

(** The prompt that [input(prompt)] writes before it waits; it is recorded
    in [stdout] as an entry of its own. *)
Definition write_prompt (prompt : string) : M unit := print prompt.

End runtime.

(** ** [app/calculation/__init__.py] *)

Module calculation.

Import decimal operation runtime.

Module Calculation.

Definition __init__ (a b : Decimal) (operation : Operation) : M loc :=
  alloc (Obj_Calculation (mkCalculation a b operation None)).

(** The property [result]. *)
Definition result (self : loc) : M Decimal :=
  c ← get_Calculation self;
  match _result c with
  | None =>
      r ← call_execute (runtime.operation c) (a c) (b c);
      put self (Obj_Calculation
                  (mkCalculation (a c) (b c) (runtime.operation c) (Some r)));;
      mret r
  | Some r => mret r
  end.

Definition __str__ (self : loc) : M string :=
  c ← get_Calculation self;
  r ← result self;
  mret (decimal.__str__ (a c) ++ " " ++ operation.__str__ (runtime.operation c)
        ++ " " ++ decimal.__str__ (b c) ++ " = " ++ decimal.__str__ r).

Definition __repr__ (self : loc) : M string :=
  c ← get_Calculation self;
  mret ("Calculation(" ++ decimal.__str__ (a c) ++ ", " ++ decimal.__str__ (b c)
        ++ ", " ++ operation.__name__ (runtime.operation c) ++ ")").

End Calculation.

Module CalculationFactory.

Definition create_calculation (a b : Decimal) (operation : Operation) : M loc :=
  Calculation.__init__ a b operation.

End CalculationFactory.

(** A [CalculationHistory] instance: its attribute [_history] refers to a
    list object and is never rebound. *)
Record CalculationHistory : Type := mkCalculationHistory { _history : loc }.

Module CalculationHistory.

Definition __init__ : M CalculationHistory :=
  l ← alloc (Obj_list []);
  mret (mkCalculationHistory l).

Definition add_calculation (self : CalculationHistory) (calculation : loc)
  : M unit :=
  items ← get_list (_history self);
  put (_history self) (Obj_list (items ++ [calculation])%list).

(** [self._history.copy()]: a new list object with the same items. *)
Definition get_history (self : CalculationHistory) : M loc :=
  items ← get_list (_history self);
  alloc (Obj_list items).

Definition get_last_calculation (self : CalculationHistory) : M loc :=
  items ← get_list (_history self);
  match last items with
  | None => raise (IndexError "No calculations in history")
  | Some c => mret c
  end.

Definition clear_history (self : CalculationHistory) : M unit :=
  _ ← get_list (_history self);
  put (_history self) (Obj_list []).

Definition __len__ (self : CalculationHistory) : M Z :=
  items ← get_list (_history self);
  mret (Z.of_nat (length items)).

(** [iter(self._history)] *)
Definition __iter__ (self : CalculationHistory) : M list_iterator :=
  _ ← get_list (_history self);
  mret (mk_list_iterator (_history self) 0).

End CalculationHistory.

End calculation.

(** ** [app/calculator/__init__.py] *)

Module calculator.

Import decimal operation runtime calculation.

(** A [Calculator] instance: the table of operations and the history (the
    factory has no state). *)
Record Calculator : Type := mkCalculator {
  operations : gmap string Operation;
  history : CalculationHistory
}.

Module Calculator.

(** The dictionary literal that [__init__] binds to [self.operations];
    nothing changes it afterwards. *)
Definition operations_table : gmap string Operation :=
  <["+" := Addition]> (<["-" := Subtraction]>
  (<["*" := Multiplication]> (<["/" := Division]>
  (<["add" := Addition]> (<["subtract" := Subtraction]>
  (<["multiply" := Multiplication]> (<["divide" := Division]> ∅))))))).

Definition __init__ : M Calculator :=
  h ← CalculationHistory.__init__;
  mret (mkCalculator operations_table h).

Definition _process_calculation (self : Calculator) (user_input : string)
  : M unit :=
  try_except
    (match pystr.split user_input with
     | [part0; part1; part2] =>
         let operation_str := pystr.lower part1 in
         match operations self !! operation_str with
         | None => raise (ValueError ("Unknown operation: " ++ operation_str))
         | Some operation =>
             '(a, b) ← try_except
                (a ← lift (decimal.of_str part0);
                 b ← lift (decimal.of_str part2);
                 mret (a, b))
                (fun e =>
                   match e with
                   | InvalidOperation msg =>
                       Some (raise (ValueError ("Invalid number format: " ++ msg)))
                   | _ => None
                   end);
             calculation ← CalculationFactory.create_calculation a b operation;
             try_except
               (result ← Calculation.result calculation;
                CalculationHistory.add_calculation (history self) calculation;;
                text ← Calculation.__str__ calculation;
                print ("Result: " ++ text))
               (fun e =>
                  match e with
                  | ValueError msg => Some (print ("Error: " ++ msg))
                  | _ => None
                  end)
         end
     | _ =>
         raise (ValueError
                  "Invalid input format. Expected: <number> <operation> <number>")
     end)
    (fun e =>
       match e with
       | ValueError msg =>
           Some (print ("Error: " ++ msg);;
                 print "Use 'help' command for usage instructions.")
       | _ => None
       end).

(** The text of the triple-quoted literal in [_show_help]: it starts with a
    newline and ends with the indentation of the closing quotes. *)
Definition help_text : string :=
  String.concat pystr.nl
    [""; "Available Commands:";
     "  <number> <operation> <number>  - Perform calculation";
     "  help                           - Show this help message";
     "  history                        - Show calculation history";
     "  clear                          - Clear calculation history";
     "  exit                           - Exit the calculator";
     "";
     "Operations:";
     "  +, add        - Addition";
     "  -, subtract   - Subtraction";
     "  *, multiply   - Multiplication";
     "  /, divide     - Division";
     "";
     "Examples:";
     "  5 + 3";
     "  10.5 subtract 2.3";
     "  7 * 8";
     "  15 divide 3";
     "        "].

Definition _show_help (self : Calculator) : M unit := print help_text.

Definition _show_history (self : Calculator) : M unit :=
  n ← CalculationHistory.__len__ (history self);
  if n =? 0 then print "No calculations in history."
  else
    print (pystr.nl ++ "Calculation History:");;
    print (pystr.repeat_char "-" 30);;
    it ← CalculationHistory.__iter__ (history self);
    for_enumerate (Z.to_nat n + 1) it 1
      (fun i calculation =>
         text ← Calculation.__str__ calculation;
         print (pystr.format_d 2 i ++ ". " ++ text)).

Definition _clear_history (self : Calculator) : M unit :=
  CalculationHistory.clear_history (history self);;
  print "Calculation history cleared.".

Definition calculate (self : Calculator) (a : Decimal) (operation_str : string)
  (b : Decimal) : M Decimal :=
  match operations self !! operation_str with
  | None => raise (ValueError ("Unknown operation: " ++ operation_str))
  | Some operation =>
      calculation ← CalculationFactory.create_calculation a b operation;
      result ← Calculation.result calculation;
      CalculationHistory.add_calculation (history self) calculation;;
      mret result
  end.

(** The loop of [start]: one turn per event of the session.  A turn that
    meets [continue], or that ends normally or in the handler of
    [KeyboardInterrupt], goes on with the rest of the session; [break] and an
    exception that no handler catches end the loop. *)
Fixpoint start_loop (self : Calculator) (stdin : list stdin_event) : M unit :=
  write_prompt (pystr.nl ++ "Calculator> ");;
  match stdin with
  | [] => print (pystr.nl ++ pystr.nl ++ "Exiting calculator...")
  | Interrupt :: stdin' =>
      print (pystr.nl ++ pystr.nl
             ++ "Calculator interrupted. Type 'exit' to quit gracefully.");;
      start_loop self stdin'
  | Line text :: stdin' =>
      let user_input := pystr.strip text in
      if String.eqb user_input "" then start_loop self stdin'
      else if String.eqb (pystr.lower user_input) "exit" then
        print "Thank you for using the calculator. Goodbye!"
      else
        (if String.eqb (pystr.lower user_input) "help" then _show_help self
         else if String.eqb (pystr.lower user_input) "history"
         then _show_history self
         else if String.eqb (pystr.lower user_input) "clear"
         then _clear_history self
         else _process_calculation self user_input);;
        start_loop self stdin'
  end.

Definition start (self : Calculator) (stdin : list stdin_event) : M unit :=
  print "Welcome to the Professional Calculator!";;
  print "Type 'help' for available commands or 'exit' to quit.";;
  print (pystr.repeat_char "-" 50);;
  start_loop self stdin.

End Calculator.

(** [main()] *)
Definition main (stdin : list stdin_event) : M unit :=
  calculator ← Calculator.__init__;
  Calculator.start calculator stdin.

End calculator.

(** ** Vocabulary of the specification *)

Import decimal operation runtime calculation calculator.

(** The state of a process that has created no object and printed nothing. *)
Definition initial : state := mkState ∅ [] [].

(** The error kinds of the specification, as the exceptions that carry
    them. *)
Definition DivisionByZero_kind : exn := ValueError "Cannot divide by zero".
Definition UnknownOperation_kind (token : string) : exn :=
  ValueError ("Unknown operation: " ++ token).
Definition EmptyHistory_kind : exn := IndexError "No calculations in history".

(** [b == 0] holds. *)
Definition equals_zero (b : Decimal) : Prop :=
  decimal.__eq__ b (decimal.of_int 0) = Returns true.

(** [l] refers to a [Calculation] with attributes [c]. *)
Definition is_Calculation (σ : state) (l : loc) (c : Calculation) : Prop :=
  heap σ !! l = Some (Obj_Calculation c).

(** The sequence of calculations that the history [h] stores. *)
Definition history_items (σ : state) (h : CalculationHistory)
  (items : list loc) : Prop :=
  heap σ !! _history h = Some (Obj_list items).

(** The attributes of [c] once [v] has been cached. *)
Definition with_result (c : Calculation) (v : Decimal) : Calculation :=
  mkCalculation (a c) (b c) (runtime.operation c) (Some v).

(** The entry that an evaluation of [c] leaves in the ghost trace. *)
Definition execution_of (c : Calculation)
  : operation.Operation * Decimal * Decimal :=
  (runtime.operation c, a c, b c).

(** The display string ["<a> <operation-token> <b> = <result>"]. *)
Definition display (c : Calculation) (v : Decimal) : string :=
  decimal.__str__ (a c) ++ " " ++ operation.__str__ (runtime.operation c)
  ++ " " ++ decimal.__str__ (b c) ++ " = " ++ decimal.__str__ v.

(** A cache holds nothing but what the calculation's own [execute]
    returned. *)
Definition cache_consistent (c : Calculation) : Prop :=
  forall v, _result c = Some v ->
    operation.execute (runtime.operation c) (a c) (b c) = Returns v.

Definition heap_consistent (σ : state) : Prop :=
  forall l c, is_Calculation σ l c -> cache_consistent c.

(** How the attributes of one [Calculation] may differ between two moments:
    the operands and the operation are the same, and the cache is the same or
    went from empty to the value that [execute] returned. *)
Definition calc_step (c c' : Calculation) : Prop :=
  a c' = a c /\ b c' = b c /\ runtime.operation c' = runtime.operation c /\
  (_result c' = _result c \/
   (_result c = None /\
    exists v, _result c' = Some v /\
      operation.execute (runtime.operation c) (a c) (b c) = Returns v)).

(** [σ'] is a later state of [σ]: objects stay, keep their class, and each
    [Calculation] moves by [calc_step]; consistency of the caches is kept. *)
Definition evolves (σ σ' : state) : Prop :=
  (forall l c, is_Calculation σ l c ->
     exists c', is_Calculation σ' l c' /\ calc_step c c') /\
  (forall l items, heap σ !! l = Some (Obj_list items) ->
     exists items', heap σ' !! l = Some (Obj_list items')) /\
  (heap_consistent σ -> heap_consistent σ').

(** A computation all of whose runs lead to a later state. *)
Definition monotone {A : Type} (m : M A) : Prop :=
  forall σ, evolves σ (snd (m σ)).

(** What a run from [σ] to [σ'] did to the history [h]: nothing, or it
    appended one calculation whose result is computed. *)
Definition appended_when_computed (h : CalculationHistory) (σ σ' : state)
  : Prop :=
  forall items, history_items σ h items ->
    history_items σ' h items \/
    exists l c v,
      history_items σ' h (items ++ [l])%list /\
      is_Calculation σ' l c /\ _result c = Some v /\
      operation.execute (runtime.operation c) (a c) (b c) = Returns v.

(** [n] successive reads of [calculation.result], the caller catching what
    a read raises: the outcomes in order, and the final state. *)
Fixpoint read_result_times (n : nat) (self : loc) (σ : state)
  : list (outcome Decimal) * state :=
  match n with
  | O => ([], σ)
  | S n' =>
      let '(o, σ') := Calculation.result self σ in
      let '(os, σ'') := read_result_times n' self σ' in
      (o :: os, σ'')
  end.

(** Append three calculations, then read the history back. *)
Definition append3_then_read (h : CalculationHistory) (c1 c2 c3 : loc)
  : M (list loc * loc) :=
  CalculationHistory.add_calculation h c1;;
  CalculationHistory.add_calculation h c2;;
  CalculationHistory.add_calculation h c3;;
  l ← CalculationHistory.get_history h;
  items ← get_list l;
  last ← CalculationHistory.get_last_calculation h;
  mret (items, last).

(** Take a snapshot, mutate it by [f], then observe the history again: the
    items of a second snapshot, the reported length, and the items of the
    mutated first snapshot. *)
Definition snapshot_then_mutate (h : CalculationHistory)
  (f : list loc -> list loc) : M (list loc * Z * list loc) :=
  l ← CalculationHistory.get_history h;
  list_mutate l f;;
  l2 ← CalculationHistory.get_history h;
  items2 ← get_list l2;
  n ← CalculationHistory.__len__ h;
  mutated ← get_list l;
  mret (items2, n, mutated).

(** The outcome and the state of a read of [result] on the calculation [c]:
    the cached value; or the value just computed, now cached; or the
    exception that [execute] raised, nothing cached. *)
Inductive result_spec (σ : state) (self : loc) (c : Calculation)
  : outcome Decimal * state -> Prop :=
| result_spec_cached v :
    _result c = Some v ->
    result_spec σ self c (Returns v, σ)
| result_spec_computed v :
    _result c = None ->
    operation.execute (runtime.operation c) (a c) (b c) = Returns v ->
    result_spec σ self c
      (Returns v,
       mkState (<[self := Obj_Calculation (with_result c v)]> (heap σ))
               (stdout σ) (executed σ ++ [execution_of c]))
| result_spec_failed e :
    _result c = None ->
    operation.execute (runtime.operation c) (a c) (b c) = Raises e ->
    result_spec σ self c
      (Raises e, mkState (heap σ) (stdout σ) (executed σ ++ [execution_of c])).

(** The states that a request goes through: a new [Calculation] for the
    operands, then its result cached and the calculation appended. *)
Definition new_loc (σ : state) : loc := fresh (dom (heap σ)).

Definition created (σ : state) (x y : Decimal) (op : Operation) : state :=
  set_heap (insert (new_loc σ) (Obj_Calculation (mkCalculation x y op None))) σ.

Definition recorded (h : CalculationHistory) (σ : state) (items : list loc)
  (x y : Decimal) (op : Operation) (v : Decimal) : state :=
  mkState (<[_history h := Obj_list (items ++ [new_loc σ])%list]>
             (<[new_loc σ := Obj_Calculation (mkCalculation x y op (Some v))]>
                (heap (created σ x y op))))
          (stdout σ) (executed σ ++ [(op, x, y)]).

Definition with_stdout (σ : state) (out : list string) : state :=
  mkState (heap σ) out (executed σ).

(** Reading aids for the examples: [Decimal(s)], [str(d)], and a session
    of request lines. *)
Definition dec (s : string) : Decimal :=
  match decimal.of_str s with
  | Returns d => d
  | Raises _ => NaN false false 0
  end.

Definition shown (o : outcome Decimal) : outcome string :=
  d ← o; Returns (decimal.__str__ d).

(** The lines printed by a session of requests on a new calculator, and the
    length of its history at the end. *)
Definition session (requests : list string) : outcome Z * list string :=
  let run :=
    self ← Calculator.__init__;
    foldr (fun request rest =>
             Calculator._process_calculation self request;; rest)
          (mret tt) requests;;
    CalculationHistory.__len__ (history self) in
  (fst (run initial), stdout (snd (run initial))).

(** ** Vocabulary of the further properties *)

(** A finite number, neither an infinity nor a NaN. *)
Definition is_finite (d : Decimal) : bool :=
  match d with
  | Finite _ _ _ => true
  | _ => false
  end.

(** The signals of the decimal context that reach the program as
    exceptions; none of them is a [ValueError]. *)
Definition arithmetic_signal (e : exn) : Prop :=
  (exists msg, e = InvalidOperation msg) \/ e = Overflow "above Emax".

(** The two methods that change a history, as data, and what they do to the
    sequence of items. *)
Inductive history_op : Type :=
| Add (calculation : loc)
| Clear.

Definition run_op (h : CalculationHistory) (op : history_op) : M unit :=
  match op with
  | Add calculation => CalculationHistory.add_calculation h calculation
  | Clear => CalculationHistory.clear_history h
  end.

Definition run_ops (h : CalculationHistory) (ops : list history_op) : M unit :=
  foldr (fun op rest => run_op h op;; rest) (mret tt) ops.

Definition apply_op (items : list loc) (op : history_op) : list loc :=
  match op with
  | Add calculation => items ++ [calculation]
  | Clear => []
  end.

Definition apply_ops (items : list loc) (ops : list history_op) : list loc :=
  foldl apply_op items ops.

(** Take a snapshot, change the history by [ops], take a second snapshot:
    the items of the first one, those of the second, and the length that the
    history reports. *)
Definition snapshot_then_run (h : CalculationHistory) (ops : list history_op)
  : M (list loc * list loc * Z) :=
  before ← CalculationHistory.get_history h;
  run_ops h ops;;
  after ← CalculationHistory.get_history h;
  items_before ← get_list before;
  items_after ← get_list after;
  n ← CalculationHistory.__len__ h;
  mret (items_before, items_after, n).

(** The two messages of [_process_calculation] that do not depend on the
    request. *)
Definition format_error : string :=
  "Error: Invalid input format. Expected: <number> <operation> <number>".

Definition usage_hint : string := "Use 'help' command for usage instructions.".

(** [l] refers to a [Calculation] whose result has been computed. *)
Definition computed (σ : state) (l : loc) : Prop :=
  exists c v, is_Calculation σ l c /\ _result c = Some v.

(** The history [h] holds computed calculations only. *)
Definition history_computed (σ : state) (h : CalculationHistory) : Prop :=
  exists items, history_items σ h items /\ Forall (computed σ) items.

(** The display string of the calculation at [l], once computed. *)
Definition display_of (σ : state) (l : loc) : string :=
  match heap σ !! l with
  | Some (Obj_Calculation c) =>
      match _result c with
      | Some v => display c v
      | None => ""
      end
  | _ => ""
  end.

(** One turn of the loop of [_show_history], and the loop as a walk of a
    given list of items. *)
Definition show_line (i : Z) (calculation : loc) : M unit :=
  text ← Calculation.__str__ calculation;
  print (pystr.format_d 2 i ++ ". " ++ text).

Fixpoint show_items (i : Z) (items : list loc) : M unit :=
  match items with
  | [] => mret tt
  | calculation :: rest => show_line i calculation;; show_items (i + 1) rest
  end.

(** What [_show_history] prints for a history with the display strings
    [texts]. *)
Fixpoint numbered (i : Z) (texts : list string) : list string :=
  match texts with
  | [] => []
  | text :: rest => (pystr.format_d 2 i ++ ". " ++ text)%string :: numbered (i + 1) rest
  end.

Definition history_lines (texts : list string) : list string :=
  match texts with
  | [] => ["No calculations in history."]
  | _ => (pystr.nl ++ "Calculation History:")%string
         :: pystr.repeat_char "-" 30 :: numbered 1 texts
  end.

(** The line is the command [word], in any case and with any whitespace
    around it. *)
Definition is_command (word : string) (text : string) : Prop :=
  pystr.lower (pystr.strip text) = word.

(** Whether a string consists of decimal digits. *)
Fixpoint all_digits (s : string) : bool :=
  match s with
  | EmptyString => true
  | String ch s' => pystr.isdigit ch && all_digits s'
  end.

(** Whether a string has neither whitespace nor underscores. *)
Fixpoint plain (s : string) : bool :=
  match s with
  | EmptyString => true
  | String ch s' =>
      negb (pystr.isspace ch) && negb (Ascii.eqb "_" ch) && plain s'
  end.

(** What [Decimal(str)] makes of the text that follows the sign. *)
Definition read (sign : bool) (s : string) : outcome Decimal :=
  match parse_number s with
  | Some (c, e) => Returns (Finite sign (Z.to_N c) e)
  | None =>
      if parse_infinity s then Returns (Infinity sign)
      else
        match parse_nan s with
        | Some (signal, p) => Returns (NaN sign signal (Z.to_N p))
        | None => Raises (InvalidOperation "[<class 'decimal.ConversionSyntax'>]")
        end
  end.

(** Whether a string has no whitespace. *)
Fixpoint nonblank (s : string) : bool :=
  match s with
  | EmptyString => true
  | String ch s' => negb (pystr.isspace ch) && nonblank s'
  end.

(** Where [span_digits] stops: at the end or at a character that is no
    digit. *)
Definition stops (s : string) : Prop :=
  match s with
  | EmptyString => True
  | String ch _ => pystr.isdigit ch = false
  end.

(** The exponent part that [__str__] writes: none, or [E] and a signed
    number. *)
Definition exponent_text (ex : string) (E : Z) : Prop :=
  (ex = "" /\ E = 0) \/ ex = "E" ++ pystr.signed E.

(** ** Vocabulary of decimal arithmetic *)







(** The outcome of [_normalize] on a coefficient [ct] at the larger exponent
    [et] and a coefficient [co] at [eo]: both at the exponent [eo], exactly;
    or, when the second is too small to reach the digits that count, [ct]
    with zeros appended and [1] in place of the second, at an exponent [E]
    between the two. *)
Inductive aligned (ct et co eo : Z) (T O E : Z) : Prop :=
| aligned_exact :
    E = eo -> T = ct * 10 ^ (et - eo) -> O = co -> aligned ct et co eo T O E
| aligned_tiny :
    eo < E -> E < et -> T = ct * 10 ^ (et - E) -> O = 1 ->
    co < 10 ^ (E - eo) -> 10 ^ (prec + 1) <= T -> T mod 10 = 0 ->
    aligned ct et co eo T O E.



(** The last step of [__add__] on coefficients [A1] and [A2] aligned at the
    exponent [E]. *)
Definition combine (s1 : bool) (A1 : Z) (s2 : bool) (A2 : Z) (E exp : Z)
  : outcome Decimal :=
  if negb (Bool.eqb s1 s2) then
    if A1 =? A2 then _fix (_dec_from_triple false 0 exp)
    else if A1 <? A2 then _fix (_dec_from_triple s2 (A2 - A1) E)
    else _fix (_dec_from_triple s1 (A1 - A2) E)
  else _fix (_dec_from_triple s1 (A1 + A2) E).







(** ** The monad: equations for running a computation *)

Section RunEquations.

Context {A B : Type}.
Implicit Types (m : M A) (k : A -> M B) (σ : state).

Lemma run_bind m k σ :
  (m ≫= k) σ =
  match m σ with
  | (Returns v, σ') => k v σ'
  | (Raises e, σ') => (Raises e, σ')
  end.
Proof. reflexivity. Qed.

Lemma bind_returns m k σ v σ' :
  m σ = (Returns v, σ') -> (m ≫= k) σ = k v σ'.
Proof. intros H. rewrite run_bind, H. reflexivity. Qed.

Lemma bind_raises m k σ e σ' :
  m σ = (Raises e, σ') -> (m ≫= k) σ = (Raises e, σ').
Proof. intros H. rewrite run_bind, H. reflexivity. Qed.

Lemma try_returns m (handler : exn -> option (M A)) σ v σ' :
  m σ = (Returns v, σ') -> try_except m handler σ = (Returns v, σ').
Proof. intros H. unfold try_except. rewrite H. reflexivity. Qed.

Lemma try_caught m (handler : exn -> option (M A)) σ e σ' h :
  m σ = (Raises e, σ') -> handler e = Some h ->
  try_except m handler σ = h σ'.
Proof. intros H He. unfold try_except. rewrite H, He. reflexivity. Qed.

Lemma try_uncaught m (handler : exn -> option (M A)) σ e σ' :
  m σ = (Raises e, σ') -> handler e = None ->
  try_except m handler σ = (Raises e, σ').
Proof. intros H He. unfold try_except. rewrite H, He. reflexivity. Qed.

End RunEquations.

(** ** The store *)

Lemma run_get_list σ l items :
  heap σ !! l = Some (Obj_list items) -> get_list l σ = (Returns items, σ).
Proof. intros H. unfold get_list. rewrite H. reflexivity. Qed.

Lemma run_get_Calculation σ l c :
  is_Calculation σ l c -> get_Calculation l σ = (Returns c, σ).
Proof. intros H. unfold get_Calculation. rewrite H. reflexivity. Qed.

Lemma get_Calculation_state l σ : snd (get_Calculation l σ) = σ.
Proof. unfold get_Calculation. repeat case_match; reflexivity. Qed.

Lemma get_list_returns l σ items σ' :
  get_list l σ = (Returns items, σ') ->
  heap σ !! l = Some (Obj_list items) /\ σ' = σ.
Proof.
  unfold get_list. repeat case_match; intros [= <- <-]; subst; auto.
Qed.

Lemma get_list_raises l σ e σ' :
  get_list l σ = (Raises e, σ') -> σ' = σ.
Proof. unfold get_list. repeat case_match; intros [= <- <-]; auto. Qed.

(** A new object never takes the place of an existing one. *)
Lemma fresh_loc_ne (σ : state) (l : loc) (o : object) :
  heap σ !! l = Some o -> fresh (dom (heap σ)) <> l.
Proof.
  intros H Heq. apply (is_fresh (dom (heap σ))). rewrite Heq.
  apply elem_of_dom. eauto.
Qed.

Lemma lookup_alloc σ o l o' :
  heap σ !! l = Some o' ->
  heap (set_heap (insert (fresh (dom (heap σ))) o) σ) !! l = Some o'.
Proof.
  intros H. simpl. rewrite lookup_insert_ne; [exact H|].
  eapply fresh_loc_ne, H.
Qed.

Lemma lookup_alloc_new σ o :
  heap (set_heap (insert (fresh (dom (heap σ))) o) σ)
    !! fresh (dom (heap σ)) = Some o.
Proof. simpl. apply lookup_insert_eq. Qed.

(** ** [Calculation.result] *)

(** The three ways a read of [result] goes on a [Calculation]. *)
Lemma result_cached σ self c v :
  is_Calculation σ self c -> _result c = Some v ->
  Calculation.result self σ = (Returns v, σ).
Proof.
  intros Hc Hv. unfold Calculation.result.
  rewrite (bind_returns _ _ _ _ _ (run_get_Calculation _ _ _ Hc)).
  rewrite Hv. reflexivity.
Qed.

Lemma result_computed σ self c v :
  is_Calculation σ self c -> _result c = None ->
  operation.execute (runtime.operation c) (a c) (b c) = Returns v ->
  Calculation.result self σ =
  (Returns v,
   mkState (<[self := Obj_Calculation (with_result c v)]> (heap σ)) (stdout σ)
           (executed σ ++ [execution_of c])).
Proof.
  intros Hc Hn Hv. unfold Calculation.result.
  rewrite (bind_returns _ _ _ _ _ (run_get_Calculation _ _ _ Hc)).
  rewrite Hn. unfold call_execute, put. rewrite !run_bind, Hv. reflexivity.
Qed.

Lemma result_failed σ self c e :
  is_Calculation σ self c -> _result c = None ->
  operation.execute (runtime.operation c) (a c) (b c) = Raises e ->
  Calculation.result self σ =
  (Raises e, mkState (heap σ) (stdout σ) (executed σ ++ [execution_of c])).
Proof.
  intros Hc Hn Hv. unfold Calculation.result.
  rewrite (bind_returns _ _ _ _ _ (run_get_Calculation _ _ _ Hc)).
  rewrite Hn. unfold call_execute. rewrite run_bind, Hv. reflexivity.
Qed.

Lemma result_cases σ self c :
  is_Calculation σ self c -> result_spec σ self c (Calculation.result self σ).
Proof.
  intros Hc. destruct (_result c) as [v|] eqn:Hr.
  - rewrite (result_cached _ _ _ _ Hc Hr). by constructor.
  - destruct (operation.execute (runtime.operation c) (a c) (b c)) as [v|e] eqn:He.
    + rewrite (result_computed _ _ _ _ Hc Hr He). by constructor.
    + rewrite (result_failed _ _ _ _ Hc Hr He). by constructor.
Qed.

(** A read through a reference that is not a [Calculation] changes nothing. *)
Lemma result_not_Calculation σ self :
  (forall c, ~ is_Calculation σ self c) ->
  exists e, Calculation.result self σ = (Raises e, σ).
Proof.
  intros Hn. unfold Calculation.result, get_Calculation. rewrite run_bind.
  destruct (heap σ !! self) as [[c|items]|] eqn:Hl; eauto.
  exfalso. by apply (Hn c).
Qed.

(** ** [CalculationHistory] *)

Lemma run_add_calculation σ h items c :
  history_items σ h items ->
  CalculationHistory.add_calculation h c σ =
  (Returns tt, set_heap (insert (_history h) (Obj_list (items ++ [c])%list)) σ).
Proof.
  intros H. unfold CalculationHistory.add_calculation.
  rewrite (bind_returns _ _ _ _ _ (run_get_list _ _ _ H)). reflexivity.
Qed.

Lemma run_get_history σ h items :
  history_items σ h items ->
  CalculationHistory.get_history h σ =
  (Returns (fresh (dom (heap σ))),
   set_heap (insert (fresh (dom (heap σ))) (Obj_list items)) σ).
Proof.
  intros H. unfold CalculationHistory.get_history.
  rewrite (bind_returns _ _ _ _ _ (run_get_list _ _ _ H)). reflexivity.
Qed.

Lemma run_get_last_calculation σ h items c :
  history_items σ h (items ++ [c])%list ->
  CalculationHistory.get_last_calculation h σ = (Returns c, σ).
Proof.
  intros H. unfold CalculationHistory.get_last_calculation.
  rewrite (bind_returns _ _ _ _ _ (run_get_list _ _ _ H)).
  rewrite last_snoc. reflexivity.
Qed.

Lemma run_get_last_calculation_empty σ h :
  history_items σ h [] ->
  CalculationHistory.get_last_calculation h σ = (Raises EmptyHistory_kind, σ).
Proof.
  intros H. unfold CalculationHistory.get_last_calculation.
  rewrite (bind_returns _ _ _ _ _ (run_get_list _ _ _ H)). reflexivity.
Qed.

Lemma run_clear_history σ h items :
  history_items σ h items ->
  CalculationHistory.clear_history h σ =
  (Returns tt, set_heap (insert (_history h) (Obj_list [])) σ).
Proof.
  intros H. unfold CalculationHistory.clear_history.
  rewrite (bind_returns _ _ _ _ _ (run_get_list _ _ _ H)). reflexivity.
Qed.

Lemma run_len σ h items :
  history_items σ h items ->
  CalculationHistory.__len__ h σ = (Returns (Z.of_nat (length items)), σ).
Proof.
  intros H. unfold CalculationHistory.__len__.
  rewrite (bind_returns _ _ _ _ _ (run_get_list _ _ _ H)). reflexivity.
Qed.

Lemma run_list_mutate σ l items f :
  heap σ !! l = Some (Obj_list items) ->
  list_mutate l f σ = (Returns tt, set_heap (insert l (Obj_list (f items))) σ).
Proof.
  intros H. unfold list_mutate.
  rewrite (bind_returns _ _ _ _ _ (run_get_list _ _ _ H)). reflexivity.
Qed.

Lemma run_history_init σ :
  CalculationHistory.__init__ σ =
  (Returns (mkCalculationHistory (fresh (dom (heap σ)))),
   set_heap (insert (fresh (dom (heap σ))) (Obj_list [])) σ).
Proof. reflexivity. Qed.

Lemma history_items_put σ h items :
  history_items (set_heap (insert (_history h) (Obj_list items)) σ) h items.
Proof. unfold history_items. simpl. apply lookup_insert_eq. Qed.

Lemma history_items_alloc σ h items o :
  history_items σ h items ->
  history_items (set_heap (insert (fresh (dom (heap σ))) o) σ) h items.
Proof. intros H. by apply lookup_alloc. Qed.

(** ** States only move forward *)

Lemma calc_step_refl c : calc_step c c.
Proof. unfold calc_step. auto. Qed.

Lemma calc_step_trans c1 c2 c3 :
  calc_step c1 c2 -> calc_step c2 c3 -> calc_step c1 c3.
Proof.
  intros (Ha & Hb & Ho & Hr) (Ha' & Hb' & Ho' & Hr').
  repeat split; try congruence.
  destruct Hr as [Hr|(Hn & v & Hv & He)], Hr' as [Hr'|(Hn' & v' & Hv' & He')].
  - left. congruence.
  - right. split; [congruence|]. exists v'. split; [done|]. congruence.
  - right. split; [done|]. exists v. split; [congruence|done].
  - congruence.
Qed.

Lemma calc_step_consistent c c' :
  calc_step c c' -> cache_consistent c -> cache_consistent c'.
Proof.
  intros (Ha & Hb & Ho & Hr) Hc v Hv. rewrite Ha, Hb, Ho.
  destruct Hr as [Hr|(Hn & w & Hw & He)].
  - apply Hc. congruence.
  - congruence.
Qed.

(** A computed result is final. *)
Lemma calc_step_computed c c' v :
  calc_step c c' -> _result c = Some v -> _result c' = Some v.
Proof. intros (_ & _ & _ & [Hr|(Hn & _)]) Hv; congruence. Qed.

Lemma evolves_refl σ : evolves σ σ.
Proof.
  repeat split; eauto.
  intros l c Hc. exists c. split; [done|apply calc_step_refl].
Qed.

Lemma evolves_trans σ1 σ2 σ3 :
  evolves σ1 σ2 -> evolves σ2 σ3 -> evolves σ1 σ3.
Proof.
  intros (Hc & Hl & Hi) (Hc' & Hl' & Hi'). repeat split; [| |auto].
  - intros l c H1. destruct (Hc _ _ H1) as (c2 & H2 & Hs).
    destruct (Hc' _ _ H2) as (c3 & H3 & Hs').
    exists c3. split; [done|]. by eapply calc_step_trans.
  - intros l items H1. destruct (Hl _ _ H1) as (items2 & H2). eauto.
Qed.

(** States that differ outside the store are equally late. *)
Lemma evolves_same_heap σ σ' : heap σ' = heap σ -> evolves σ σ'.
Proof.
  intros Hh. unfold evolves, heap_consistent, is_Calculation. rewrite Hh.
  repeat split; eauto.
  intros l c Hc. exists c. split; [done|apply calc_step_refl].
Qed.

(** Creating a list, or a [Calculation] with an empty cache. *)
Lemma evolves_alloc σ o :
  (forall c, o = Obj_Calculation c -> _result c = None) ->
  evolves σ (set_heap (insert (fresh (dom (heap σ))) o) σ).
Proof.
  intros Ho. repeat split.
  - intros l c Hc. exists c. split; [by apply lookup_alloc|apply calc_step_refl].
  - intros l items Hl. exists items. by apply lookup_alloc.
  - intros Hi l c Hc. unfold is_Calculation in Hc. simpl in Hc.
    apply lookup_insert_Some in Hc as [[_ Hnew]|[_ Hc]].
    + intros v Hv. rewrite (Ho c Hnew) in Hv. discriminate.
    + by eapply Hi.
Qed.

(** Writing new items into a list object. *)
Lemma evolves_put_list σ l items items' :
  heap σ !! l = Some (Obj_list items) ->
  evolves σ (set_heap (insert l (Obj_list items')) σ).
Proof.
  intros Hl. repeat split.
  - intros l' c Hc. exists c. split; [|apply calc_step_refl].
    unfold is_Calculation in *. simpl. rewrite lookup_insert_ne; [done|].
    congruence.
  - intros l' its Hl'. simpl. destruct (decide (l = l')) as [<-|Hne].
    + rewrite lookup_insert_eq. eauto.
    + rewrite lookup_insert_ne; eauto.
  - intros Hi l' c Hc. unfold is_Calculation in Hc. simpl in Hc.
    apply lookup_insert_Some in Hc as [[_ [=]]|[_ Hc]]. by eapply Hi.
Qed.

(** Caching the value that [execute] returned. *)
Lemma evolves_cache σ self c v out trace :
  is_Calculation σ self c -> _result c = None ->
  operation.execute (runtime.operation c) (a c) (b c) = Returns v ->
  evolves σ (mkState (<[self := Obj_Calculation (with_result c v)]> (heap σ))
                     out trace).
Proof.
  intros Hc Hn He. repeat split.
  - intros l c' Hc'. unfold is_Calculation in *. simpl.
    destruct (decide (self = l)) as [<-|Hne].
    + rewrite lookup_insert_eq. exists (with_result c v). split; [done|].
      assert (c' = c) as -> by congruence.
      repeat split. right. eauto.
    + rewrite lookup_insert_ne by done. exists c'.
      split; [done|apply calc_step_refl].
  - intros l items Hl. simpl. rewrite lookup_insert_ne; [eauto|]. 
    unfold is_Calculation in Hc. congruence.
  - intros Hi l c' Hc'. unfold is_Calculation in Hc'. simpl in Hc'.
    apply lookup_insert_Some in Hc' as [[<- [= <-]]|[_ Hc']].
    + intros w [= <-]. exact He.
    + by eapply Hi.
Qed.

Section Monotone.

Context {A B : Type}.

Lemma monotone_ret (v : A) : monotone (mret v).
Proof. intros σ. apply evolves_refl. Qed.

Lemma monotone_raise (e : exn) : monotone (raise (A := A) e).
Proof. intros σ. apply evolves_refl. Qed.

Lemma monotone_lift (o : outcome A) : monotone (lift o).
Proof. intros σ. apply evolves_refl. Qed.

Lemma monotone_bind (m : M A) (k : A -> M B) :
  monotone m -> (forall v, monotone (k v)) -> monotone (m ≫= k).
Proof.
  intros Hm Hk σ. rewrite run_bind. specialize (Hm σ).
  destruct (m σ) as [[v|e] σ']; simpl in *; [|done].
  eapply evolves_trans; [exact Hm|apply Hk].
Qed.

Lemma monotone_try (m : M A) (handler : exn -> option (M A)) :
  monotone m -> (forall e h, handler e = Some h -> monotone h) ->
  monotone (try_except m handler).
Proof.
  intros Hm Hh σ. unfold try_except. specialize (Hm σ).
  destruct (m σ) as [[v|e] σ']; simpl in *; [done|].
  destruct (handler e) as [h|] eqn:He; [|done].
  eapply evolves_trans; [exact Hm|]. by eapply Hh.
Qed.

End Monotone.

Lemma monotone_print line : monotone (print line).
Proof. intros σ. by apply evolves_same_heap. Qed.

Lemma monotone_get_list l : monotone (get_list l).
Proof.
  intros σ. unfold get_list. repeat case_match; apply evolves_refl.
Qed.

Lemma monotone_get_Calculation l : monotone (get_Calculation l).
Proof. intros σ. rewrite get_Calculation_state. apply evolves_refl. Qed.

Lemma monotone_Calculation_init x y op : monotone (Calculation.__init__ x y op).
Proof. intros σ. apply evolves_alloc. by intros c [= <-]. Qed.

Lemma monotone_create_calculation x y op :
  monotone (CalculationFactory.create_calculation x y op).
Proof. apply monotone_Calculation_init. Qed.

Lemma monotone_result self : monotone (Calculation.result self).
Proof.
  intros σ. destruct (heap σ !! self) as [[c|items]|] eqn:Hl.
  - destruct (result_cases σ self c Hl) as [v Hv|v Hn He|e Hn He]; simpl.
    + apply evolves_refl.
    + by apply evolves_cache.
    + by apply evolves_same_heap.
  - destruct (result_not_Calculation σ self) as [e ->]; [|apply evolves_refl].
    unfold is_Calculation. congruence.
  - destruct (result_not_Calculation σ self) as [e ->]; [|apply evolves_refl].
    unfold is_Calculation. congruence.
Qed.

Lemma monotone_Calculation_str self : monotone (Calculation.__str__ self).
Proof.
  apply monotone_bind; [apply monotone_get_Calculation|]. intros c.
  apply monotone_bind; [apply monotone_result|]. intros r. apply monotone_ret.
Qed.

Lemma monotone_Calculation_repr self : monotone (Calculation.__repr__ self).
Proof.
  apply monotone_bind; [apply monotone_get_Calculation|]. intros c.
  apply monotone_ret.
Qed.

Lemma monotone_list_mutate l f : monotone (list_mutate l f).
Proof.
  intros σ. unfold list_mutate. rewrite run_bind.
  destruct (get_list l σ) as [[items|e] σ'] eqn:Hg.
  - apply get_list_returns in Hg as [Hl ->]. by eapply evolves_put_list.
  - apply get_list_raises in Hg as ->. apply evolves_refl.
Qed.

Lemma monotone_add_calculation h c :
  monotone (CalculationHistory.add_calculation h c).
Proof. apply (monotone_list_mutate _ (fun items => items ++ [c])%list). Qed.

Lemma monotone_clear_history h : monotone (CalculationHistory.clear_history h).
Proof. apply (monotone_list_mutate _ (fun _ => [])). Qed.

Lemma monotone_get_history h : monotone (CalculationHistory.get_history h).
Proof.
  apply monotone_bind; [apply monotone_get_list|]. intros items σ.
  apply evolves_alloc. discriminate.
Qed.

Lemma monotone_get_last_calculation h :
  monotone (CalculationHistory.get_last_calculation h).
Proof.
  apply monotone_bind; [apply monotone_get_list|]. intros items.
  destruct (last items); [apply monotone_ret|apply monotone_raise].
Qed.

Lemma monotone_len h : monotone (CalculationHistory.__len__ h).
Proof.
  apply monotone_bind; [apply monotone_get_list|]. intros items.
  apply monotone_ret.
Qed.

Lemma monotone_history_init : monotone CalculationHistory.__init__.
Proof.
  apply monotone_bind; [|intros; apply monotone_ret].
  intros σ. apply evolves_alloc. discriminate.
Qed.

Lemma monotone_Calculator_init : monotone Calculator.__init__.
Proof.
  apply monotone_bind; [apply monotone_history_init|].
  intros; apply monotone_ret.
Qed.

Lemma monotone_calculate self x token y :
  monotone (Calculator.calculate self x token y).
Proof.
  unfold Calculator.calculate.
  destruct (operations self !! token); [|apply monotone_raise].
  apply monotone_bind; [apply monotone_create_calculation|]. intros c.
  apply monotone_bind; [apply monotone_result|]. intros r.
  apply monotone_bind; [apply monotone_add_calculation|]. intros _.
  apply monotone_ret.
Qed.

Lemma monotone_clear self : monotone (Calculator._clear_history self).
Proof.
  apply monotone_bind; [apply monotone_clear_history|]. intros _.
  apply monotone_print.
Qed.

Lemma monotone_process_calculation self user_input :
  monotone (Calculator._process_calculation self user_input).
Proof.
  unfold Calculator._process_calculation. apply monotone_try.
  - destruct (pystr.split user_input) as [|p0 [|p1 [|p2 [|]]]];
      try apply monotone_raise.
    destruct (operations self !! pystr.lower p1); [|apply monotone_raise].
    apply monotone_bind.
    + apply monotone_try.
      * apply monotone_bind; [apply monotone_lift|]. intros x.
        apply monotone_bind; [apply monotone_lift|]. intros y.
        apply monotone_ret.
      * intros [] h; intros [= <-]. apply monotone_raise.
    + intros [x y].
      apply monotone_bind; [apply monotone_create_calculation|]. intros c.
      apply monotone_try.
      * apply monotone_bind; [apply monotone_result|]. intros r.
        apply monotone_bind; [apply monotone_add_calculation|]. intros _.
        apply monotone_bind; [apply monotone_Calculation_str|]. intros text.
        apply monotone_print.
      * intros [] h; intros [= <-]. apply monotone_print.
  - intros [] h; intros [= <-].
    apply monotone_bind; [apply monotone_print|]. intros _.
    apply monotone_print.
Qed.

(** ** Repeated reads of [result] *)

Lemma read_failed_again self c e :
  _result c = None ->
  operation.execute (runtime.operation c) (a c) (b c) = Raises e ->
  forall n σ, is_Calculation σ self c ->
    read_result_times n self σ =
    (repeat (Raises e) n,
     mkState (heap σ) (stdout σ) (executed σ ++ repeat (execution_of c) n)).
Proof.
  intros Hn He. induction n as [|n IH]; intros σ Hc; simpl.
  - rewrite app_nil_r. by destruct σ.
  - rewrite (result_failed _ _ _ _ Hc Hn He).
    rewrite IH by exact Hc. simpl. by rewrite <- app_assoc.
Qed.


(** ** [Calculation.__str__] *)

Lemma str_cached σ self c v :
  is_Calculation σ self c -> _result c = Some v ->
  Calculation.__str__ self σ = (Returns (display c v), σ).
Proof.
  intros Hc Hv. unfold Calculation.__str__.
  rewrite (bind_returns _ _ _ _ _ (run_get_Calculation _ _ _ Hc)).
  by rewrite (bind_returns _ _ _ _ _ (result_cached _ _ _ _ Hc Hv)).
Qed.

Lemma str_computed σ self c v :
  is_Calculation σ self c -> _result c = None ->
  operation.execute (runtime.operation c) (a c) (b c) = Returns v ->
  Calculation.__str__ self σ =
  (Returns (display c v),
   mkState (<[self := Obj_Calculation (with_result c v)]> (heap σ)) (stdout σ)
           (executed σ ++ [execution_of c])).
Proof.
  intros Hc Hn Hv. unfold Calculation.__str__.
  rewrite (bind_returns _ _ _ _ _ (run_get_Calculation _ _ _ Hc)).
  by rewrite (bind_returns _ _ _ _ _ (result_computed _ _ _ _ Hc Hn Hv)).
Qed.

Lemma str_failed σ self c e :
  is_Calculation σ self c -> _result c = None ->
  operation.execute (runtime.operation c) (a c) (b c) = Raises e ->
  Calculation.__str__ self σ =
  (Raises e, mkState (heap σ) (stdout σ) (executed σ ++ [execution_of c])).
Proof.
  intros Hc Hn He. unfold Calculation.__str__.
  rewrite (bind_returns _ _ _ _ _ (run_get_Calculation _ _ _ Hc)).
  by rewrite (bind_raises _ _ _ _ _ (result_failed _ _ _ _ Hc Hn He)).
Qed.

(** ** The calculator *)

Lemma run_create_calculation σ x y op :
  CalculationFactory.create_calculation x y op σ =
  (Returns (fresh (dom (heap σ))),
   set_heap (insert (fresh (dom (heap σ)))
                    (Obj_Calculation (mkCalculation x y op None))) σ).
Proof. reflexivity. Qed.

(** The operation table has the eight keys of the dictionary literal. *)
Lemma operations_table_lookup token op :
  Calculator.operations_table !! token = Some op ->
  (token, op) ∈ [("+", Addition); ("-", Subtraction); ("*", Multiplication);
                 ("/", Division); ("add", Addition); ("subtract", Subtraction);
                 ("multiply", Multiplication); ("divide", Division)].
Proof.
  unfold Calculator.operations_table. intros H.
  repeat (apply lookup_insert_Some in H as [[<- <-]|[_ H]];
          [repeat first [apply list_elem_of_here | apply list_elem_of_further]|]).
  by rewrite lookup_empty in H.
Qed.

Lemma operations_table_lower token op :
  Calculator.operations_table !! token = Some op ->
  pystr.has_upper token = false.
Proof.
  intros H. apply operations_table_lookup in H.
  repeat (apply elem_of_cons in H as [[= -> _]|H]; [reflexivity|]).
  by apply elem_of_nil in H.
Qed.

Section Calculate.

Variables (self : Calculator) (σ : state) (x y : Decimal) (op : Operation).
Variable items : list loc.
Hypothesis Hhist : history_items σ (history self) items.

Lemma created_is_Calculation :
  is_Calculation (created σ x y op) (new_loc σ) (mkCalculation x y op None).
Proof. apply lookup_alloc_new. Qed.

Lemma created_history : history_items (created σ x y op) (history self) items.
Proof. by apply history_items_alloc. Qed.

Lemma created_ne_history : new_loc σ <> _history (history self).
Proof. eapply fresh_loc_ne, Hhist. Qed.

Lemma recorded_is_Calculation v :
  is_Calculation (recorded (history self) σ items x y op v) (new_loc σ)
                 (mkCalculation x y op (Some v)).
Proof.
  unfold is_Calculation, recorded. simpl.
  rewrite lookup_insert_ne by (apply not_eq_sym, created_ne_history).
  apply lookup_insert_eq.
Qed.

Lemma recorded_history v :
  history_items (recorded (history self) σ items x y op v) (history self)
                (items ++ [new_loc σ])%list.
Proof. unfold history_items, recorded. simpl. apply lookup_insert_eq. Qed.

Lemma run_result_created v :
  operation.execute op x y = Returns v ->
  Calculation.result (new_loc σ) (created σ x y op) =
  (Returns v,
   mkState (<[new_loc σ := Obj_Calculation (mkCalculation x y op (Some v))]>
              (heap (created σ x y op)))
           (stdout σ) (executed σ ++ [(op, x, y)])).
Proof.
  intros Hv.
  apply (result_computed _ _ _ v created_is_Calculation eq_refl Hv).
Qed.

Lemma run_result_created_failed e :
  operation.execute op x y = Raises e ->
  Calculation.result (new_loc σ) (created σ x y op) =
  (Raises e,
   mkState (heap (created σ x y op)) (stdout σ) (executed σ ++ [(op, x, y)])).
Proof.
  intros He.
  apply (result_failed _ _ _ e created_is_Calculation eq_refl He).
Qed.

Lemma run_add_created v :
  CalculationHistory.add_calculation (history self) (new_loc σ)
    (mkState (<[new_loc σ := Obj_Calculation (mkCalculation x y op (Some v))]>
                (heap (created σ x y op)))
             (stdout σ) (executed σ ++ [(op, x, y)])) =
  (Returns tt, recorded (history self) σ items x y op v).
Proof.
  erewrite run_add_calculation; [reflexivity|].
  unfold history_items. simpl.
  rewrite lookup_insert_ne by apply created_ne_history.
  rewrite lookup_insert_ne by apply created_ne_history. exact Hhist.
Qed.

Lemma calculate_computed token v :
  operations self !! token = Some op ->
  operation.execute op x y = Returns v ->
  Calculator.calculate self x token y σ =
  (Returns v, recorded (history self) σ items x y op v).
Proof.
  intros Hop Hv. unfold Calculator.calculate. rewrite Hop.
  rewrite (bind_returns _ _ _ _ _ (run_create_calculation _ _ _ _)).
  rewrite (bind_returns _ _ _ _ _ (run_result_created v Hv)).
  rewrite (bind_returns _ _ _ _ _ (run_add_created v)). reflexivity.
Qed.

Lemma calculate_failed token e :
  operations self !! token = Some op ->
  operation.execute op x y = Raises e ->
  Calculator.calculate self x token y σ =
  (Raises e,
   mkState (heap (created σ x y op)) (stdout σ) (executed σ ++ [(op, x, y)])).
Proof.
  intros Hop He. unfold Calculator.calculate. rewrite Hop.
  rewrite (bind_returns _ _ _ _ _ (run_create_calculation _ _ _ _)).
  by rewrite (bind_raises _ _ _ _ _ (run_result_created_failed e He)).
Qed.

Lemma calculate_unknown token :
  operations self !! token = None ->
  Calculator.calculate self x token y σ = (Raises (UnknownOperation_kind token), σ).
Proof. intros Hop. unfold Calculator.calculate. by rewrite Hop. Qed.

Variables (user_input p0 p1 p2 : string).
Hypothesis Hsplit : pystr.split user_input = [p0; p1; p2].
Hypothesis Hop : operations self !! pystr.lower p1 = Some op.
Hypothesis Hx : decimal.of_str p0 = Returns x.
Hypothesis Hy : decimal.of_str p2 = Returns y.

Lemma process_parsed :
  Calculator._process_calculation self user_input σ =
  try_except
    (try_except
       (result ← Calculation.result (new_loc σ);
        CalculationHistory.add_calculation (history self) (new_loc σ);;
        text ← Calculation.__str__ (new_loc σ);
        print ("Result: " ++ text))
       (fun e =>
          match e with
          | ValueError msg => Some (print ("Error: " ++ msg))
          | _ => None
          end))
    (fun e =>
       match e with
       | ValueError msg =>
           Some (print ("Error: " ++ msg);;
                 print "Use 'help' command for usage instructions.")
       | _ => None
       end)
    (created σ x y op).
Proof.
  unfold Calculator._process_calculation. rewrite Hsplit, Hop.
  unfold try_except at 1 3. unfold try_except at 2.
  rewrite !run_bind. unfold lift. rewrite Hx, Hy. reflexivity.
Qed.

Lemma process_computed v :
  operation.execute op x y = Returns v ->
  Calculator._process_calculation self user_input σ =
  (Returns tt,
   with_stdout (recorded (history self) σ items x y op v)
     (stdout σ ++ ["Result: " ++ display (mkCalculation x y op None) v])).
Proof.
  intros Hv. rewrite process_parsed.
  apply try_returns, try_returns.
  rewrite (bind_returns _ _ _ _ _ (run_result_created v Hv)).
  rewrite (bind_returns _ _ _ _ _ (run_add_created v)).
  by rewrite (bind_returns _ _ _ _ _
               (str_cached _ _ _ v (recorded_is_Calculation v) eq_refl)).
Qed.

Lemma process_value_error msg :
  operation.execute op x y = Raises (ValueError msg) ->
  Calculator._process_calculation self user_input σ =
  (Returns tt,
   mkState (heap (created σ x y op)) (stdout σ ++ ["Error: " ++ msg])
           (executed σ ++ [(op, x, y)])).
Proof.
  intros He. rewrite process_parsed.
  apply try_returns. erewrite try_caught; cycle 1.
  - apply bind_raises, (run_result_created_failed _ He).
  - reflexivity.
  - reflexivity.
Qed.

Lemma process_other_error e :
  operation.execute op x y = Raises e ->
  (forall msg, e <> ValueError msg) ->
  Calculator._process_calculation self user_input σ =
  (Raises e,
   mkState (heap (created σ x y op)) (stdout σ) (executed σ ++ [(op, x, y)])).
Proof.
  intros He Hne. rewrite process_parsed.
  assert (forall (A : Type) (h : string -> M A),
            match e with ValueError msg => Some (h msg) | _ => None end = None)
    as Hnone by (intros A h; destruct e; try done; by edestruct Hne).
  apply try_uncaught; [|apply Hnone].
  apply try_uncaught; [|apply Hnone].
  apply bind_raises, (run_result_created_failed _ He).
Qed.

End Calculate.

Lemma of_str_raises s e :
  decimal.of_str s = Raises e ->
  e = InvalidOperation "[<class 'decimal.ConversionSyntax'>]".
Proof.
  unfold decimal.of_str. repeat case_match; intros [=]; done.
Qed.

Lemma process_unknown_operation (self : Calculator) (σ : state)
  (user_input p0 p1 p2 : string) :
  pystr.split user_input = [p0; p1; p2] ->
  operations self !! pystr.lower p1 = None ->
  Calculator._process_calculation self user_input σ =
    (Returns tt,
     with_stdout σ (stdout σ ++ ["Error: Unknown operation: " ++ pystr.lower p1;
                                usage_hint])).
Proof.
  intros Hs Hop. unfold Calculator._process_calculation. rewrite Hs, Hop.
  unfold usage_hint, with_stdout. cbn. rewrite run_bind. unfold print.
  cbn [heap stdout executed]. by rewrite <- app_assoc.
Qed.

(** Whatever the call, the history changes only by the append of a computed
    calculation. *)
Lemma calculate_appends self x token y σ :
  appended_when_computed (history self) σ
    (snd (Calculator.calculate self x token y σ)).
Proof.
  intros items Hh.
  destruct (operations self !! token) as [op|] eqn:Hop.
  - destruct (operation.execute op x y) as [v|e] eqn:He.
    + rewrite (calculate_computed _ _ _ _ _ _ Hh _ _ Hop He). right.
      exists (new_loc σ), (mkCalculation x y op (Some v)), v.
      split; [by apply recorded_history|].
      split; [by apply recorded_is_Calculation|]. done.
    + rewrite (calculate_failed _ _ _ _ _ _ _ Hop He). left.
      by apply created_history.
  - rewrite (calculate_unknown _ _ _ _ _ Hop). by left.
Qed.

Lemma process_appends self user_input σ :
  appended_when_computed (history self) σ
    (snd (Calculator._process_calculation self user_input σ)).
Proof.
  intros items Hh.
  destruct (pystr.split user_input) as [|p0 [|p1 [|p2 [|]]]] eqn:Hs;
    try (unfold Calculator._process_calculation; rewrite Hs; by left).
  destruct (operations self !! pystr.lower p1) as [op|] eqn:Hop;
    [|unfold Calculator._process_calculation; rewrite Hs, Hop; by left].
  destruct (decimal.of_str p0) as [x|e0] eqn:Hx.
  2:{ apply of_str_raises in Hx as Hx'. subst e0.
      unfold Calculator._process_calculation. rewrite Hs, Hop.
      unfold try_except, lift. rewrite !run_bind, Hx. by left. }
  destruct (decimal.of_str p2) as [y|e2] eqn:Hy.
  2:{ apply of_str_raises in Hy as Hy'. subst e2.
      unfold Calculator._process_calculation. rewrite Hs, Hop.
      unfold try_except, lift. rewrite !run_bind, Hx, Hy. by left. }
  destruct (operation.execute op x y) as [v|e] eqn:He.
  - rewrite (process_computed _ _ _ _ _ _ Hh _ _ _ _ Hs Hop Hx Hy _ He). right.
    exists (new_loc σ), (mkCalculation x y op (Some v)), v.
    split; [by apply recorded_history|].
    split; [by apply recorded_is_Calculation|]. done.
  - left. destruct e as [msg| | | | |].
    + rewrite (process_value_error _ _ _ _ _ _ _ _ _ Hs Hop Hx Hy _ He).
      by apply created_history.
    + erewrite process_other_error by done. by apply created_history.
    + erewrite process_other_error by done. by apply created_history.
    + erewrite process_other_error by done. by apply created_history.
    + erewrite process_other_error by done. by apply created_history.
    + erewrite process_other_error by done. by apply created_history.
Qed.

(** ** Zero and division *)

Lemma eq_zero_finite s c e :
  decimal.__eq__ (Finite s c e) (decimal.of_int 0) = Returns (c =? 0)%N.
Proof.
  unfold decimal.__eq__, decimal.of_int. simpl.
  destruct (N.eqb_spec c 0) as [->|Hc]; simpl; [reflexivity|].
  destruct s; reflexivity.
Qed.

(** [b == 0] holds exactly for the finite decimals with coefficient zero,
    of either sign and any exponent. *)
Lemma equals_zero_iff y :
  equals_zero y <-> exists s e, y = Finite s 0 e.
Proof.
  unfold equals_zero. split.
  - destruct y as [s c e|s|s [] p].
    + rewrite eq_zero_finite. intros [= Hc]. apply N.eqb_eq in Hc. subst. eauto.
    + destruct s; discriminate.
    + discriminate.
    + discriminate.
  - intros (s & e & ->). apply eq_zero_finite.
Qed.

Lemma Division_execute_zero x y :
  equals_zero y -> Division.execute x y = Raises DivisionByZero_kind.
Proof. intros H. unfold Division.execute. rewrite H. reflexivity. Qed.

Lemma Division_execute_nonzero x y :
  ~ equals_zero y -> Division.execute x y = decimal.__truediv__ x y.
Proof.
  unfold equals_zero. intros H. unfold Division.execute.
  destruct y as [s c e|s|s [] p].
  - rewrite eq_zero_finite in *. destruct (c =? 0)%N; [congruence|reflexivity].
  - destruct s; reflexivity.
  - destruct x as [? ? ?|?|? [] ?]; reflexivity.
  - reflexivity.
Qed.

(** ** Digits and powers of ten *)

Lemma pow10_gt0 k : 0 <= k -> 0 < 10 ^ k.
Proof. intros. by apply Z.pow_pos_nonneg. Qed.

Lemma pow10_succ k : 0 <= k -> 10 ^ (k + 1) = 10 * 10 ^ k.
Proof. intros. rewrite Z.pow_add_r by lia. lia. Qed.

Lemma pow10_split a b : 0 <= a -> 0 <= b -> 10 ^ (a + b) = 10 ^ a * 10 ^ b.
Proof. intros. by apply Z.pow_add_r. Qed.

Lemma pow10_le a b : 0 <= a <= b -> 10 ^ a <= 10 ^ b.
Proof. intros. apply Z.pow_le_mono_r; lia. Qed.

Lemma ndigits_fuel_spec fuel n :
  0 < n -> n < 2 ^ (Z.of_nat fuel + 1) ->
  1 <= ndigits_fuel fuel n /\
  10 ^ (ndigits_fuel fuel n - 1) <= n < 10 ^ ndigits_fuel fuel n.
Proof.
  revert n. induction fuel as [|fuel IH]; intros n Hpos Hlt.
  - simpl in *. assert (n = 1) as -> by lia. simpl. lia.
  - cbn [ndigits_fuel]. destruct (Z.ltb_spec n 10) as [Hs|Hs].
    + simpl. lia.
    + assert (0 < n / 10) as Hq by (apply Z.div_str_pos; lia).
      assert (n / 10 < 2 ^ (Z.of_nat fuel + 1)) as Hq'.
      { apply Z.div_lt_upper_bound; [lia|].
        replace (Z.of_nat (S fuel) + 1) with ((Z.of_nat fuel + 1) + 1) in Hlt by lia.
        rewrite Z.pow_add_r in Hlt by lia.
        assert (0 < 2 ^ (Z.of_nat fuel + 1)) by (apply Z.pow_pos_nonneg; lia).
        lia. }
      destruct (IH _ Hq Hq') as (H1 & Hlo & Hhi).
      set (d := ndigits_fuel fuel (n / 10)) in *.
      replace (1 + d - 1) with ((d - 1) + 1) by lia.
      replace (1 + d) with (d + 1) by lia.
      rewrite !pow10_succ by lia.
      pose proof (Z.div_mod n 10 ltac:(lia)) as Hdm.
      pose proof (Z.mod_pos_bound n 10 ltac:(lia)) as Hm.
      lia.
Qed.

Lemma ndigits_spec n :
  0 < n -> 1 <= ndigits n /\ 10 ^ (ndigits n - 1) <= n < 10 ^ ndigits n.
Proof.
  intros Hpos. apply ndigits_fuel_spec; [done|].
  rewrite Z2Nat.id by apply Z.log2_nonneg.
  replace (Z.log2 n + 1) with (Z.succ (Z.log2 n)) by lia.
  by apply Z.log2_spec.
Qed.





(** ** Rounding to nearest, ties to even *)



(** ** [_fix] *)












(** ** Correct rounding *)




(** [_fix] on a zero coefficient. *)
Lemma fix_zero s e :
  _fix (Finite s 0 e) = Returns (Finite s 0 (Z.min (Z.max e Etiny) Emax)).
Proof. reflexivity. Qed.




(** ** Multiplication *)

Lemma mul_finite s1 c1 e1 s2 c2 e2 :
  __mul__ (Finite s1 c1 e1) (Finite s2 c2 e2) =
  _fix (Finite (xorb s1 s2) (c1 * c2) (e1 + e2)).
Proof.
  unfold __mul__, _dec_from_triple. simpl.
  destruct (N.eqb_spec c1 0) as [->|H1]; simpl.
  { reflexivity. }
  destruct (N.eqb_spec c2 0) as [->|H2]; simpl.
  { by rewrite N.mul_0_r. }
  destruct (N.eqb_spec c1 1) as [->|H1'].
  { by rewrite N2Z.id, N.mul_1_l. }
  destruct (N.eqb_spec c2 1) as [->|H2'].
  { by rewrite N2Z.id, N.mul_1_r. }
  by rewrite <- N2Z.inj_mul, N2Z.id.
Qed.

(** ** Division *)


Lemma div_eucl_div_mod x y : Z.div_eucl x y = (x / y, x mod y).
Proof. unfold Z.div, Z.modulo. by destruct (Z.div_eucl x y). Qed.




(** ** Addition and subtraction *)

Lemma normalize_aligned ct et co eo :
  0 < ct -> 0 < co -> eo <= et ->
  let exp := et + Z.min (-1) (ndigits ct - prec - 2) in
  let tiny := ndigits co + eo - 1 <? exp in
  aligned ct et co eo
    (ct * 10 ^ (et - (if tiny then exp else eo)))
    (if tiny then 1 else co)
    (if tiny then exp else eo).
Proof.
  intros Hct Hco Hle exp tiny. subst tiny.
  destruct (Z.ltb_spec (ndigits co + eo - 1) exp) as [Htiny|Hexact].
  2:{ by apply aligned_exact. }
  destruct (ndigits_spec ct Hct) as (Hn1 & Hlo1 & Hhi1).
  destruct (ndigits_spec co Hco) as (Hn2 & Hlo2 & Hhi2).
  apply aligned_tiny; try done; try lia.
  - assert (10 ^ ndigits co <= 10 ^ (exp - eo)) by (apply pow10_le; lia). lia.
  - assert (10 ^ (prec + 1) <= 10 ^ (ndigits ct - 1) * 10 ^ (et - exp)).
    { rewrite <- pow10_split by lia. apply pow10_le. unfold prec in *. lia. }
    assert (0 < 10 ^ (et - exp)) by (apply pow10_gt0; lia). nia.
  - replace (et - exp) with ((et - exp - 1) + 1) by lia.
    rewrite pow10_succ by lia.
    replace (ct * (10 * 10 ^ (et - exp - 1)))
      with (ct * 10 ^ (et - exp - 1) * 10) by ring.
    apply Z.mod_mul. lia.
Qed.

Lemma normalize_spec s1 c1 e1 s2 c2 e2 :
  0 < c1 -> 0 < c2 ->
  exists A1 A2 E,
    _normalize (WorkRep s1 c1 e1) (WorkRep s2 c2 e2) =
      (WorkRep s1 A1 E, WorkRep s2 A2 E) /\
    ((e2 <= e1 /\ aligned c1 e1 c2 e2 A1 A2 E) \/
     (e1 < e2 /\ aligned c2 e2 c1 e1 A2 A1 E)).
Proof.
  intros H1 H2. unfold _normalize. simpl.
  destruct (Z.ltb_spec e1 e2) as [Hlt|Hge]; simpl.
  - pose proof (normalize_aligned c2 e2 c1 e1 H2 H1 ltac:(lia)) as Ha.
    cbv zeta in Ha.
    destruct (ndigits c1 + e1 - 1 <? e2 + Z.min (-1) (ndigits c2 - prec - 2));
      simpl; eexists _, _, _; (split; [reflexivity|]); right; by split.
  - pose proof (normalize_aligned c1 e1 c2 e2 H1 H2 ltac:(lia)) as Ha.
    cbv zeta in Ha.
    destruct (ndigits c2 + e2 - 1 <? e1 + Z.min (-1) (ndigits c1 - prec - 2));
      simpl; eexists _, _, _; (split; [reflexivity|]); left; by split.
Qed.

Lemma add_nonzero s1 c1 e1 s2 c2 e2 :
  (c1 <> 0)%N -> (c2 <> 0)%N ->
  exists A1 A2 E,
    _normalize (WorkRep s1 (Z.of_N c1) e1) (WorkRep s2 (Z.of_N c2) e2) =
      (WorkRep s1 A1 E, WorkRep s2 A2 E) /\
    __add__ (Finite s1 c1 e1) (Finite s2 c2 e2) =
      combine s1 A1 s2 A2 E (Z.min e1 e2).
Proof.
  intros H1 H2.
  destruct (normalize_spec s1 (Z.of_N c1) e1 s2 (Z.of_N c2) e2)
    as (A1 & A2 & E & Hnorm & _); [lia|lia|].
  exists A1, A2, E. split; [done|].
  unfold __add__. simpl.
  destruct (N.eqb_spec c1 0) as [|_]; [done|].
  destruct (N.eqb_spec c2 0) as [|_]; [done|]. simpl.
  rewrite Hnorm. unfold combine. simpl.
  destruct (negb (Bool.eqb s1 s2)); [|done].
  destruct (A1 =? A2); [done|]. by destruct (A1 <? A2).
Qed.





Lemma fix_total s c e :
  (exists r, _fix (Finite s c e) = Returns r) \/
  _fix (Finite s c e) = Raises (Overflow "above Emax").
Proof.
  unfold _fix. repeat case_match; eauto.
Qed.



Lemma add_total s1 c1 e1 s2 c2 e2 :
  (exists r, __add__ (Finite s1 c1 e1) (Finite s2 c2 e2) = Returns r) \/
  __add__ (Finite s1 c1 e1) (Finite s2 c2 e2) = Raises (Overflow "above Emax").
Proof.
  destruct (N.eq_dec c1 0%N) as [->|H1]; [|destruct (N.eq_dec c2 0%N) as [->|H2]].
  - unfold __add__. cbn [_check_nans mbind outcome_bind __bool__ negb N.eqb andb].
    destruct (negb (c2 =? 0)%N); cbn [negb andb]; unfold _rescale, _dec_from_triple;
      repeat case_match; apply fix_total.
  - unfold __add__. cbn [_check_nans mbind outcome_bind __bool__ negb N.eqb andb].
    destruct (negb (c1 =? 0)%N); cbn [negb andb]; unfold _rescale, _dec_from_triple;
      repeat case_match; apply fix_total.
  - destruct (add_nonzero s1 c1 e1 s2 c2 e2 H1 H2) as (A1 & A2 & E & _ & ->).
    unfold combine, _dec_from_triple. repeat case_match; apply fix_total.
Qed.

Lemma sub_finite s1 c1 e1 s2 c2 e2 :
  __sub__ (Finite s1 c1 e1) (Finite s2 c2 e2) =
  __add__ (Finite s1 c1 e1) (Finite (negb s2) c2 e2).
Proof. reflexivity. Qed.












(** ** The claims *)



(** C2. [Division.execute(a, b)] raises the division-by-zero error for every
    [a] whenever [b == 0] holds; no value is returned. *)
Theorem division_by_zero_raises (x y : Decimal) :
  equals_zero y ->
  Division.execute x y = Raises DivisionByZero_kind /\
  operation.execute Division x y = Raises DivisionByZero_kind.
Proof. intros H. split; apply Division_execute_zero, H. Qed.

Lemma division_by_zero_raises_witness :
  equals_zero (decimal.of_int 0) /\
  Division.execute (decimal.of_int 5) (decimal.of_int 0) =
  Raises (ValueError "Cannot divide by zero").
Proof.
  assert (equals_zero (decimal.of_int 0)) as Hz by reflexivity.
  split; [exact Hz|].
  apply (division_by_zero_raises (decimal.of_int 5) (decimal.of_int 0) Hz).
Defined.

(** C3. A request that fails with division by zero reports the error and
    leaves the history as it was, through [Calculator.calculate] (the error
    is raised to the caller) and through [_process_calculation] (the error is
    printed).  In both, whatever the request, the history changes only by the
    append of a calculation whose result has been computed. *)
Theorem division_by_zero_leaves_history (self : Calculator) (σ : state)
  (items : list loc) (x y : Decimal) :
  history_items σ (history self) items ->
  equals_zero y ->
  (forall token, operations self !! token = Some Division ->
     exists σ',
       Calculator.calculate self x token y σ = (Raises DivisionByZero_kind, σ') /\
       history_items σ' (history self) items /\
       stdout σ' = stdout σ) /\
  (forall user_input p0 p1 p2,
     pystr.split user_input = [p0; p1; p2] ->
     operations self !! pystr.lower p1 = Some Division ->
     decimal.of_str p0 = Returns x ->
     decimal.of_str p2 = Returns y ->
     exists σ',
       Calculator._process_calculation self user_input σ = (Returns tt, σ') /\
       history_items σ' (history self) items /\
       stdout σ' = (stdout σ ++ ["Error: Cannot divide by zero"])%list) /\
  (forall x' token y',
     appended_when_computed (history self) σ
       (snd (Calculator.calculate self x' token y' σ))) /\
  (forall user_input,
     appended_when_computed (history self) σ
       (snd (Calculator._process_calculation self user_input σ))).
Proof.
  intros Hh Hz.
  assert (operation.execute Division x y = Raises DivisionByZero_kind) as He
    by apply Division_execute_zero, Hz.
  split; [|split; [|split]].
  - intros token Hop. eexists. split; [by eapply calculate_failed|].
    split; [by apply created_history|done].
  - intros user_input p0 p1 p2 Hs Hop Hx Hy. eexists.
    split; [by eapply process_value_error|].
    split; [by apply created_history|done].
  - intros. apply calculate_appends.
  - intros. apply process_appends.
Qed.

Lemma division_by_zero_leaves_history_witness :
  let self := mkCalculator Calculator.operations_table (mkCalculationHistory 0%nat) in
  let σ := snd (Calculator.__init__ initial) in
  history_items σ (history self) [] /\
  equals_zero (decimal.of_int 0) /\
  exists σ',
    Calculator._process_calculation self "5 / 0" σ = (Returns tt, σ') /\
    history_items σ' (history self) [] /\
    stdout σ' = ["Error: Cannot divide by zero"].
Proof.
  intros self σ.
  assert (history_items σ (history self) []) as Hh by reflexivity.
  assert (equals_zero (decimal.of_int 0)) as Hz by reflexivity.
  split; [exact Hh|]. split; [exact Hz|].
  destruct (division_by_zero_leaves_history self σ [] (decimal.of_int 5)
              (decimal.of_int 0) Hh Hz) as (_ & Hprocess & _).
  apply (Hprocess "5 / 0" "5" "/" "0"); reflexivity.
Defined.

(** C4. When a read of [result] on a [Calculation] raises (division by zero
    is the case at hand), every later read raises the same exception: the
    failure is not cached, the store is as before the first read, and each
    read evaluates [execute] anew on the same operands. *)
Theorem failed_result_fails_again (σ σ1 : state) (self : loc)
  (c : Calculation) (e : exn) :
  is_Calculation σ self c ->
  Calculation.result self σ = (Raises e, σ1) ->
  heap σ1 = heap σ /\
  forall n,
    fst (read_result_times n self σ1) = repeat (Raises e) n /\
    heap (snd (read_result_times n self σ1)) = heap σ /\
    executed (snd (read_result_times n self σ1)) =
      (executed σ1 ++ repeat (execution_of c) n)%list.
Proof.
  intros Hc Hr.
  destruct (result_cases σ self c Hc) as [v Hv|v Hn He|e' Hn He];
    try discriminate.
  injection Hr as -> <-. split; [done|]. intros n.
  rewrite (read_failed_again self c e Hn He n); [done|exact Hc].
Qed.

Lemma failed_result_fails_again_witness :
  let σ := snd (Calculation.__init__ (decimal.of_int 5) (decimal.of_int 0)
                  Division initial) in
  let c := mkCalculation (decimal.of_int 5) (decimal.of_int 0) Division None in
  let σ1 := mkState (heap σ) [] [execution_of c] in
  is_Calculation σ 0%nat c /\
  Calculation.result 0%nat σ = (Raises DivisionByZero_kind, σ1) /\
  fst (read_result_times 2 0%nat σ1) =
    [Raises DivisionByZero_kind; Raises DivisionByZero_kind].
Proof.
  intros σ c σ1.
  assert (is_Calculation σ 0%nat c) as Hc by reflexivity.
  assert (Calculation.result 0%nat σ = (Raises DivisionByZero_kind, σ1)) as Hr
    by reflexivity.
  split; [exact Hc|]. split; [exact Hr|].
  destruct (failed_result_fails_again σ σ1 0%nat c DivisionByZero_kind Hc Hr)
    as [_ Hagain].
  exact (proj1 (Hagain 2%nat)).
Defined.



(** C6. After [c1], [c2], [c3] are appended in that order to an empty
    history, [get_history()] returns a list whose items are exactly
    [c1; c2; c3] (equal references are kept apart, nothing is reordered) and
    [get_last_calculation()] returns [c3]. *)
Theorem history_keeps_insertion_order (σ : state) (h : CalculationHistory)
  (c1 c2 c3 : loc) :
  history_items σ h [] ->
  fst (append3_then_read h c1 c2 c3 σ) = Returns ([c1; c2; c3], c3).
Proof.
  intros H0. unfold append3_then_read.
  erewrite bind_returns by (eapply run_add_calculation, H0).
  erewrite bind_returns by (eapply run_add_calculation, history_items_put).
  erewrite bind_returns by (eapply run_add_calculation, history_items_put).
  erewrite bind_returns by (eapply run_get_history, history_items_put).
  erewrite bind_returns by (apply run_get_list, lookup_alloc_new).
  erewrite bind_returns; [reflexivity|].
  apply (run_get_last_calculation _ _ [c1; c2] c3).
  apply history_items_alloc, history_items_put.
Qed.

Lemma history_keeps_insertion_order_witness :
  let σ := snd (CalculationHistory.__init__ initial) in
  let h := mkCalculationHistory 0%nat in
  history_items σ h [] /\
  fst (append3_then_read h 7%nat 5%nat 7%nat σ) =
    Returns ([7%nat; 5%nat; 7%nat], 7%nat).
Proof.
  intros σ h.
  assert (history_items σ h []) as H0 by reflexivity.
  split; [exact H0|].
  apply (history_keeps_insertion_order σ h 7%nat 5%nat 7%nat H0).
Defined.

(** C7. [get_history()] returns a new list: whatever mutation [f] is applied
    to it, a later [get_history()] yields the stored items unchanged and the
    reported length is the same; only the list that was returned has
    changed. *)
Theorem get_history_returns_a_copy (σ : state) (h : CalculationHistory)
  (items : list loc) (f : list loc -> list loc) :
  history_items σ h items ->
  fst (snapshot_then_mutate h f σ) =
    Returns (items, Z.of_nat (length items), f items) /\
  history_items (snd (snapshot_then_mutate h f σ)) h items /\
  fst (CalculationHistory.get_history h σ) <> Returns (_history h).
Proof.
  intros H0.
  set (l := fresh (dom (heap σ))).
  set (σ1 := set_heap (insert l (Obj_list items)) σ).
  set (σ2 := set_heap (insert l (Obj_list (f items))) σ1).
  assert (l <> _history h) as Hne by (eapply fresh_loc_ne, H0).
  assert (history_items σ2 h items) as H2.
  { unfold history_items, σ2, σ1. simpl.
    rewrite !lookup_insert_ne by done. exact H0. }
  assert (snapshot_then_mutate h f σ =
          (Returns (items, Z.of_nat (length items), f items),
           set_heap (insert (fresh (dom (heap σ2))) (Obj_list items)) σ2)) as ->.
  { unfold snapshot_then_mutate.
    erewrite bind_returns by (apply run_get_history, H0).
    erewrite bind_returns by (apply run_list_mutate, lookup_alloc_new).
    erewrite bind_returns by (apply run_get_history, H2).
    erewrite bind_returns by (apply run_get_list, lookup_alloc_new).
    erewrite bind_returns by (apply run_len, history_items_alloc, H2).
    erewrite bind_returns; [reflexivity|].
    apply run_get_list, lookup_alloc. apply lookup_insert_eq. }
  split; [done|]. split; [by apply history_items_alloc|].
  rewrite (run_get_history _ _ _ H0). simpl. fold l. congruence.
Qed.

Lemma get_history_returns_a_copy_witness :
  let h := mkCalculationHistory 0%nat in
  let σ := snd (CalculationHistory.add_calculation h 4%nat
                  (snd (CalculationHistory.__init__ initial))) in
  history_items σ h [4%nat] /\
  fst (snapshot_then_mutate h (fun items => items ++ [9%nat])%list σ) =
    Returns ([4%nat], 1, [4%nat; 9%nat]).
Proof.
  intros h σ.
  assert (history_items σ h [4%nat]) as H0 by reflexivity.
  split; [exact H0|].
  exact (proj1 (get_history_returns_a_copy σ h [4%nat]
                  (fun items => items ++ [9%nat])%list H0)).
Defined.

(** C8. [get_last_calculation()] on an empty history raises the
    empty-history error and returns nothing: on a history that holds no
    item, on a newly created one, and on any history after
    [clear_history()]. *)
Theorem last_of_empty_history_raises (σ : state) (h : CalculationHistory)
  (items : list loc) :
  history_items σ h items ->
  (items = [] ->
   CalculationHistory.get_last_calculation h σ = (Raises EmptyHistory_kind, σ)) /\
  fst ((CalculationHistory.clear_history h;;
        CalculationHistory.get_last_calculation h) σ) =
    Raises EmptyHistory_kind /\
  fst ((h' ← CalculationHistory.__init__;
        CalculationHistory.get_last_calculation h') σ) =
    Raises EmptyHistory_kind.
Proof.
  intros H0. split; [|split].
  - intros ->. by apply run_get_last_calculation_empty.
  - erewrite bind_returns by (eapply run_clear_history, H0).
    by rewrite (run_get_last_calculation_empty _ _ (history_items_put _ _ _)).
  - rewrite (bind_returns _ _ _ _ _ (run_history_init σ)).
    erewrite run_get_last_calculation_empty; [done|]. apply lookup_alloc_new.
Qed.

Lemma last_of_empty_history_raises_witness :
  let h := mkCalculationHistory 0%nat in
  let σ := snd (CalculationHistory.add_calculation h 4%nat
                  (snd (CalculationHistory.__init__ initial))) in
  history_items σ h [4%nat] /\
  fst ((CalculationHistory.clear_history h;;
        CalculationHistory.get_last_calculation h) σ) =
    Raises (IndexError "No calculations in history").
Proof.
  intros h σ.
  assert (history_items σ h [4%nat]) as H0 by reflexivity.
  split; [exact H0|].
  exact (proj1 (proj2 (last_of_empty_history_raises σ h [4%nat] H0))).
Defined.

Lemma lower_char_idempotent ch :
  pystr.lower_char (pystr.lower_char ch) = pystr.lower_char ch.
Proof.
  destruct ch as [[] [] [] [] [] [] [] []]; reflexivity.
Qed.

Lemma lower_idempotent s : pystr.lower (pystr.lower s) = pystr.lower s.
Proof.
  induction s as [|ch s IH]; simpl; [done|].
  by rewrite lower_char_idempotent, IH.
Qed.

(** C9. [Calculator.calculate] looks the operation token up as it is: a
    token with an uppercase letter is not a key of the table, so the call
    raises the unknown-operation error and changes nothing (the history
    included).  [_process_calculation] looks up the lowercased token
    instead.  A request whose token, lowercased, is a key of the table is
    accepted whatever the case of its letters: it is computed with the
    operation of that key, printed and recorded.  A request whose lowercased
    token is no key is refused, with the lowercased token in the message.
    And two request lines that differ only in the case of the operation
    token are processed alike. *)
Theorem calculate_is_case_sensitive (h : CalculationHistory) (σ : state)
  (x y : Decimal) (token : string) :
  pystr.has_upper token = true ->
  Calculator.calculate (mkCalculator Calculator.operations_table h) x token y σ =
    (Raises (UnknownOperation_kind token), σ) /\
  (forall items user_input p0 p2 op x' y' v,
     history_items σ h items ->
     pystr.split user_input = [p0; token; p2] ->
     Calculator.operations_table !! pystr.lower token = Some op ->
     decimal.of_str p0 = Returns x' ->
     decimal.of_str p2 = Returns y' ->
     operation.execute op x' y' = Returns v ->
     exists σ' l,
       Calculator._process_calculation
         (mkCalculator Calculator.operations_table h) user_input σ =
         (Returns tt, σ') /\
       stdout σ' =
         (stdout σ ++
          [("Result: " ++ display (mkCalculation x' y' op None) v)%string])%list /\
       is_Calculation σ' l (mkCalculation x' y' op (Some v)) /\
       history_items σ' h (items ++ [l])) /\
  (forall user_input p0 p2,
     pystr.split user_input = [p0; token; p2] ->
     Calculator.operations_table !! pystr.lower token = None ->
     Calculator._process_calculation
       (mkCalculator Calculator.operations_table h) user_input σ =
     (Returns tt,
      with_stdout σ
        (stdout σ ++ ["Error: Unknown operation: " ++ pystr.lower token;
                      usage_hint]))) /\
  forall user_input user_input' p0 p2,
    pystr.split user_input = [p0; token; p2] ->
    pystr.split user_input' = [p0; pystr.lower token; p2] ->
    Calculator._process_calculation
      (mkCalculator Calculator.operations_table h) user_input σ =
    Calculator._process_calculation
      (mkCalculator Calculator.operations_table h) user_input' σ.
Proof.
  intros Hup. split; [|split; [|split]].
  - apply calculate_unknown. simpl.
    destruct (Calculator.operations_table !! token) as [op|] eqn:Hop; [|done].
    apply operations_table_lower in Hop. congruence.
  - intros items user_input p0 p2 op x' y' v Hh Hs Hop Hx Hy Hv.
    set (self := mkCalculator Calculator.operations_table h).
    exists (with_stdout (recorded (history self) σ items x' y' op v)
              (stdout σ ++ ["Result: " ++ display (mkCalculation x' y' op None) v])),
           (new_loc σ).
    split; [by eapply (process_computed self)|].
    split; [done|].
    split; [by apply (recorded_is_Calculation self σ x' y' op items Hh v)|].
    by apply (recorded_history self σ x' y' op items v).
  - intros user_input p0 p2 Hs Hop.
    by apply (process_unknown_operation _ _ _ p0 token p2).
  - intros user_input user_input' p0 p2 Hs Hs'.
    unfold Calculator._process_calculation.
    by rewrite Hs, Hs', lower_idempotent.
Qed.

Lemma calculate_is_case_sensitive_witness :
  let h := mkCalculationHistory 0%nat in
  let σ := snd (Calculator.__init__ initial) in
  pystr.has_upper "ADD" = true /\
  Calculator.calculate (mkCalculator Calculator.operations_table h)
    (decimal.of_int 5) "ADD" (decimal.of_int 3) σ =
    (Raises (ValueError "Unknown operation: ADD"), σ) /\
  (exists σ' l,
     Calculator._process_calculation
       (mkCalculator Calculator.operations_table h) "5 ADD 3" σ =
       (Returns tt, σ') /\
     stdout σ' = ["Result: 5 + 3 = 8"] /\
     is_Calculation σ' l
       (mkCalculation (decimal.of_int 5) (decimal.of_int 3) Addition
          (Some (decimal.of_int 8))) /\
     history_items σ' h [l]) /\
  Calculator._process_calculation
    (mkCalculator Calculator.operations_table h) "5 ADD 3" σ =
  Calculator._process_calculation
    (mkCalculator Calculator.operations_table h) "5 add 3" σ.
Proof.
  intros h σ.
  assert (pystr.has_upper "ADD" = true) as Hup by reflexivity.
  split; [exact Hup|].
  destruct (calculate_is_case_sensitive h σ (decimal.of_int 5) (decimal.of_int 3)
              "ADD" Hup) as (Hcalc & Haccepted & _ & Hproc).
  split; [exact Hcalc|]. split.
  - apply (Haccepted [] "5 ADD 3" "5" "3" Addition (decimal.of_int 5)
             (decimal.of_int 3) (decimal.of_int 8)); reflexivity.
  - apply (Hproc "5 ADD 3" "5 add 3" "5" "3"); reflexivity.
Defined.

(** C10. Formatting a [Calculation] as its display string reads [result].
    On a division whose second operand is zero it raises the
    division-by-zero error and returns no string.  On a calculation whose
    operation succeeds with [v] it returns ["<a> <token> <b> = <v>"] and
    leaves [v] cached: [execute] runs once if nothing was cached and not at
    all otherwise, nothing is printed, no other object changes, and a later
    read of [result] returns [v] without evaluating anything.  Whenever it
    returns, that is the case.  The calculation is any one whose cache is
    consistent, as it is from construction on. *)
Theorem str_evaluates_result (σ : state) (self : loc) (c : Calculation) :
  is_Calculation σ self c ->
  cache_consistent c ->
  (runtime.operation c = Division -> equals_zero (b c) ->
   exists σ',
     Calculation.__str__ self σ = (Raises DivisionByZero_kind, σ') /\
     heap σ' = heap σ /\ stdout σ' = stdout σ) /\
  (forall v,
     operation.execute (runtime.operation c) (a c) (b c) = Returns v ->
     exists σ',
       Calculation.__str__ self σ = (Returns (display c v), σ') /\
       is_Calculation σ' self (with_result c v) /\
       (forall l, l <> self -> heap σ' !! l = heap σ !! l) /\
       stdout σ' = stdout σ /\
       executed σ' =
         (executed σ ++
          match _result c with
          | Some _ => []
          | None => [execution_of c]
          end)%list /\
       Calculation.result self σ' = (Returns v, σ')) /\
  (forall s σ',
     Calculation.__str__ self σ = (Returns s, σ') ->
     exists v,
       s = display c v /\
       operation.execute (runtime.operation c) (a c) (b c) = Returns v /\
       is_Calculation σ' self (with_result c v) /\
       Calculation.result self σ' = (Returns v, σ')).
Proof.
  intros Hc Hcons.
  assert (forall v, _result c = Some v -> with_result c v = c) as Hsame
    by (intros v Hr; destruct c; unfold with_result; simpl in *; by subst).
  assert (forall v,
            is_Calculation
              (mkState (<[self:=Obj_Calculation (with_result c v)]> (heap σ))
                       (stdout σ) (executed σ ++ [execution_of c]))
              self (with_result c v)) as Hput
    by (intros v; apply lookup_insert_eq).
  split; [|split].
  - intros Hop Hz.
    assert (operation.execute (runtime.operation c) (a c) (b c) =
            Raises DivisionByZero_kind) as He
      by (rewrite Hop; apply Division_execute_zero, Hz).
    destruct (_result c) as [v|] eqn:Hr.
    + rewrite (Hcons v Hr) in He. discriminate.
    + eexists. split; [by apply str_failed|done].
  - intros v Hv. destruct (_result c) as [v'|] eqn:Hr.
    + assert (v' = v) as -> by (apply Hcons in Hr; congruence).
      exists σ. split; [by apply str_cached|].
      rewrite (Hsame v eq_refl). split; [done|]. split; [done|]. split; [done|].
      split; [by rewrite app_nil_r|]. by apply (result_cached _ _ c).
    + eexists. split; [by apply str_computed|].
      split; [apply Hput|].
      split; [intros l Hl; by apply lookup_insert_ne|].
      split; [done|]. split; [done|].
      by apply (result_cached _ _ (with_result c v)).
  - intros s σ' Hs. destruct (_result c) as [v|] eqn:Hr.
    + rewrite (str_cached _ _ _ _ Hc Hr) in Hs. injection Hs as <- <-.
      exists v. split; [done|]. split; [by apply Hcons|].
      rewrite (Hsame v eq_refl).
      split; [done|]. by apply (result_cached _ _ c).
    + destruct (operation.execute (runtime.operation c) (a c) (b c))
        as [v|e] eqn:He.
      * rewrite (str_computed _ _ _ _ Hc Hr He) in Hs. injection Hs as <- <-.
        exists v. split; [done|]. split; [done|].
        split; [apply Hput|]. by apply (result_cached _ _ (with_result c v)).
      * rewrite (str_failed _ _ _ _ Hc Hr He) in Hs. discriminate.
Qed.

Lemma str_evaluates_result_witness :
  let σ := snd (Calculation.__init__ (decimal.of_int 5) (decimal.of_int 0)
                  Division initial) in
  let c := mkCalculation (decimal.of_int 5) (decimal.of_int 0) Division None in
  let τ := snd (Calculation.__init__ (decimal.of_int 15) (decimal.of_int 3)
                  Division initial) in
  let d := mkCalculation (decimal.of_int 15) (decimal.of_int 3) Division None in
  (is_Calculation σ 0%nat c /\ cache_consistent c /\
   exists σ',
     Calculation.__str__ 0%nat σ =
       (Raises (ValueError "Cannot divide by zero"), σ') /\
     heap σ' = heap σ /\ stdout σ' = stdout σ) /\
  (is_Calculation τ 0%nat d /\ cache_consistent d /\
   exists τ',
     Calculation.__str__ 0%nat τ = (Returns "15 / 3 = 5", τ') /\
     is_Calculation τ' 0%nat
       (mkCalculation (decimal.of_int 15) (decimal.of_int 3) Division
          (Some (decimal.of_int 5))) /\
     executed τ' = [(Division, decimal.of_int 15, decimal.of_int 3)] /\
     Calculation.result 0%nat τ' = (Returns (decimal.of_int 5), τ')).
Proof.
  intros σ c τ d. split.
  - assert (is_Calculation σ 0%nat c) as Hc by reflexivity.
    assert (cache_consistent c) as Hcons by (intros v Hv; discriminate Hv).
    split; [exact Hc|]. split; [exact Hcons|].
    apply (proj1 (str_evaluates_result σ 0%nat c Hc Hcons)); reflexivity.
  - assert (is_Calculation τ 0%nat d) as Hd by reflexivity.
    assert (cache_consistent d) as Hcons by (intros v Hv; discriminate Hv).
    split; [exact Hd|]. split; [exact Hcons|].
    destruct (proj1 (proj2 (str_evaluates_result τ 0%nat d Hd Hcons))
                (decimal.of_int 5) eq_refl)
      as (τ' & Hstr & Hcached & _ & _ & Hexec & Hread).
    exists τ'. split; [exact Hstr|]. split; [exact Hcached|].
    split; [exact Hexec|exact Hread].
Defined.

(** A cache is consistent at construction and stays so in every later
    state, whatever the program does. *)
Lemma cache_consistent_new x y op : cache_consistent (mkCalculation x y op None).
Proof. intros v Hv. discriminate Hv. Qed.

Lemma cache_consistent_later σ σ' self c :
  evolves σ σ' -> is_Calculation σ self c -> cache_consistent c ->
  exists c', is_Calculation σ' self c' /\ cache_consistent c'.
Proof.
  intros (Hcalc & _ & _) Hc Hcons. destruct (Hcalc _ _ Hc) as (c' & Hc' & Hstep).
  exists c'. split; [done|]. by eapply calc_step_consistent.
Qed.

Lemma heap_consistent_initial : heap_consistent initial.
Proof.
  intros l c Hc. unfold is_Calculation, initial in Hc. simpl in Hc.
  by rewrite lookup_empty in Hc.
Qed.

(** ** Further properties: the operations *)

Lemma fix_raises d e : _fix d = Raises e -> e = Overflow "above Emax".
Proof.
  destruct d as [s c x|s|s sig p]; [|discriminate..].
  destruct (fix_total s c x) as [[r ->]| ->]; [discriminate|]. by intros [= <-].
Qed.

Lemma add_raises x y e :
  __add__ x y = Raises e ->
  ((exists msg, e = InvalidOperation msg) /\ is_finite x && is_finite y = false) \/
  e = Overflow "above Emax".
Proof.
  destruct x as [s1 c1 e1|s1|s1 [] p1], y as [s2 c2 e2|s2|s2 [] p2].
  1:{ destruct (add_total s1 c1 e1 s2 c2 e2) as [[r ->]| ->]; [discriminate|].
      intros [= <-]. by right. }
  all: cbn; repeat case_match; intros [= <-]; left; split; eauto.
Qed.

Lemma mul_raises x y e :
  __mul__ x y = Raises e ->
  ((exists msg, e = InvalidOperation msg) /\ is_finite x && is_finite y = false) \/
  e = Overflow "above Emax".
Proof.
  destruct x as [s1 c1 e1|s1|s1 [] p1], y as [s2 c2 e2|s2|s2 [] p2].
  1:{ rewrite mul_finite. intros H. right. by eapply fix_raises. }
  all: cbn; repeat case_match; intros [= <-]; left; split; eauto.
Qed.

Lemma truediv_raises x y e :
  __truediv__ x y = Raises e ->
  ((exists msg, e = InvalidOperation msg) /\
   (is_finite x && is_finite y = false \/ equals_zero y)) \/
  ((exists msg, e = DivisionByZero msg) /\ equals_zero y) \/
  e = Overflow "above Emax".
Proof.
  destruct x as [s1 c1 e1|s1|s1 [] p1], y as [s2 c2 e2|s2|s2 [] p2].
  1:{ unfold __truediv__. cbn [_check_nans mbind outcome_bind __bool__ sign_of].
      destruct (N.eqb_spec c2 0) as [->|H2]; cbn [negb].
      - assert (equals_zero (Finite s2 0 e2)) by (apply equals_zero_iff; eauto).
        destruct (c1 =? 0)%N; cbn [negb]; intros [= <-]; eauto 6.
      - unfold _dec_from_triple. intros H. right. right.
        repeat case_match; by eapply fix_raises. }
  all: cbn; repeat case_match; intros [= <-]; left; split; eauto.
Qed.

Lemma eq_raises x y e : __eq__ x y = Raises e -> e = InvalidOperation "sNaN".
Proof.
  destruct x as [s1 c1 e1|s1|s1 [] p1], y as [s2 c2 e2|s2|s2 [] p2];
    cbn; intros [=]; done.
Qed.

Lemma execute_raises_cases op x y e :
  operation.execute op x y = Raises e ->
  (op = Division /\ equals_zero y /\ e = DivisionByZero_kind) \/
  ((exists msg, e = InvalidOperation msg) /\ is_finite x && is_finite y = false) \/
  e = Overflow "above Emax".
Proof.
  destruct op; cbn [operation.execute].
  - intros H. right. by apply add_raises.
  - unfold Subtraction.execute. intros H. right.
    destruct x as [s1 c1 e1|s1|s1 [] p1], y as [s2 c2 e2|s2|s2 [] p2].
    1:{ rewrite sub_finite in H. apply add_raises in H as [[? [=]]|?]; auto. }
    all: cbn in H; repeat case_match; try discriminate; injection H as <-;
      left; split; eauto.
  - intros H. right. by apply mul_raises.
  - unfold Division.execute.
    destruct (__eq__ y (of_int 0)) as [[]|e'] eqn:Hz; cbn [mbind outcome_bind].
    + intros [= <-]. by left.
    + intros H. right. apply truediv_raises in H as [[Hi [Hf|Hy]]|[[_ Hy]|Ho]];
        auto; unfold equals_zero in Hy; congruence.
    + intros [= <-]. apply eq_raises in Hz as Hs. subst e'.
      right. left. split; [eauto|].
      destruct y as [s2 c2 e2|s2|s2 [] p2].
      * by rewrite eq_zero_finite in Hz.
      * by destruct s2.
      * by destruct x.
      * done.
Qed.

(** X1. Whatever [execute] raises is the division-by-zero [ValueError] of
    [Division] on a zero divisor, or a signal of the decimal context:
    [InvalidOperation], which takes an infinity or a NaN among the operands,
    or [Overflow].  The signal [DivisionByZero] of the context is never
    raised, and finite operands raise nothing but the [ValueError] and
    [Overflow]. *)
Theorem execute_raises_only (op : Operation) (x y : Decimal) (e : exn) :
  operation.execute op x y = Raises e ->
  (op = Division /\ equals_zero y /\ e = DivisionByZero_kind) \/
  ((exists msg, e = InvalidOperation msg) /\ is_finite x && is_finite y = false) \/
  e = Overflow "above Emax".
Proof. intros He. by apply execute_raises_cases. Qed.

Lemma execute_raises_only_witness :
  operation.execute Subtraction (Infinity false) (Infinity false) =
    Raises (InvalidOperation "-INF + INF") /\
  ((Subtraction = Division /\ equals_zero (Infinity false) /\
    InvalidOperation "-INF + INF" = DivisionByZero_kind) \/
   ((exists msg, InvalidOperation "-INF + INF" = InvalidOperation msg) /\
    is_finite (Infinity false) && is_finite (Infinity false) = false) \/
   InvalidOperation "-INF + INF" = Overflow "above Emax").
Proof.
  assert (operation.execute Subtraction (Infinity false) (Infinity false) =
          Raises (InvalidOperation "-INF + INF")) as H by reflexivity.
  split; [exact H|].
  exact (execute_raises_only Subtraction (Infinity false) (Infinity false) _ H).
Defined.

(** X2. [Division.execute] raises its [ValueError] exactly when the divisor
    is a finite zero, of either sign and any exponent ([0], [-0], [0.00],
    [0E+3]), whatever the dividend; no other divisor and no other operation
    raises a [ValueError]. *)
Theorem division_rejects_every_zero (x y : Decimal) :
  (Division.execute x y = Raises DivisionByZero_kind <->
   exists s e, y = Finite s 0 e) /\
  (forall op msg, operation.execute op x y = Raises (ValueError msg) ->
     op = Division /\ msg = "Cannot divide by zero" /\
     exists s e, y = Finite s 0 e).
Proof.
  assert (forall op msg, operation.execute op x y = Raises (ValueError msg) ->
            op = Division /\ msg = "Cannot divide by zero" /\ equals_zero y)
    as Hv.
  { intros op msg H.
    apply execute_raises_cases in H as [(-> & Hz & [= ->])|[[[? [=]] _]|[=]]].
    done. }
  split.
  - rewrite <- equals_zero_iff. split; [|apply Division_execute_zero].
    intros H. by apply (Hv Division) in H as (_ & _ & H).
  - intros op msg H. apply Hv in H as (-> & -> & H).
    by apply equals_zero_iff in H.
Qed.

Lemma division_rejects_every_zero_witness :
  operation.execute Division (of_int 5) (Finite true 0 (-2)) =
    Raises (ValueError "Cannot divide by zero") /\
  exists s e, Finite true 0 (-2) = Finite s 0 e.
Proof.
  assert (operation.execute Division (of_int 5) (Finite true 0 (-2)) =
          Raises (ValueError "Cannot divide by zero")) as H by reflexivity.
  split; [exact H|].
  exact (proj2 (proj2 (proj2 (division_rejects_every_zero (of_int 5)
                                (Finite true 0 (-2))) Division _ H))).
Defined.

(** [_normalize] treats its two operands alike. *)
Lemma normalize_swap op1 op2 :
  0 < wint op1 -> 0 < wint op2 ->
  _normalize op2 op1 = (snd (_normalize op1 op2), fst (_normalize op1 op2)).
Proof.
  intros H1 H2. destruct op1 as [s1 c1 e1], op2 as [s2 c2 e2].
  unfold _normalize. cbn [wexp wint wsign] in *.
  destruct (Z.ltb_spec e1 e2) as [Hlt|Hge], (Z.ltb_spec e2 e1) as [Hlt'|Hge'];
    try lia; cbn [fst snd].
  - reflexivity.
  - reflexivity.
  - assert (e1 = e2) as -> by lia.
    pose proof (ndigits_spec c1 H1) as (Hd1 & _).
    pose proof (ndigits_spec c2 H2) as (Hd2 & _).
    cbn [wexp wint wsign fst snd].
    rewrite !(proj2 (Z.ltb_ge _ _)) by lia.
    cbn [wexp wint wsign fst snd]. rewrite Z.sub_diag. simpl (10 ^ 0).
    by rewrite !Z.mul_1_r.
Qed.

Lemma combine_comm s1 A1 s2 A2 E exp :
  combine s1 A1 s2 A2 E exp = combine s2 A2 s1 A1 E exp.
Proof.
  unfold combine. destruct s1, s2; cbn [Bool.eqb negb].
  - by rewrite Z.add_comm.
  - destruct (Z.eqb_spec A1 A2) as [->|Hne].
    + by rewrite Z.eqb_refl.
    + destruct (Z.eqb_spec A2 A1) as [|_]; [congruence|].
      destruct (Z.ltb_spec A1 A2), (Z.ltb_spec A2 A1); try lia; reflexivity.
  - destruct (Z.eqb_spec A1 A2) as [->|Hne].
    + by rewrite Z.eqb_refl.
    + destruct (Z.eqb_spec A2 A1) as [|_]; [congruence|].
      destruct (Z.ltb_spec A1 A2), (Z.ltb_spec A2 A1); try lia; reflexivity.
  - by rewrite Z.add_comm.
Qed.

Lemma add_comm_finite s1 c1 e1 s2 c2 e2 :
  __add__ (Finite s1 c1 e1) (Finite s2 c2 e2) =
  __add__ (Finite s2 c2 e2) (Finite s1 c1 e1).
Proof.
  destruct (N.eq_dec c1 0%N) as [->|H1]; [|destruct (N.eq_dec c2 0%N) as [->|H2]].
  - unfold __add__. cbn [_check_nans mbind outcome_bind __bool__ negb N.eqb andb].
    rewrite (Z.min_comm e2 e1), (andb_comm s2 s1).
    destruct (c2 =? 0)%N; reflexivity.
  - unfold __add__. cbn [_check_nans mbind outcome_bind __bool__ negb N.eqb andb].
    rewrite (Z.min_comm e2 e1).
    destruct (N.eqb_spec c1 0) as [|_]; [done|]. reflexivity.
  - destruct (add_nonzero s1 c1 e1 s2 c2 e2 H1 H2) as (A1 & A2 & E & Hn & ->).
    destruct (add_nonzero s2 c2 e2 s1 c1 e1 H2 H1) as (B2 & B1 & E' & Hn' & ->).
    rewrite normalize_swap, Hn in Hn' by (cbn; lia).
    injection Hn' as <- <- <-. rewrite (Z.min_comm e2 e1). apply combine_comm.
Qed.

(** X3. On finite operands addition and multiplication do not depend on
    the order of the operands: the same decimal, digit for digit, or the
    same exception. *)
Theorem addition_and_multiplication_commute (s1 s2 : bool) (c1 c2 : N)
  (e1 e2 : Z) :
  Addition.execute (Finite s1 c1 e1) (Finite s2 c2 e2) =
    Addition.execute (Finite s2 c2 e2) (Finite s1 c1 e1) /\
  Multiplication.execute (Finite s1 c1 e1) (Finite s2 c2 e2) =
    Multiplication.execute (Finite s2 c2 e2) (Finite s1 c1 e1).
Proof.
  split; [apply add_comm_finite|].
  unfold Multiplication.execute.
  by rewrite !mul_finite, xorb_comm, N.mul_comm, Z.add_comm.
Qed.

Lemma strip_zeros_power k n exp :
  strip_zeros (k + n) (10 ^ Z.of_nat k) exp (exp + Z.of_nat k) =
  (1, exp + Z.of_nat k).
Proof.
  revert exp. induction k as [|k IH]; intros exp.
  - rewrite Z.add_0_r. destruct n; cbn [Nat.add strip_zeros]; [done|].
    by rewrite Z.ltb_irrefl.
  - cbn [Nat.add strip_zeros].
    destruct (Z.ltb_spec exp (exp + Z.of_nat (S k))) as [_|]; [|lia].
    replace (Z.of_nat (S k)) with (Z.of_nat k + 1) by lia.
    rewrite pow10_succ by lia.
    replace (10 * 10 ^ Z.of_nat k) with (10 ^ Z.of_nat k * 10) by lia.
    rewrite Z.mod_mul, Z.div_mul by lia. cbn [Z.eqb andb].
    replace (exp + (Z.of_nat k + 1)) with ((exp + 1) + Z.of_nat k) by lia.
    apply IH.
Qed.

(** X4. A finite number minus itself is the positive zero at the exponent
    of the number (brought into the range of the context), and a finite
    number other than zero divided by itself is [1], whatever its sign,
    digits and exponent. *)
Theorem minus_itself_and_over_itself (s : bool) (c : N) (e : Z) :
  Subtraction.execute (Finite s c e) (Finite s c e) =
    Returns (Finite false 0 (Z.min (Z.max e Etiny) Emax)) /\
  (c <> 0%N ->
   Division.execute (Finite s c e) (Finite s c e) = Returns (Finite false 1 0)).
Proof.
  split.
  - unfold Subtraction.execute. rewrite sub_finite.
    destruct (N.eq_dec c 0%N) as [->|Hc].
    + unfold __add__. cbn [_check_nans mbind outcome_bind __bool__ negb N.eqb andb].
      rewrite Z.min_id, andb_negb_r. apply fix_zero.
    + destruct (add_nonzero s c e (negb s) c e Hc Hc) as (A1 & A2 & E & Hn & ->).
      destruct (normalize_spec s (Z.of_N c) e (negb s) (Z.of_N c) e)
        as (A1' & A2' & E' & Hn' & Hal); [lia|lia|].
      rewrite Hn in Hn'. injection Hn' as <- <- <-.
      assert (A1 = A2) as ->.
      { destruct Hal as [[_ Hal]|[? _]]; [|lia].
        destruct Hal as [-> -> ->|? ? _ _ _ _ _]; [|lia].
        rewrite Z.sub_diag. simpl (10 ^ 0). lia. }
      unfold combine. rewrite Z.min_id, Z.eqb_refl.
      destruct s; cbn [Bool.eqb negb]; apply fix_zero.
  - intros Hc. rewrite Division_execute_nonzero.
    2:{ rewrite equals_zero_iff. intros (? & ? & [= _ -> _]). done. }
    unfold __truediv__. cbn [_check_nans mbind outcome_bind __bool__ sign_of].
    destruct (N.eqb_spec c 0) as [|_]; [done|]. cbn [negb].
    replace (ndigits (Z.of_N c) - ndigits (Z.of_N c) + prec + 1) with 29
      by (unfold prec; lia).
    rewrite Z.sub_diag. cbn [Z.leb Z.compare].
    rewrite div_eucl_div_mod, Z.mul_comm, Z.div_mul, Z.mod_mul by lia.
    cbn [Z.eqb negb]. rewrite xorb_nilpotent.
    change (Z.to_nat (0 - (0 - 29))) with (29 + 0)%nat.
    change (10 ^ 29) with (10 ^ Z.of_nat 29).
    change 0 with ((0 - 29) + Z.of_nat 29) at 3.
    rewrite strip_zeros_power. reflexivity.
Qed.

Lemma minus_itself_and_over_itself_witness :
  Division.execute (Finite true 125 (-2)) (Finite true 125 (-2)) =
    Returns (Finite false 1 0).
Proof.
  apply (minus_itself_and_over_itself true 125%N (-2)). discriminate.
Defined.

(** ** Further properties: calculations and their history *)

Lemma run_op_spec σ h items op :
  history_items σ h items ->
  run_op h op σ =
  (Returns tt, set_heap (insert (_history h) (Obj_list (apply_op items op))) σ).
Proof.
  intros H. destruct op; [by apply run_add_calculation|].
  by eapply run_clear_history.
Qed.

Lemma run_ops_spec h ops : forall σ items,
  history_items σ h items ->
  exists σ',
    run_ops h ops σ = (Returns tt, σ') /\
    history_items σ' h (apply_ops items ops) /\
    (forall l, l <> _history h -> heap σ' !! l = heap σ !! l) /\
    stdout σ' = stdout σ /\ executed σ' = executed σ.
Proof.
  induction ops as [|op ops IH]; intros σ items H; cbn [run_ops foldr].
  - exists σ. by repeat split.
  - rewrite (bind_returns _ _ _ _ _ (run_op_spec _ _ _ op H)).
    destruct (IH _ (apply_op items op) (history_items_put σ h _))
      as (σ' & Hrun & Hitems & Hframe & Hout & Htrace).
    exists σ'. split; [exact Hrun|]. split; [exact Hitems|].
    split; [|by split].
    intros l Hl. rewrite (Hframe l Hl). simpl. by rewrite lookup_insert_ne.
Qed.

(** X5. A history is the sequence of its items: after any succession of
    [add_calculation] and [clear_history] it holds the items appended since
    the last clear, in order; [__len__] reports their number and
    [get_last_calculation] returns the last of them, or raises on none.  No
    object other than the list of the history is touched and nothing is
    printed. *)
Theorem history_is_a_sequence (σ : state) (h : CalculationHistory)
  (items : list loc) (ops : list history_op) :
  history_items σ h items ->
  exists σ',
    run_ops h ops σ = (Returns tt, σ') /\
    history_items σ' h (apply_ops items ops) /\
    CalculationHistory.__len__ h σ' =
      (Returns (Z.of_nat (length (apply_ops items ops))), σ') /\
    CalculationHistory.get_last_calculation h σ' =
      (match last (apply_ops items ops) with
       | Some calculation => Returns calculation
       | None => Raises EmptyHistory_kind
       end, σ') /\
    (forall l, l <> _history h -> heap σ' !! l = heap σ !! l) /\
    stdout σ' = stdout σ.
Proof.
  intros H.
  destruct (run_ops_spec h ops σ items H) as (σ' & Hrun & Hitems & Hframe & Hout & _).
  exists σ'. split; [exact Hrun|]. split; [exact Hitems|].
  split; [by apply run_len|]. split; [|by split].
  unfold CalculationHistory.get_last_calculation.
  rewrite (bind_returns _ _ _ _ _ (run_get_list _ _ _ Hitems)).
  by destruct (last (apply_ops items ops)).
Qed.

Lemma history_is_a_sequence_witness :
  let h := mkCalculationHistory 0%nat in
  let σ := snd (CalculationHistory.__init__ initial) in
  history_items σ h [] /\
  exists σ',
    run_ops h [Add 3%nat; Clear; Add 5%nat; Add 3%nat] σ = (Returns tt, σ') /\
    history_items σ' h [5%nat; 3%nat].
Proof.
  intros h σ.
  assert (history_items σ h []) as H by reflexivity.
  split; [exact H|].
  destruct (history_is_a_sequence σ h []
              [Add 3%nat; Clear; Add 5%nat; Add 3%nat] H)
    as (σ' & Hrun & Hitems & _).
  exists σ'. split; [exact Hrun|exact Hitems].
Defined.

(** X6. A list returned by [get_history()] keeps the items it was given:
    whatever is appended to the history or cleared from it afterwards, the
    snapshot still holds the items of the moment it was taken, while a new
    snapshot and the length follow the history. *)
Theorem snapshot_survives_changes (σ : state) (h : CalculationHistory)
  (items : list loc) (ops : list history_op) :
  history_items σ h items ->
  fst (snapshot_then_run h ops σ) =
    Returns (items, apply_ops items ops,
             Z.of_nat (length (apply_ops items ops))).
Proof.
  intros H. unfold snapshot_then_run.
  rewrite (bind_returns _ _ _ _ _ (run_get_history _ _ _ H)).
  set (snap := fresh (dom (heap σ))).
  set (σ1 := set_heap (insert snap (Obj_list items)) σ).
  assert (snap <> _history h) as Hne by (eapply fresh_loc_ne, H).
  assert (history_items σ1 h items) as H1 by (by apply history_items_alloc).
  destruct (run_ops_spec h ops σ1 items H1)
    as (σ2 & Hrun & H2 & Hframe & _).
  rewrite (bind_returns _ _ _ _ _ Hrun).
  rewrite (bind_returns _ _ _ _ _ (run_get_history _ _ _ H2)).
  set (σ3 := set_heap (insert (fresh (dom (heap σ2))) (Obj_list _)) σ2).
  assert (heap σ3 !! snap = Some (Obj_list items)) as Hsnap.
  { apply lookup_alloc. rewrite (Hframe snap Hne). apply lookup_alloc_new. }
  rewrite (bind_returns _ _ _ _ _ (run_get_list _ _ _ Hsnap)).
  erewrite bind_returns by (apply run_get_list, lookup_alloc_new).
  erewrite bind_returns; [reflexivity|].
  apply run_len. by apply history_items_alloc.
Qed.

Lemma snapshot_survives_changes_witness :
  let h := mkCalculationHistory 0%nat in
  let σ := snd (CalculationHistory.add_calculation h 4%nat
                  (snd (CalculationHistory.__init__ initial))) in
  history_items σ h [4%nat] /\
  fst (snapshot_then_run h [Add 9%nat; Clear; Add 2%nat] σ) =
    Returns ([4%nat], [2%nat], 1).
Proof.
  intros h σ.
  assert (history_items σ h [4%nat]) as H by reflexivity.
  split; [exact H|].
  exact (snapshot_survives_changes σ h [4%nat] [Add 9%nat; Clear; Add 2%nat] H).
Defined.

(** X7. Creating a calculation computes nothing: the factory returns a
    reference that named no object before, to a [Calculation] with the
    operands and the operation given and no result; no other object
    changes, [execute] is not called and nothing is printed, even for a
    division by zero.  [__repr__] on the new object returns its text and
    leaves the state as it is, where [__str__] would evaluate. *)
Theorem creation_computes_nothing (σ : state) (x y : Decimal) (op : Operation) :
  exists l σ',
    CalculationFactory.create_calculation x y op σ = (Returns l, σ') /\
    heap σ !! l = None /\
    is_Calculation σ' l (mkCalculation x y op None) /\
    (forall l', l' <> l -> heap σ' !! l' = heap σ !! l') /\
    executed σ' = executed σ /\ stdout σ' = stdout σ /\
    Calculation.__repr__ l σ' =
      (Returns ("Calculation(" ++ decimal.__str__ x ++ ", " ++ decimal.__str__ y
                ++ ", " ++ operation.__name__ op ++ ")"), σ').
Proof.
  eexists _, _. split; [apply run_create_calculation|].
  split; [apply not_elem_of_dom, is_fresh|].
  split; [apply lookup_alloc_new|].
  split; [intros l' Hl'; simpl; by rewrite lookup_insert_ne|].
  split; [done|]. split; [done|].
  unfold Calculation.__repr__.
  erewrite bind_returns by (apply run_get_Calculation, lookup_alloc_new).
  reflexivity.
Qed.

(** ** Further properties: requests *)

Lemma execute_raises_signal op x y e :
  operation.execute op x y = Raises e ->
  e = DivisionByZero_kind \/ arithmetic_signal e.
Proof.
  intros H. unfold arithmetic_signal.
  apply execute_raises_cases in H as [(_ & _ & ->)|[[? _]|?]]; auto.
Qed.

Lemma error_and_hint msg σ :
  (print ("Error: " ++ msg);; print "Use 'help' command for usage instructions.") σ =
  (Returns tt, with_stdout σ (stdout σ ++ ["Error: " ++ msg; usage_hint])).
Proof.
  rewrite run_bind. unfold print, with_stdout, usage_hint.
  cbn [heap stdout executed]. by rewrite <- app_assoc.
Qed.

(** X8. A call of [calculate] with a token of the table, on operands for
    which [execute] returns [v], returns [v] and records it: a new
    [Calculation] with the operands, the operation and the result cached is
    the last item of the history, which keeps the items it had; [execute]
    ran once and nothing was printed. *)
Theorem calculate_records_result (self : Calculator) (σ : state)
  (items : list loc) (x y : Decimal) (token : string) (op : Operation)
  (v : Decimal) :
  history_items σ (history self) items ->
  operations self !! token = Some op ->
  operation.execute op x y = Returns v ->
  exists σ' l,
    Calculator.calculate self x token y σ = (Returns v, σ') /\
    heap σ !! l = None /\
    is_Calculation σ' l (mkCalculation x y op (Some v)) /\
    history_items σ' (history self) (items ++ [l]) /\
    CalculationHistory.get_last_calculation (history self) σ' = (Returns l, σ') /\
    Calculation.result l σ' = (Returns v, σ') /\
    stdout σ' = stdout σ /\
    executed σ' = (executed σ ++ [(op, x, y)])%list.
Proof.
  intros Hh Hop Hv.
  exists (recorded (history self) σ items x y op v), (new_loc σ).
  split; [by eapply calculate_computed|].
  split; [unfold new_loc; apply not_elem_of_dom, is_fresh|].
  assert (is_Calculation (recorded (history self) σ items x y op v) (new_loc σ)
            (mkCalculation x y op (Some v))) as Hc
    by (by apply recorded_is_Calculation).
  split; [exact Hc|].
  split; [by apply recorded_history|].
  split; [by eapply run_get_last_calculation, recorded_history|].
  split; [by eapply result_cached|]. done.
Qed.

Lemma calculate_records_result_witness :
  let self := mkCalculator Calculator.operations_table (mkCalculationHistory 0%nat) in
  let σ := snd (Calculator.__init__ initial) in
  history_items σ (history self) [] /\
  exists σ' l,
    Calculator.calculate self (dec "10.5") "subtract" (dec "2.3") σ =
      (Returns (dec "8.2"), σ') /\
    history_items σ' (history self) [l].
Proof.
  intros self σ.
  assert (history_items σ (history self) []) as Hh by reflexivity.
  split; [exact Hh|].
  destruct (calculate_records_result self σ [] (dec "10.5") (dec "2.3")
              "subtract" Subtraction (dec "8.2") Hh eq_refl eq_refl)
    as (σ' & l & Hrun & _ & _ & Hitems & _).
  exists σ', l. split; [exact Hrun|exact Hitems].
Defined.

(** X9. A request line of three parts, with an operation of the table and
    two numbers on which [execute] returns [v], prints the one line
    ["Result: <a> <token> <b> = <v>"], where the token is the symbol of the
    operation whatever word named it, and records the calculation as
    [calculate] does. *)
Theorem request_prints_result (self : Calculator) (σ : state)
  (items : list loc) (user_input p0 p1 p2 : string) (op : Operation)
  (x y v : Decimal) :
  history_items σ (history self) items ->
  pystr.split user_input = [p0; p1; p2] ->
  operations self !! pystr.lower p1 = Some op ->
  decimal.of_str p0 = Returns x ->
  decimal.of_str p2 = Returns y ->
  operation.execute op x y = Returns v ->
  exists σ' l,
    Calculator._process_calculation self user_input σ = (Returns tt, σ') /\
    stdout σ' =
      (stdout σ ++
       [("Result: " ++ decimal.__str__ x ++ " " ++ operation.__str__ op
         ++ " " ++ decimal.__str__ y ++ " = " ++ decimal.__str__ v)%string])%list /\
    heap σ !! l = None /\
    is_Calculation σ' l (mkCalculation x y op (Some v)) /\
    history_items σ' (history self) (items ++ [l]) /\
    executed σ' = (executed σ ++ [(op, x, y)])%list.
Proof.
  intros Hh Hs Hop Hx Hy Hv.
  exists (with_stdout (recorded (history self) σ items x y op v)
            (stdout σ ++ ["Result: " ++ display (mkCalculation x y op None) v])),
         (new_loc σ).
  split; [by eapply process_computed|].
  split; [done|].
  split; [unfold new_loc; apply not_elem_of_dom, is_fresh|].
  split; [by apply (recorded_is_Calculation self σ x y op items Hh v)|].
  split; [by apply (recorded_history self σ x y op items v)|]. done.
Qed.

Lemma request_prints_result_witness :
  let self := mkCalculator Calculator.operations_table (mkCalculationHistory 0%nat) in
  let σ := snd (Calculator.__init__ initial) in
  history_items σ (history self) [] /\
  exists σ',
    Calculator._process_calculation self "  15   DIVIDE 3 " σ = (Returns tt, σ') /\
    stdout σ' = ["Result: 15 / 3 = 5"].
Proof.
  intros self σ.
  assert (history_items σ (history self) []) as Hh by reflexivity.
  split; [exact Hh|].
  destruct (request_prints_result self σ [] "  15   DIVIDE 3 " "15" "DIVIDE" "3"
              Division (dec "15") (dec "3") (dec "5") Hh eq_refl eq_refl eq_refl
              eq_refl eq_refl)
    as (σ' & l & Hrun & Hout & _).
  exists σ'. split; [exact Hrun|exact Hout].
Defined.

Lemma process_wrong_shape (self : Calculator) (σ : state)
  (user_input : string) :
  length (pystr.split user_input) <> 3%nat ->
  Calculator._process_calculation self user_input σ =
    (Returns tt, with_stdout σ (stdout σ ++ [format_error; usage_hint])).
Proof.
  intros Hlen. unfold Calculator._process_calculation.
  destruct (pystr.split user_input) as [|p0 [|p1 [|p2 [|p3 ps]]]];
    try (by destruct Hlen);
    unfold format_error, usage_hint, with_stdout; cbn;
    rewrite run_bind; unfold print;
    cbn [heap stdout executed]; by rewrite <- app_assoc.
Qed.

(** X10. A request line that does not consist of three parts separated by
    whitespace (none, fewer, more) prints the format error and the usage
    hint, and does nothing else: no object is created or changed, [execute]
    is not called, and the call returns. *)
Theorem request_of_wrong_shape (self : Calculator) (σ : state)
  (user_input : string) :
  length (pystr.split user_input) <> 3%nat ->
  Calculator._process_calculation self user_input σ =
    (Returns tt, with_stdout σ (stdout σ ++ [format_error; usage_hint])).
Proof. intros Hlen. by apply process_wrong_shape. Qed.

Lemma request_of_wrong_shape_witness :
  let self := mkCalculator Calculator.operations_table (mkCalculationHistory 0%nat) in
  length (pystr.split "5 +") <> 3%nat /\
  stdout (snd (Calculator._process_calculation self "5 +" initial)) =
    ["Error: Invalid input format. Expected: <number> <operation> <number>";
     "Use 'help' command for usage instructions."].
Proof.
  intros self.
  assert (length (pystr.split "5 +") <> 3%nat) as H by (vm_compute; lia).
  split; [exact H|].
  by rewrite (request_of_wrong_shape self initial "5 +" H).
Defined.

(** X11. The operation is looked at before the numbers: a request of three
    parts whose middle part, lowercased, is no key of the table prints the
    unknown-operation error, with the token as lowercased, and the usage
    hint, whatever the other two parts are (they are not parsed), and does
    nothing else. *)
Theorem request_with_unknown_operation (self : Calculator) (σ : state)
  (user_input p0 p1 p2 : string) :
  pystr.split user_input = [p0; p1; p2] ->
  operations self !! pystr.lower p1 = None ->
  Calculator._process_calculation self user_input σ =
    (Returns tt,
     with_stdout σ (stdout σ ++ ["Error: Unknown operation: " ++ pystr.lower p1;
                                usage_hint])).
Proof. intros Hs Hop. by eapply process_unknown_operation. Qed.

Lemma request_with_unknown_operation_witness :
  let self := mkCalculator Calculator.operations_table (mkCalculationHistory 0%nat) in
  stdout (snd (Calculator._process_calculation self "abc MOD def" initial)) =
    ["Error: Unknown operation: mod";
     "Use 'help' command for usage instructions."].
Proof.
  intros self.
  by rewrite (request_with_unknown_operation self initial "abc MOD def"
                "abc" "MOD" "def" eq_refl eq_refl).
Defined.

Lemma process_invalid_number (self : Calculator) (σ : state)
  (user_input p0 p1 p2 : string) (op : Operation) (msg : string) :
  pystr.split user_input = [p0; p1; p2] ->
  operations self !! pystr.lower p1 = Some op ->
  decimal.of_str p0 = Raises (InvalidOperation msg) \/
  (exists x, decimal.of_str p0 = Returns x /\
             decimal.of_str p2 = Raises (InvalidOperation msg)) ->
  Calculator._process_calculation self user_input σ =
    (Returns tt,
     with_stdout σ
       (stdout σ ++ ["Error: Invalid number format: " ++ msg; usage_hint])).
Proof.
  intros Hs Hop Hbad. unfold Calculator._process_calculation. rewrite Hs, Hop.
  assert ((a ← lift (decimal.of_str p0); b ← lift (decimal.of_str p2);
           mret (a, b)) σ = (Raises (InvalidOperation msg), σ)) as Hparse.
  { unfold lift. rewrite !run_bind.
    destruct Hbad as [Hx|(x & Hx & Hy)]; rewrite Hx; [done|].
    cbn. by rewrite Hy. }
  erewrite try_caught; cycle 1.
  { apply bind_raises. erewrite try_caught; cycle 1.
    - exact Hparse.
    - reflexivity.
    - reflexivity. }
  { reflexivity. }
  by rewrite error_and_hint.
Qed.

(** X12. A request of three parts with an operation of the table, on one
    of whose numbers [Decimal] raises [InvalidOperation] (on the first, or
    on the third after the first was read), prints the invalid-number error
    with the text of that exception and the usage hint, and does nothing
    else: no [Calculation] is created. *)
Theorem request_with_invalid_number (self : Calculator) (σ : state)
  (user_input p0 p1 p2 : string) (op : Operation) (msg : string) :
  pystr.split user_input = [p0; p1; p2] ->
  operations self !! pystr.lower p1 = Some op ->
  decimal.of_str p0 = Raises (InvalidOperation msg) \/
  (exists x, decimal.of_str p0 = Returns x /\
             decimal.of_str p2 = Raises (InvalidOperation msg)) ->
  Calculator._process_calculation self user_input σ =
    (Returns tt,
     with_stdout σ
       (stdout σ ++ [("Error: Invalid number format: " ++ msg)%string;
                     usage_hint])).
Proof. intros Hs Hop Hbad. by eapply process_invalid_number. Qed.

Lemma request_with_invalid_number_witness :
  let self := mkCalculator Calculator.operations_table (mkCalculationHistory 0%nat) in
  (decimal.of_str "3" = Raises (InvalidOperation "[<class 'decimal.ConversionSyntax'>]") \/
   exists x, decimal.of_str "3" = Returns x /\
             decimal.of_str "1.2.3" =
               Raises (InvalidOperation "[<class 'decimal.ConversionSyntax'>]")) /\
  Calculator._process_calculation self "3 + 1.2.3" initial =
    (Returns tt,
     with_stdout initial
       ["Error: Invalid number format: [<class 'decimal.ConversionSyntax'>]";
        "Use 'help' command for usage instructions."]).
Proof.
  intros self.
  assert (decimal.of_str "3" =
            Raises (InvalidOperation "[<class 'decimal.ConversionSyntax'>]") \/
          exists x, decimal.of_str "3" = Returns x /\
                    decimal.of_str "1.2.3" =
                      Raises (InvalidOperation
                                "[<class 'decimal.ConversionSyntax'>]")) as H
    by (right; eexists; split; reflexivity).
  split; [exact H|].
  exact (request_with_invalid_number self initial "3 + 1.2.3" "3" "+" "1.2.3"
           Addition _ eq_refl eq_refl H).
Defined.

(** X13. An exception of [execute] that is not a [ValueError], that is a
    signal of the decimal context, is caught nowhere: it leaves
    [_process_calculation], and [calculate], as it was raised.  Nothing is
    printed, and the history is as before. *)
Theorem arithmetic_signal_escapes (self : Calculator) (σ : state)
  (items : list loc) (x y : Decimal) (op : Operation) (e : exn) :
  history_items σ (history self) items ->
  operation.execute op x y = Raises e ->
  arithmetic_signal e ->
  (forall user_input p0 p1 p2,
     pystr.split user_input = [p0; p1; p2] ->
     operations self !! pystr.lower p1 = Some op ->
     decimal.of_str p0 = Returns x ->
     decimal.of_str p2 = Returns y ->
     exists σ',
       Calculator._process_calculation self user_input σ = (Raises e, σ') /\
       stdout σ' = stdout σ /\ history_items σ' (history self) items) /\
  (forall token,
     operations self !! token = Some op ->
     exists σ',
       Calculator.calculate self x token y σ = (Raises e, σ') /\
       stdout σ' = stdout σ /\ history_items σ' (history self) items).
Proof.
  intros Hh He Hsig.
  assert (forall msg, e <> ValueError msg) as Hne
    by (intros msg ->; destruct Hsig as [[? [=]]|[=]]).
  split.
  - intros user_input p0 p1 p2 Hs Hop Hx Hy. eexists.
    split; [by eapply process_other_error|].
    split; [done|]. by apply created_history.
  - intros token Hop. eexists.
    split; [by eapply calculate_failed|].
    split; [done|]. by apply created_history.
Qed.

Lemma arithmetic_signal_escapes_witness :
  let self := mkCalculator Calculator.operations_table (mkCalculationHistory 0%nat) in
  let σ := snd (Calculator.__init__ initial) in
  history_items σ (history self) [] /\
  arithmetic_signal (InvalidOperation "-INF + INF") /\
  exists σ',
    Calculator._process_calculation self "Infinity - Infinity" σ =
      (Raises (InvalidOperation "-INF + INF"), σ') /\
    stdout σ' = [].
Proof.
  intros self σ.
  assert (history_items σ (history self) []) as Hh by reflexivity.
  assert (arithmetic_signal (InvalidOperation "-INF + INF")) as Hsig
    by (left; eauto).
  split; [exact Hh|]. split; [exact Hsig|].
  destruct (arithmetic_signal_escapes self σ [] (Infinity false) (Infinity false)
              Subtraction _ Hh eq_refl Hsig) as [Hprocess _].
  destruct (Hprocess "Infinity - Infinity" "Infinity" "-" "Infinity"
              eq_refl eq_refl eq_refl eq_refl) as (σ' & Hrun & Hout & _).
  exists σ'. split; [exact Hrun|exact Hout].
Defined.

Lemma process_outcome self σ items user_input :
  history_items σ (history self) items ->
  fst (Calculator._process_calculation self user_input σ) = Returns tt \/
  exists e,
    fst (Calculator._process_calculation self user_input σ) = Raises e /\
    arithmetic_signal e /\
    stdout (snd (Calculator._process_calculation self user_input σ)) = stdout σ.
Proof.
  intros Hh.
  destruct (pystr.split user_input) as [|p0 [|p1 [|p2 [|]]]] eqn:Hs;
    try (left; rewrite process_wrong_shape by (rewrite Hs; simpl; lia);
         done).
  destruct (operations self !! pystr.lower p1) as [op|] eqn:Hop;
    [|left; by erewrite process_unknown_operation].
  destruct (decimal.of_str p0) as [x|e0] eqn:Hx.
  2:{ left. apply of_str_raises in Hx as Hx'. subst e0.
      erewrite process_invalid_number; [done..|]. by left. }
  destruct (decimal.of_str p2) as [y|e2] eqn:Hy.
  2:{ left. apply of_str_raises in Hy as Hy'. subst e2.
      erewrite process_invalid_number; [done..|]. right. by exists x. }
  destruct (operation.execute op x y) as [v|e] eqn:He.
  - left. by erewrite process_computed.
  - destruct (execute_raises_signal _ _ _ _ He) as [->|Hsig].
    + left. by erewrite process_value_error.
    + right. exists e.
      assert (forall msg, e <> ValueError msg) as Hne
        by (intros msg ->; destruct Hsig as [[? [=]]|[=]]).
      erewrite process_other_error by done. done.
Qed.

(** ** Further properties: showing the history *)

Lemma print_then {A : Type} line (k : M A) σ :
  (print line;; k) σ = k (with_stdout σ (stdout σ ++ [line])).
Proof. reflexivity. Qed.

Lemma str_keeps_list c σ l items :
  heap σ !! l = Some (Obj_list items) ->
  heap (snd (Calculation.__str__ c σ)) !! l = Some (Obj_list items).
Proof.
  intros Hl. destruct (heap σ !! c) as [[calc|its]|] eqn:Hc.
  - assert (c <> l) by congruence.
    destruct (_result calc) as [v|] eqn:Hr.
    + by rewrite (str_cached _ _ _ _ Hc Hr).
    + destruct (operation.execute (runtime.operation calc) (a calc) (b calc))
        as [v|e] eqn:He.
      * rewrite (str_computed _ _ _ _ Hc Hr He). simpl.
        by rewrite lookup_insert_ne.
      * by rewrite (str_failed _ _ _ _ Hc Hr He).
  - unfold Calculation.__str__, get_Calculation. by rewrite run_bind, Hc.
  - unfold Calculation.__str__, get_Calculation. by rewrite run_bind, Hc.
Qed.

Lemma show_line_keeps_list i c σ l items :
  heap σ !! l = Some (Obj_list items) ->
  heap (snd (show_line i c σ)) !! l = Some (Obj_list items).
Proof.
  intros Hl. unfold show_line. rewrite run_bind.
  pose proof (str_keeps_list c σ l items Hl) as Hs.
  by destruct (Calculation.__str__ c σ) as [[text|e] σ1].
Qed.

(** The loop of [_show_history] takes the items of the list in order, each
    once, and ends on the turn that finds no item, whatever turns were left. *)
Lemma for_enumerate_walk hl rest : forall seen σ i spare,
  heap σ !! hl = Some (Obj_list (seen ++ rest)) ->
  for_enumerate (length rest + 1 + spare) (mk_list_iterator hl (length seen)) i
    show_line σ =
  show_items i rest σ.
Proof.
  induction rest as [|c rest IH]; intros seen σ i spare Hl.
  - cbn [length Nat.add for_enumerate show_items]. unfold __next__.
    cbn [it_index it_seq]. rewrite !run_bind, (run_get_list _ _ _ Hl).
    rewrite lookup_ge_None_2; [done|]. rewrite app_nil_r. lia.
  - cbn [length Nat.add for_enumerate show_items]. unfold __next__.
    cbn [it_index it_seq]. rewrite !run_bind, (run_get_list _ _ _ Hl).
    rewrite list_lookup_middle by done. cbn [mret M_ret]. rewrite !run_bind.
    pose proof (show_line_keeps_list i c σ hl _ Hl) as Hl'.
    destruct (show_line i c σ) as [[[]|e] σ1]; [|done].
    cbn [snd] in Hl'.
    replace (seen ++ c :: rest)%list with ((seen ++ [c]) ++ rest)%list in Hl'
      by (by rewrite <- app_assoc).
    replace (S (length seen)) with (length (seen ++ [c]))
      by (rewrite length_app; simpl; lia).
    by apply IH.
Qed.

Lemma run_show_history (self : Calculator) (σ : state)
  (items : list loc) :
  history_items σ (history self) items ->
  Calculator._show_history self σ =
  match items with
  | [] => print "No calculations in history." σ
  | _ => (print (pystr.nl ++ "Calculation History:");;
          print (pystr.repeat_char "-" 30);;
          show_items 1 items) σ
  end.
Proof.
  intros Hh. unfold Calculator._show_history.
  rewrite (bind_returns _ _ _ _ _ (run_len _ _ _ Hh)).
  destruct items as [|c items]; [reflexivity|].
  destruct (Z.eqb_spec (Z.of_nat (length (c :: items))) 0) as [Hz|_];
    [simpl in Hz; lia|].
  rewrite !print_then.
  unfold CalculationHistory.__iter__. rewrite !run_bind.
  erewrite run_get_list by (unfold with_stdout; exact Hh). cbn [mret M_ret].
  rewrite Nat2Z.id.
  replace (length (c :: items) + 1)%nat with (length (c :: items) + 1 + 0)%nat
    by lia.
  by apply (for_enumerate_walk _ (c :: items) []).
Qed.

(** X14. [_show_history] on an empty history prints the one line that says
    so.  On any other it prints the heading and the rule, then walks the
    items that the history holds, the stored list itself, in order and each
    once, formatting and printing one after the other; the formatting may
    compute results, which does not disturb the walk, and what an item
    raises ends it. *)
Theorem show_history_walks_the_items (self : Calculator) (σ : state)
  (items : list loc) :
  history_items σ (history self) items ->
  Calculator._show_history self σ =
  match items with
  | [] => print "No calculations in history." σ
  | _ => (print (pystr.nl ++ "Calculation History:");;
          print (pystr.repeat_char "-" 30);;
          show_items 1 items) σ
  end.
Proof. intros Hh. by apply run_show_history. Qed.

Lemma show_history_walks_the_items_witness :
  let self := mkCalculator Calculator.operations_table (mkCalculationHistory 0%nat) in
  let σ := snd (Calculator._process_calculation self "5 + 3"
                  (snd (Calculator.__init__ initial))) in
  history_items σ (history self) [1%nat] /\
  stdout (snd (Calculator._show_history self σ)) =
    (stdout σ ++ [(pystr.nl ++ "Calculation History:")%string;
                  "------------------------------"; " 1. 5 + 3 = 8"])%list.
Proof.
  intros self σ.
  assert (history_items σ (history self) [1%nat]) as Hh by reflexivity.
  split; [exact Hh|].
  by rewrite (show_history_walks_the_items self σ [1%nat] Hh).
Defined.

Lemma display_of_computed σ l c v :
  is_Calculation σ l c -> _result c = Some v -> display_of σ l = display c v.
Proof. unfold display_of, is_Calculation. by intros -> ->. Qed.

Lemma show_items_computed items : forall σ i,
  Forall (computed σ) items ->
  show_items i items σ =
  (Returns tt, with_stdout σ (stdout σ ++ numbered i (display_of σ <$> items))).
Proof.
  induction items as [|l items IH]; intros σ i Hc.
  - cbn. unfold with_stdout. rewrite app_nil_r. by destruct σ.
  - apply Forall_cons in Hc as [(c & v & Hl & Hv) Hc].
    cbn [show_items fmap list_fmap numbered]. unfold show_line.
    rewrite run_bind.
    rewrite (bind_returns _ _ _ _ _ (str_cached _ _ _ _ Hl Hv)).
    unfold print at 1. cbn beta iota. rewrite IH.
    + unfold with_stdout. cbn [heap stdout executed].
      rewrite <- app_assoc. cbn [app]. rewrite (display_of_computed _ _ _ _ Hl Hv).
      reflexivity.
    + eapply Forall_impl; [exact Hc|]. intros l' (c' & v' & Hl' & Hv').
      by exists c', v'.
Qed.

Lemma run_show_history_computed (self : Calculator) (σ : state)
  (items : list loc) :
  history_items σ (history self) items ->
  Forall (computed σ) items ->
  Calculator._show_history self σ =
  (Returns tt,
   with_stdout σ (stdout σ ++ history_lines (display_of σ <$> items))).
Proof.
  intros Hh Hc. rewrite (run_show_history _ _ _ Hh).
  destruct items as [|l items]; [reflexivity|].
  rewrite !print_then, show_items_computed.
  - unfold with_stdout, history_lines. cbn [heap stdout executed fmap list_fmap].
    rewrite <- !app_assoc. reflexivity.
  - eapply Forall_impl; [exact Hc|]. intros l' (c' & v' & Hl' & Hv').
    by exists c', v'.
Qed.

(** X15. On a history that holds computed calculations only,
    [_show_history] returns after printing the heading, a rule of thirty
    dashes and one line per item, numbered from 1 in a field of two
    characters, in the order of the history; on an empty one, the line that
    says so.  No object changes and [execute] is not called. *)
Theorem show_history_lists_results (self : Calculator) (σ : state)
  (items : list loc) :
  history_items σ (history self) items ->
  Forall (computed σ) items ->
  Calculator._show_history self σ =
  (Returns tt,
   with_stdout σ (stdout σ ++ history_lines (display_of σ <$> items))).
Proof. intros Hh Hc. by apply run_show_history_computed. Qed.

Lemma show_history_lists_results_witness :
  let self := mkCalculator Calculator.operations_table (mkCalculationHistory 0%nat) in
  let σ := snd (Calculator._process_calculation self "7 * 8"
             (snd (Calculator._process_calculation self "5 + 3"
                (snd (Calculator.__init__ initial))))) in
  history_items σ (history self) [1%nat; 2%nat] /\
  Forall (computed σ) [1%nat; 2%nat] /\
  stdout (snd (Calculator._show_history self σ)) =
    (stdout σ ++ [(pystr.nl ++ "Calculation History:")%string;
                  "------------------------------";
                  " 1. 5 + 3 = 8"; " 2. 7 * 8 = 56"])%list.
Proof.
  intros self σ.
  assert (history_items σ (history self) [1%nat; 2%nat]) as Hh by reflexivity.
  assert (Forall (computed σ) [1%nat; 2%nat]) as Hc.
  { repeat constructor; eexists _, _; split; reflexivity. }
  split; [exact Hh|]. split; [exact Hc|].
  by rewrite (show_history_lists_results self σ [1%nat; 2%nat] Hh Hc).
Defined.

(** ** Further properties: the interactive loop *)

Lemma computed_evolves σ σ' l : evolves σ σ' -> computed σ l -> computed σ' l.
Proof.
  intros (Hcalc & _ & _) (c & v & Hc & Hv).
  destruct (Hcalc _ _ Hc) as (c' & Hc' & Hstep).
  exists c', v. split; [done|]. by eapply calc_step_computed.
Qed.

Lemma history_computed_same_heap σ σ' h :
  heap σ' = heap σ -> history_computed σ h -> history_computed σ' h.
Proof.
  unfold history_computed, history_items, computed, is_Calculation.
  by intros ->.
Qed.

Lemma history_computed_step σ σ' h :
  evolves σ σ' -> appended_when_computed h σ σ' ->
  history_computed σ h -> history_computed σ' h.
Proof.
  intros Hev Happ (items & Hitems & Hall).
  assert (Forall (computed σ') items) as Hall'.
  { eapply Forall_impl; [exact Hall|]. intros l. by apply computed_evolves. }
  destruct (Happ items Hitems) as [Hsame|(l & c & v & Hnew & Hc & Hv & _)].
  - by exists items.
  - exists (items ++ [l])%list. split; [done|].
    apply Forall_app. split; [done|]. constructor; [|done]. by exists c, v.
Qed.

Lemma process_keeps_computed self user_input σ :
  history_computed σ (history self) ->
  history_computed (snd (Calculator._process_calculation self user_input σ))
    (history self).
Proof.
  apply history_computed_step; [apply monotone_process_calculation|].
  apply process_appends.
Qed.

Lemma calculate_keeps_computed self x token y σ :
  history_computed σ (history self) ->
  history_computed (snd (Calculator.calculate self x token y σ)) (history self).
Proof.
  apply history_computed_step; [apply monotone_calculate|].
  apply calculate_appends.
Qed.

Lemma run_clear self σ items :
  history_items σ (history self) items ->
  Calculator._clear_history self σ =
  (Returns tt,
   with_stdout (set_heap (insert (_history (history self)) (Obj_list [])) σ)
     (stdout σ ++ ["Calculation history cleared."])).
Proof.
  intros Hh. unfold Calculator._clear_history.
  by rewrite (bind_returns _ _ _ _ _ (run_clear_history _ _ _ Hh)).
Qed.

Lemma clear_keeps_computed self σ :
  history_computed σ (history self) ->
  fst (Calculator._clear_history self σ) = Returns tt /\
  history_computed (snd (Calculator._clear_history self σ)) (history self).
Proof.
  intros (items & Hh & _). rewrite (run_clear _ _ _ Hh). split; [done|].
  exists []. split; [apply lookup_insert_eq|constructor].
Qed.

Lemma show_history_keeps_computed self σ :
  history_computed σ (history self) ->
  fst (Calculator._show_history self σ) = Returns tt /\
  history_computed (snd (Calculator._show_history self σ)) (history self).
Proof.
  intros Hinv. destruct Hinv as (items & Hh & Hall) eqn:E. clear E.
  rewrite (run_show_history_computed _ _ _ Hh Hall). split; [done|].
  eapply history_computed_same_heap; [|by exists items]. done.
Qed.

Lemma start_loop_outcome self stdin : forall σ,
  history_computed σ (history self) ->
  (fst (Calculator.start_loop self stdin σ) = Returns tt \/
   exists e, fst (Calculator.start_loop self stdin σ) = Raises e /\
             arithmetic_signal e) /\
  history_computed (snd (Calculator.start_loop self stdin σ)) (history self).
Proof.
  induction stdin as [|event stdin IH]; intros σ Hinv;
    cbn [Calculator.start_loop]; unfold write_prompt; rewrite print_then.
  - split; [by left|]. by eapply history_computed_same_heap.
  - set (σ0 := with_stdout σ _).
    assert (history_computed σ0 (history self)) as H0
      by (by eapply history_computed_same_heap).
    destruct event as [text|].
    2:{ rewrite print_then. apply IH. by eapply history_computed_same_heap. }
    destruct (String.eqb (pystr.strip text) ""); [by apply IH|].
    destruct (String.eqb (pystr.lower (pystr.strip text)) "exit").
    { split; [by left|]. by eapply history_computed_same_heap. }
    rewrite run_bind.
    destruct (String.eqb (pystr.lower (pystr.strip text)) "help").
    { unfold Calculator._show_help. cbn [print]. apply IH.
      by eapply history_computed_same_heap. }
    destruct (String.eqb (pystr.lower (pystr.strip text)) "history").
    { destruct (show_history_keeps_computed self σ0 H0) as [Hret Hinv'].
      destruct (Calculator._show_history self σ0) as [[[]|e] σ1];
        [by apply IH|discriminate]. }
    destruct (String.eqb (pystr.lower (pystr.strip text)) "clear").
    { destruct (clear_keeps_computed self σ0 H0) as [Hret Hinv'].
      destruct (Calculator._clear_history self σ0) as [[[]|e] σ1];
        [by apply IH|discriminate]. }
    pose proof (process_keeps_computed self (pystr.strip text) σ0 H0) as Hinv'.
    destruct H0 as (items & Hh & _).
    pose proof (process_outcome self σ0 items (pystr.strip text) Hh) as Hout.
    destruct (Calculator._process_calculation self (pystr.strip text) σ0)
      as [[[]|e] σ1]; [by apply IH|].
    split; [|done]. right. exists e. split; [done|].
    by destruct Hout as [[=]|(e' & [= <-] & Hsig & _)].
Qed.

Lemma run_Calculator_init σ :
  Calculator.__init__ σ =
  (Returns (mkCalculator Calculator.operations_table
              (mkCalculationHistory (fresh (dom (heap σ))))),
   set_heap (insert (fresh (dom (heap σ))) (Obj_list [])) σ).
Proof. reflexivity. Qed.

Lemma init_history_computed σ :
  history_computed (set_heap (insert (fresh (dom (heap σ))) (Obj_list [])) σ)
    (mkCalculationHistory (fresh (dom (heap σ)))).
Proof. exists []. split; [apply lookup_insert_eq|constructor]. Qed.

Lemma start_outcome self stdin σ :
  history_computed σ (history self) ->
  (fst (Calculator.start self stdin σ) = Returns tt \/
   exists e, fst (Calculator.start self stdin σ) = Raises e /\
             arithmetic_signal e) /\
  history_computed (snd (Calculator.start self stdin σ)) (history self).
Proof.
  intros Hinv. unfold Calculator.start. rewrite !print_then.
  apply start_loop_outcome. by eapply history_computed_same_heap.
Qed.

(** X16. Every method of the calculator keeps this: the history holds
    calculations whose result is computed, and nothing else.  A new
    calculator has it, [calculate] and [_process_calculation] keep it
    whatever the request, and so do [_clear_history], [_show_help],
    [_show_history] and a whole session of [start]. *)
Theorem history_holds_computed_calculations (self : Calculator) (σ : state) :
  (forall σ0,
     history_computed (snd (Calculator.__init__ σ0))
       (mkCalculationHistory (fresh (dom (heap σ0))))) /\
  (history_computed σ (history self) ->
   (forall x token y,
      history_computed (snd (Calculator.calculate self x token y σ))
        (history self)) /\
   (forall user_input,
      history_computed (snd (Calculator._process_calculation self user_input σ))
        (history self)) /\
   history_computed (snd (Calculator._clear_history self σ)) (history self) /\
   history_computed (snd (Calculator._show_help self σ)) (history self) /\
   history_computed (snd (Calculator._show_history self σ)) (history self) /\
   (forall stdin,
      history_computed (snd (Calculator.start self stdin σ)) (history self))).
Proof.
  split; [intros σ0; apply init_history_computed|]. intros Hinv.
  split; [intros; by apply calculate_keeps_computed|].
  split; [intros; by apply process_keeps_computed|].
  split; [by apply clear_keeps_computed|].
  split; [by eapply history_computed_same_heap|].
  split; [by apply show_history_keeps_computed|].
  intros stdin. by apply start_outcome.
Qed.

Lemma history_holds_computed_calculations_witness :
  let self := mkCalculator Calculator.operations_table (mkCalculationHistory 0%nat) in
  let σ := snd (Calculator.__init__ initial) in
  history_computed σ (history self) /\
  history_computed
    (snd (Calculator.start self [Line "5 / 0"; Line "7 * 8"; Line "history"] σ))
    (history self).
Proof.
  intros self σ.
  destruct (history_holds_computed_calculations self σ) as [Hinit Hkeep].
  assert (history_computed σ (history self)) as Hinv by apply (Hinit initial).
  split; [exact Hinv|].
  apply (Hkeep Hinv).
Defined.

(** X17. The loop survives every line: invalid requests, divisions by zero
    and the commands end in a message, not in an exception.  A session of
    [main], whatever is typed and however it ends, returns or raises a
    signal of the decimal context ([InvalidOperation] or [Overflow]), which
    no handler of the program catches; so does [start] on a calculator whose
    history holds computed calculations, and there [_show_history] always
    returns. *)
Theorem session_fails_only_on_arithmetic (stdin : list stdin_event) :
  (forall σ,
     fst (main stdin σ) = Returns tt \/
     exists e, fst (main stdin σ) = Raises e /\ arithmetic_signal e) /\
  (forall self σ,
     history_computed σ (history self) ->
     (fst (Calculator.start self stdin σ) = Returns tt \/
      exists e, fst (Calculator.start self stdin σ) = Raises e /\
                arithmetic_signal e) /\
     fst (Calculator._show_history self σ) = Returns tt).
Proof.
  split.
  - intros σ. unfold main.
    rewrite (bind_returns _ _ _ _ _ (run_Calculator_init σ)).
    apply (start_outcome (mkCalculator _ _)), init_history_computed.
  - intros self σ Hinv. split; [by apply start_outcome|].
    by apply show_history_keeps_computed.
Qed.

Lemma session_fails_only_on_arithmetic_witness :
  fst (main [Line "1 / 0"; Line "abc"; Line "history"; Line "exit"] initial) =
    Returns tt /\
  fst (main [Line "9E999999 * 10"; Line "exit"] initial) =
    Raises (Overflow "above Emax") /\
  (fst (main [Line "sNaN + 1"] initial) = Returns tt \/
   exists e, fst (main [Line "sNaN + 1"] initial) = Raises e /\
             arithmetic_signal e).
Proof.
  split; [reflexivity|]. split; [reflexivity|].
  apply (proj1 (session_fails_only_on_arithmetic [Line "sNaN + 1"]) initial).
Defined.

Lemma monotone_show_help self : monotone (Calculator._show_help self).
Proof. apply monotone_print. Qed.

Lemma monotone_next it : monotone (__next__ it).
Proof.
  apply monotone_bind; [apply monotone_get_list|]. intros items.
  apply monotone_ret.
Qed.

Lemma monotone_for_enumerate turns body :
  (forall i item, monotone (body i item)) ->
  forall it i, monotone (for_enumerate turns it i body).
Proof.
  intros Hbody. induction turns as [|turns IH]; intros it i;
    cbn [for_enumerate]; [apply monotone_ret|].
  apply monotone_bind; [apply monotone_next|]. intros [[item it']|];
    [|apply monotone_ret].
  apply monotone_bind; [apply Hbody|]. intros _. apply IH.
Qed.

Lemma monotone_show_history self : monotone (Calculator._show_history self).
Proof.
  apply monotone_bind; [apply monotone_len|]. intros n.
  destruct (n =? 0); [apply monotone_print|].
  apply monotone_bind; [apply monotone_print|]. intros _.
  apply monotone_bind; [apply monotone_print|]. intros _.
  apply monotone_bind.
  - apply monotone_bind; [apply monotone_get_list|]. intros items.
    apply monotone_ret.
  - intros it. apply monotone_for_enumerate. intros i item.
    apply monotone_bind; [apply monotone_Calculation_str|]. intros text.
    apply monotone_print.
Qed.

Lemma monotone_start_loop self stdin : monotone (Calculator.start_loop self stdin).
Proof.
  induction stdin as [|event stdin IH]; cbn [Calculator.start_loop];
    (apply monotone_bind; [apply monotone_print|]; intros _);
    [apply monotone_print|].
  destruct event as [text|].
  2:{ apply monotone_bind; [apply monotone_print|]. intros _. apply IH. }
  destruct (String.eqb (pystr.strip text) ""); [apply IH|].
  destruct (String.eqb (pystr.lower (pystr.strip text)) "exit");
    [apply monotone_print|].
  apply monotone_bind; [|intros _; apply IH].
  destruct (String.eqb (pystr.lower (pystr.strip text)) "help");
    [apply monotone_show_help|].
  destruct (String.eqb (pystr.lower (pystr.strip text)) "history");
    [apply monotone_show_history|].
  destruct (String.eqb (pystr.lower (pystr.strip text)) "clear");
    [apply monotone_clear|].
  apply monotone_process_calculation.
Qed.

Lemma monotone_start self stdin : monotone (Calculator.start self stdin).
Proof.
  repeat (apply monotone_bind; [apply monotone_print|]; intros _).
  apply monotone_start_loop.
Qed.

Lemma monotone_main stdin : monotone (main stdin).
Proof.
  apply monotone_bind; [apply monotone_Calculator_init|]. intros self.
  apply monotone_start.
Qed.

(** X18. An interactive session never takes back what was computed: after
    [start], and after [_show_history], every [Calculation] that existed
    is still there with its operands and its operation, and a result that
    was cached is the result that a read returns, however the session went
    and ended.  Clearing the history removes the items from the list, not
    the calculations. *)
Theorem session_keeps_results (self : Calculator) (stdin : list stdin_event)
  (σ : state) (l : loc) (c : Calculation) :
  is_Calculation σ l c ->
  forall σ',
    σ' = snd (Calculator.start self stdin σ) \/
    σ' = snd (Calculator._show_history self σ) \/
    σ' = snd (Calculator._clear_history self σ) ->
    (exists c', is_Calculation σ' l c' /\ a c' = a c /\ b c' = b c /\
                runtime.operation c' = runtime.operation c) /\
    (forall v, _result c = Some v ->
               Calculation.result l σ' = (Returns v, σ')).
Proof.
  intros Hc σ' Hσ'.
  assert (evolves σ σ') as (Hcalc & _ & _).
  { destruct Hσ' as [->|[->| ->]];
      [apply monotone_start|apply monotone_show_history|apply monotone_clear]. }
  destruct (Hcalc _ _ Hc) as (c' & Hc' & Hstep).
  split.
  - exists c'. by destruct Hstep as (? & ? & ? & _).
  - intros v Hv. eapply result_cached; [exact Hc'|].
    by eapply calc_step_computed.
Qed.

Lemma session_keeps_results_witness :
  let self := mkCalculator Calculator.operations_table (mkCalculationHistory 0%nat) in
  let σ := snd (Calculator.calculate self (dec "5") "+" (dec "3")
                  (snd (Calculator.__init__ initial))) in
  let σ' := snd (Calculator.start self [Line "clear"; Line "2 * 2"] σ) in
  is_Calculation σ 1%nat (mkCalculation (dec "5") (dec "3") Addition (Some (dec "8"))) /\
  Calculation.result 1%nat σ' = (Returns (dec "8"), σ').
Proof.
  intros self σ σ'.
  assert (is_Calculation σ 1%nat
            (mkCalculation (dec "5") (dec "3") Addition (Some (dec "8")))) as Hc
    by reflexivity.
  split; [exact Hc|].
  apply (session_keeps_results self [Line "clear"; Line "2 * 2"] σ 1%nat _ Hc σ'
           (or_introl eq_refl)).
  reflexivity.
Defined.

Lemma start_loop_exit self text rest : forall before σ,
  is_command "exit" text ->
  Calculator.start_loop self (before ++ Line text :: rest) σ =
  Calculator.start_loop self (before ++ [Line text]) σ.
Proof.
  intros before σ Hexit. unfold is_command in Hexit.
  assert (String.eqb (pystr.strip text) "" = false) as Hne.
  { destruct (String.eqb_spec (pystr.strip text) "") as [Hs|]; [|done].
    by rewrite Hs in Hexit. }
  revert σ. induction before as [|event before IH]; intros σ.
  - cbn [app Calculator.start_loop]. by rewrite Hne, Hexit.
  - cbn [app Calculator.start_loop]. rewrite !run_bind.
    destruct (write_prompt _ σ) as [[[]|e] σ0]; [|done].
    destruct event as [line|].
    + destruct (String.eqb (pystr.strip line) ""); [apply IH|].
      destruct (String.eqb (pystr.lower (pystr.strip line)) "exit"); [done|].
      rewrite !run_bind.
      by destruct (_ σ0) as [[[]|e] σ1].
    + rewrite !run_bind. by destruct (print _ σ0) as [[[]|e] σ1].
Qed.

Lemma start_loop_goodbye self text :
  is_command "exit" text ->
  forall before σ,
    fst (Calculator.start_loop self (before ++ [Line text]) σ) = Returns tt ->
    last (stdout (snd (Calculator.start_loop self (before ++ [Line text]) σ))) =
      Some "Thank you for using the calculator. Goodbye!".
Proof.
  intros Hexit. unfold is_command in Hexit.
  assert (String.eqb (pystr.strip text) "" = false) as Hne.
  { destruct (String.eqb_spec (pystr.strip text) "") as [Hs|]; [|done].
    by rewrite Hs in Hexit. }
  induction before as [|event before IH]; intros σ;
    cbn [app Calculator.start_loop]; unfold write_prompt; rewrite print_then.
  - rewrite Hne, Hexit. intros _. apply last_snoc.
  - set (σ0 := with_stdout σ _). destruct event as [line|].
    2:{ rewrite print_then. apply IH. }
    destruct (String.eqb (pystr.strip line) ""); [apply IH|].
    destruct (String.eqb (pystr.lower (pystr.strip line)) "exit").
    { intros _. apply last_snoc. }
    rewrite run_bind. destruct (_ σ0) as [[[]|e] σ1]; [apply IH|discriminate].
Qed.

(** X19. The line [exit], in any case and with any whitespace around it,
    ends the session: what follows it in the input is not read and has no
    effect, and a session that comes to it without an exception ends with
    the goodbye message. *)
Theorem exit_ends_the_session (self : Calculator)
  (before rest : list stdin_event) (text : string) (σ : state) :
  is_command "exit" text ->
  Calculator.start self (before ++ Line text :: rest) σ =
    Calculator.start self (before ++ [Line text]) σ /\
  (fst (Calculator.start self (before ++ [Line text]) σ) = Returns tt ->
   last (stdout (snd (Calculator.start self (before ++ [Line text]) σ))) =
     Some "Thank you for using the calculator. Goodbye!").
Proof.
  intros Hexit. unfold Calculator.start. rewrite !print_then.
  split; [by apply start_loop_exit|by apply start_loop_goodbye].
Qed.

Lemma exit_ends_the_session_witness :
  let self := mkCalculator Calculator.operations_table (mkCalculationHistory 0%nat) in
  let σ := snd (Calculator.__init__ initial) in
  is_command "exit" "  Exit " /\
  Calculator.start self ([Line "5 + 3"] ++ Line "  Exit " :: [Line "1 / 0"]) σ =
    Calculator.start self ([Line "5 + 3"] ++ [Line "  Exit "]) σ.
Proof.
  intros self σ.
  assert (is_command "exit" "  Exit ") as Hexit by reflexivity.
  split; [exact Hexit|].
  apply (exit_ends_the_session self [Line "5 + 3"] [Line "1 / 0"] "  Exit " σ Hexit).
Defined.

Lemma split_lstrip s : pystr.split (pystr.lstrip s) = pystr.split s.
Proof.
  unfold pystr.split. induction s as [|ch s IH]; [done|].
  cbn [pystr.lstrip]. destruct (pystr.isspace ch) eqn:Hsp; [|done].
  cbn [pystr.split_from]. by rewrite Hsp.
Qed.

Lemma split_from_rstrip s : forall word,
  pystr.split_from word (pystr.rstrip s) = pystr.split_from word s.
Proof.
  induction s as [|ch s IH]; intros word; [done|].
  cbn [pystr.rstrip]. destruct (pystr.rstrip s) as [|ch' r] eqn:Hr.
  - cbn [pystr.split_from]. destruct (pystr.isspace ch) eqn:Hsp.
    + rewrite <- (IH None). by destruct word.
    + cbn [pystr.split_from]. rewrite Hsp.
      destruct word as [w|]; by rewrite <- IH.
  - cbn [pystr.split_from].
    destruct (pystr.isspace ch), word; by rewrite <- ?IH.
Qed.

Lemma split_strip s : pystr.split (pystr.strip s) = pystr.split s.
Proof.
  unfold pystr.strip, pystr.split at 1. rewrite split_from_rstrip.
  apply split_lstrip.
Qed.

(** X20. Whitespace around a request and between its parts does not
    matter: [_process_calculation] runs alike on two lines with the same
    parts, so the line as typed and the stripped line that [start] passes
    on are processed alike. *)
Theorem request_ignores_spacing (self : Calculator) (text text' : string) :
  (pystr.split text = pystr.split text' ->
   Calculator._process_calculation self text =
   Calculator._process_calculation self text') /\
  Calculator._process_calculation self (pystr.strip text) =
  Calculator._process_calculation self text.
Proof.
  assert (forall t t', pystr.split t = pystr.split t' ->
            Calculator._process_calculation self t =
            Calculator._process_calculation self t') as H.
  { intros t t' Hs. unfold Calculator._process_calculation. by rewrite Hs. }
  split; [apply H|]. apply H, split_strip.
Qed.

Lemma request_ignores_spacing_witness :
  let self := mkCalculator Calculator.operations_table (mkCalculationHistory 0%nat) in
  pystr.split "  5   +  3 " = pystr.split "5 + 3" /\
  Calculator._process_calculation self "  5   +  3 " =
  Calculator._process_calculation self "5 + 3".
Proof.
  intros self.
  assert (pystr.split "  5   +  3 " = pystr.split "5 + 3") as H by reflexivity.
  split; [exact H|].
  exact (proj1 (request_ignores_spacing self "  5   +  3 " "5 + 3") H).
Defined.

(** X21. The table of a new calculator knows eight tokens, a symbol and a
    word for each operation, all in lowercase, and no other: [calculate]
    raises the unknown-operation error, changing nothing, exactly on the
    other tokens, and the word and the symbol of an operation give the same
    run. *)
Theorem calculator_knows_eight_tokens (h : CalculationHistory) (σ : state)
  (x y : Decimal) (token : string) (self : Calculator) :
  self = mkCalculator Calculator.operations_table h ->
  (Calculator.calculate self x token y σ = (Raises (UnknownOperation_kind token), σ)
   <-> token ∉ ["+"; "-"; "*"; "/"; "add"; "subtract"; "multiply"; "divide"]) /\
  Calculator.calculate self x "add" y σ = Calculator.calculate self x "+" y σ /\
  Calculator.calculate self x "subtract" y σ = Calculator.calculate self x "-" y σ /\
  Calculator.calculate self x "multiply" y σ = Calculator.calculate self x "*" y σ /\
  Calculator.calculate self x "divide" y σ = Calculator.calculate self x "/" y σ.
Proof.
  intros ->. set (self := mkCalculator _ h). split; [|by repeat split].
  split.
  - intros Hrun Hin.
    assert (exists op, operations self !! token = Some op) as [op Hop].
    { cbn. repeat (apply elem_of_cons in Hin as [->|Hin]; [by eexists|]).
      by apply elem_of_nil in Hin. }
    unfold Calculator.calculate in Hrun. rewrite Hop in Hrun.
    rewrite (bind_returns _ _ _ _ _ (run_create_calculation _ _ _ _)) in Hrun.
    rewrite run_bind in Hrun.
    pose proof (result_cases (created σ x y op) (new_loc σ) _
                  (lookup_alloc_new σ _)) as Hres.
    change (set_heap _ σ) with (created σ x y op) in Hrun.
    change (fresh (dom (heap σ))) with (new_loc σ) in Hrun.
    inversion Hres as [v Hv Heq|v Hn He Heq|e Hn He Heq];
      rewrite <- Heq in Hrun; [discriminate Hv| |].
    + unfold CalculationHistory.add_calculation in Hrun.
      rewrite !run_bind in Hrun.
      destruct (get_list _ _) as [[items|e'] σ''] eqn:Hg; [done|].
      apply get_list_raises in Hg as ->.
      injection Hrun as _ Hσ. apply (f_equal executed) in Hσ. simpl in Hσ.
      apply (f_equal length) in Hσ. rewrite length_app in Hσ. simpl in Hσ. lia.
    + injection Hrun as _ Hσ. apply (f_equal executed) in Hσ. simpl in Hσ.
      apply (f_equal length) in Hσ. rewrite length_app in Hσ. simpl in Hσ. lia.
  - intros Hnot. apply calculate_unknown. cbn.
    destruct (Calculator.operations_table !! token) as [op|] eqn:Hop; [|done].
    apply operations_table_lookup in Hop. exfalso. apply Hnot.
    apply (list_elem_of_fmap_2 fst) in Hop. exact Hop.
Qed.

Lemma calculator_knows_eight_tokens_witness :
  let self := mkCalculator Calculator.operations_table (mkCalculationHistory 0%nat) in
  Calculator.calculate self (dec "6") "divide" (dec "3") initial =
  Calculator.calculate self (dec "6") "/" (dec "3") initial.
Proof.
  intros self.
  apply (calculator_knows_eight_tokens (mkCalculationHistory 0%nat) initial
           (dec "6") (dec "3") "" self eq_refl).
Defined.

(** ** Further properties: numbers as text *)

(** Strings of decimal digits. *)
Lemma string_of_uint_digits d :
  all_digits (NilEmpty.string_of_uint d) = true.
Proof. induction d; simpl; auto. Qed.

Lemma int_of_digits_acc d : forall acc,
  pystr.int_of_digits (Z.pos acc) (NilEmpty.string_of_uint d) =
  Z.pos (Pos.of_uint_acc d acc).
Proof.
  induction d; intros acc; cbn [NilEmpty.string_of_uint pystr.int_of_digits
                                 Pos.of_uint_acc]; [done|..];
    rewrite <- IHd; f_equal; cbn; lia.
Qed.

Lemma int_of_digits_uint d :
  pystr.int_of_digits 0 (NilEmpty.string_of_uint d) = Z.of_N (Pos.of_uint d).
Proof.
  induction d; cbn [NilEmpty.string_of_uint pystr.int_of_digits Pos.of_uint];
    [done|exact IHd|..]; apply (int_of_digits_acc d).
Qed.

Lemma of_nonneg_uint n :
  pystr.of_nonneg n = NilEmpty.string_of_uint (N.to_uint (Z.to_N n)).
Proof.
  unfold pystr.of_nonneg, NilZero.string_of_uint.
  destruct (Z.to_N n) as [|p]; [reflexivity|].
  pose proof (DecimalPos.Unsigned.to_uint_nonnil p) as Hp.
  cbn [N.to_uint]. by destruct (Pos.to_uint p).
Qed.

Lemma of_nonneg_digits n : all_digits (pystr.of_nonneg n) = true.
Proof. rewrite of_nonneg_uint. apply string_of_uint_digits. Qed.

Lemma of_nonneg_value n :
  0 <= n -> pystr.int_of_digits 0 (pystr.of_nonneg n) = n.
Proof.
  intros Hn. rewrite of_nonneg_uint, int_of_digits_uint.
  change (Pos.of_uint ?d) with (N.of_uint d).
  rewrite DecimalN.Unsigned.of_to. lia.
Qed.

Lemma of_nonneg_nonempty n :
  exists ch s, pystr.of_nonneg n = String ch s.
Proof.
  rewrite of_nonneg_uint. destruct (Z.to_N n) as [|p]; [by eexists _, _|].
  pose proof (DecimalPos.Unsigned.to_uint_nonnil p) as Hp.
  cbn [N.to_uint]. destruct (Pos.to_uint p); try done; by eexists _, _.
Qed.

Lemma all_digits_app s1 s2 :
  all_digits (s1 ++ s2) = all_digits s1 && all_digits s2.
Proof.
  induction s1 as [|ch s1 IH]; [done|].
  change (String ch s1 ++ s2) with (String ch (s1 ++ s2)).
  cbn [all_digits]. rewrite IH. by destruct (pystr.isdigit ch).
Qed.

Lemma repeat_char_succ ch n :
  0 <= n -> pystr.repeat_char ch (n + 1) = String ch (pystr.repeat_char ch n).
Proof.
  intros Hn. unfold pystr.repeat_char.
  replace (Z.to_nat (n + 1)) with (S (Z.to_nat n)) by lia. reflexivity.
Qed.

Lemma repeat_char_none ch n : n <= 0 -> pystr.repeat_char ch n = "".
Proof.
  intros Hn. unfold pystr.repeat_char.
  replace (Z.to_nat n) with O by lia. reflexivity.
Qed.

Lemma zeros_digits n : all_digits (pystr.repeat_char "0" n) = true.
Proof.
  unfold pystr.repeat_char. induction (Z.to_nat n) as [|k IH]; [done|].
  change (Nat.iter (S k) ?f ?x) with (f (Nat.iter k f x)).
  cbn [all_digits]. by rewrite IH.
Qed.

Lemma len_app s1 s2 : pystr.len (s1 ++ s2) = pystr.len s1 + pystr.len s2.
Proof.
  unfold pystr.len. induction s1 as [|ch s1 IH];
    [change ("" ++ s2) with s2; cbn [String.length]; lia|].
  change (String ch s1 ++ s2) with (String ch (s1 ++ s2)).
  cbn [String.length]. lia.
Qed.

Lemma len_zeros n : 0 <= n -> pystr.len (pystr.repeat_char "0" n) = n.
Proof.
  intros Hn. unfold pystr.len, pystr.repeat_char.
  rewrite <- (Z2Nat.id n) at 2 by done.
  induction (Z.to_nat n) as [|k IH]; [done|].
  change (Nat.iter (S k) ?f ?x) with (f (Nat.iter k f x)).
  cbn [String.length]. lia.
Qed.

Lemma take_drop n s : pystr.take n s ++ pystr.drop n s = s.
Proof.
  revert s. induction n as [|n IH]; intros [|ch s]; try done.
  cbn [pystr.take pystr.drop].
  change (String ch ?a ++ ?b) with (String ch (a ++ b)). by rewrite IH.
Qed.

Lemma len_take n s :
  Z.of_nat n <= pystr.len s -> pystr.len (pystr.take n s) = Z.of_nat n.
Proof.
  unfold pystr.len. revert s. induction n as [|n IH]; intros [|ch s];
    cbn [pystr.take String.length]; try lia.
  intros Hn. rewrite Nat2Z.inj_succ, IH; lia.
Qed.

Lemma int_of_digits_app s1 s2 acc :
  pystr.int_of_digits acc (s1 ++ s2) =
  pystr.int_of_digits (pystr.int_of_digits acc s1) s2.
Proof.
  revert acc. induction s1 as [|ch s1 IH]; intros acc; [done|].
  change (String ch s1 ++ s2) with (String ch (s1 ++ s2)).
  cbn [pystr.int_of_digits]. apply IH.
Qed.

Lemma int_of_zeros n : pystr.int_of_digits 0 (pystr.repeat_char "0" n) = 0.
Proof.
  unfold pystr.repeat_char. induction (Z.to_nat n) as [|k IH]; [done|].
  change (Nat.iter (S k) ?f ?x) with (f (Nat.iter k f x)).
  cbn [pystr.int_of_digits]. exact IH.
Qed.

Lemma span_digits_stops s : stops s -> pystr.span_digits s = ("", s).
Proof. destruct s as [|ch s]; [done|]. cbn. by intros ->. Qed.

Lemma span_digits_app ds s :
  all_digits ds = true -> stops s -> pystr.span_digits (ds ++ s) = (ds, s).
Proof.
  intros Hds Hs. induction ds as [|ch ds IH]; [by apply span_digits_stops|].
  change (String ch ds ++ s) with (String ch (ds ++ s)).
  cbn [all_digits] in Hds. apply andb_prop in Hds as [Hch Hds].
  cbn [pystr.span_digits]. by rewrite Hch, IH.
Qed.

Lemma span_digits_all ds :
  all_digits ds = true -> pystr.span_digits ds = (ds, "").
Proof.
  intros Hds. rewrite <- (span_digits_app ds "") by done.
  f_equal. induction ds as [|ch ds IH]; [done|].
  cbn [all_digits] in Hds. apply andb_prop in Hds as [_ Hds].
  change (String ch ds ++ "") with (String ch (ds ++ "")). by rewrite <- IH.
Qed.

(** Text without whitespace or underscores is read as it stands. *)
Lemma plain_app s1 s2 : plain (s1 ++ s2) = plain s1 && plain s2.
Proof.
  induction s1 as [|ch s1 IH]; [done|].
  change (String ch s1 ++ s2) with (String ch (s1 ++ s2)).
  cbn [plain]. rewrite IH. by rewrite andb_assoc.
Qed.

Lemma digit_plain ch :
  pystr.isdigit ch = true ->
  negb (pystr.isspace ch) && negb (Ascii.eqb "_" ch) = true.
Proof.
  destruct ch as [[] [] [] [] [] [] [] []]; intros H; vm_compute in H |- *;
    congruence.
Qed.

Lemma all_digits_plain s : all_digits s = true -> plain s = true.
Proof.
  induction s as [|ch s IH]; [done|]. cbn [all_digits plain].
  intros [Hch Hs]%andb_prop. by rewrite digit_plain, IH.
Qed.

Lemma lstrip_plain s : plain s = true -> pystr.lstrip s = s.
Proof.
  destruct s as [|ch s]; [done|]. cbn [plain pystr.lstrip].
  intros [[Hch _]%andb_prop _]%andb_prop.
  by destruct (pystr.isspace ch).
Qed.

Lemma rstrip_plain s : plain s = true -> pystr.rstrip s = s.
Proof.
  induction s as [|ch s IH]; [done|]. cbn [plain pystr.rstrip].
  intros [[Hch _]%andb_prop Hs]%andb_prop. rewrite IH by done.
  destruct s; [|done]. by destruct (pystr.isspace ch).
Qed.

Lemma remove_plain s : plain s = true -> pystr.remove "_" s = s.
Proof.
  induction s as [|ch s IH]; [done|]. cbn [plain pystr.remove].
  intros [[_ Hch]%andb_prop Hs]%andb_prop. rewrite IH by done.
  by destruct (Ascii.eqb "_" ch).
Qed.

Lemma of_str_negative body :
  plain body = true -> of_str ("-" ++ body) = read true body.
Proof.
  intros Hb. unfold of_str, pystr.strip.
  assert (plain ("-" ++ body) = true) as Hp by (by rewrite plain_app, Hb).
  by rewrite lstrip_plain, rstrip_plain, remove_plain.
Qed.

Lemma of_str_unsigned ch s :
  ch <> "-"%char -> ch <> "+"%char -> plain (String ch s) = true ->
  of_str (String ch s) = read false (String ch s).
Proof.
  intros Hm Hp Hb. unfold of_str, pystr.strip.
  rewrite lstrip_plain, rstrip_plain, remove_plain by done.
  destruct ch as [[] [] [] [] [] [] [] []]; try reflexivity; congruence.
Qed.

Lemma digit_unsigned ch :
  pystr.isdigit ch = true -> ch <> "-"%char /\ ch <> "+"%char.
Proof. by split; intros ->. Qed.

(** The exponent part. *)
Lemma parse_exponent_signed n :
  parse_exponent ("E" ++ pystr.signed n) = Some n.
Proof.
  unfold pystr.signed.
  destruct (Z.ltb_spec n 0) as [Hn|Hn].
  - destruct (of_nonneg_nonempty (- n)) as (ch & s & Hs).
    change ("E" ++ "-" ++ ?r) with (String "E" (String "-" r)).
    cbn -[pystr.span_digits pystr.int_of_digits pystr.of_nonneg].
    rewrite span_digits_all by apply of_nonneg_digits.
    rewrite of_nonneg_value by lia. rewrite Hs. f_equal. lia.
  - destruct (of_nonneg_nonempty n) as (ch & s & Hs).
    change ("E" ++ "+" ++ ?r) with (String "E" (String "+" r)).
    cbn -[pystr.span_digits pystr.int_of_digits pystr.of_nonneg].
    rewrite span_digits_all by apply of_nonneg_digits.
    rewrite of_nonneg_value by lia. by rewrite Hs.
Qed.

Lemma exponent_text_parse ex E :
  exponent_text ex E -> parse_exponent ex = Some E.
Proof. intros [[-> ->]| ->]; [done|apply parse_exponent_signed]. Qed.

Lemma exponent_text_stops ex E :
  exponent_text ex E ->
  stops ex /\ (forall r, ex <> String "." r).
Proof. by intros [[-> ->]| ->]. Qed.

Lemma parse_number_whole ip ex E :
  all_digits ip = true -> (exists ch s, ip = String ch s) ->
  exponent_text ex E ->
  parse_number (ip ++ ex) = Some (pystr.int_of_digits 0 ip, E).
Proof.
  intros Hip (ch & s & Hs) Hex.
  destruct (exponent_text_stops _ _ Hex) as [Hstop Hdot].
  unfold parse_number. rewrite span_digits_app by done.
  assert (match ex with
          | String "." r => pystr.span_digits r
          | _ => ("", ex)
          end = ("", ex)) as ->.
  { destruct Hex as [[-> ->]| ->]; reflexivity. }
  rewrite (exponent_text_parse _ _ Hex).
  assert (ip ++ "" = ip) as ->.
  { clear. induction ip as [|c ip IH]; [done|].
    change (String c ip ++ "") with (String c (ip ++ "")). by rewrite IH. }
  change (pystr.len "") with 0. rewrite Z.sub_0_r. by rewrite Hs.
Qed.

Lemma parse_number_fraction ip fp ex E :
  all_digits ip = true -> all_digits fp = true ->
  (exists ch s, ip = String ch s) ->
  exponent_text ex E ->
  parse_number (ip ++ ("." ++ fp) ++ ex) =
  Some (pystr.int_of_digits 0 (ip ++ fp), E - pystr.len fp).
Proof.
  intros Hip Hfp (ch & s & Hs) Hex.
  destruct (exponent_text_stops _ _ Hex) as [Hstop Hdot].
  unfold parse_number.
  change (("." ++ fp) ++ ex) with (String "." (fp ++ ex)).
  rewrite span_digits_app by done.
  rewrite span_digits_app by done.
  rewrite (exponent_text_parse _ _ Hex).
  rewrite Hs at 1. change (String ch s ++ fp) with (String ch (s ++ fp)).
  by rewrite Hs.
Qed.

Lemma len_of_nonneg_pos n : 1 <= pystr.len (pystr.of_nonneg n).
Proof.
  destruct (of_nonneg_nonempty n) as (ch & s & ->).
  unfold pystr.len. cbn [String.length]. lia.
Qed.

Lemma all_digits_take n s :
  all_digits s = true -> all_digits (pystr.take n s) = true.
Proof.
  revert s. induction n as [|n IH]; intros [|ch s]; try done.
  cbn [pystr.take all_digits]. intros [-> Hs]%andb_prop. by apply IH.
Qed.

Lemma all_digits_drop n s :
  all_digits s = true -> all_digits (pystr.drop n s) = true.
Proof.
  revert s. induction n as [|n IH]; intros [|ch s]; try done.
  cbn [pystr.drop all_digits]. intros [_ Hs]%andb_prop. by apply IH.
Qed.

Lemma take_nonempty n s :
  (0 < n)%nat -> (exists ch r, s = String ch r) ->
  exists ch r, pystr.take n s = String ch r.
Proof. intros Hn (ch & r & ->). destruct n; [lia|]. by eexists _, _. Qed.

Lemma app_empty s : s ++ "" = s.
Proof.
  induction s as [|c s IH]; [done|].
  change (String c s ++ "") with (String c (s ++ "")). by rewrite IH.
Qed.

Lemma app_string_assoc (s1 s2 s3 : string) : (s1 ++ s2) ++ s3 = s1 ++ s2 ++ s3.
Proof.
  induction s1 as [|c s1 IH]; [done|].
  repeat change (String c ?a ++ ?x) with (String c (a ++ x)). by rewrite IH.
Qed.

Lemma digits_first ip rest :
  all_digits ip = true -> (exists ch s, ip = String ch s) ->
  exists ch r, ip ++ rest = String ch r /\ pystr.isdigit ch = true.
Proof.
  intros Hip (ch & s & ->). exists ch, (s ++ rest). split; [done|].
  cbn [all_digits] in Hip. by apply andb_prop in Hip as [-> _].
Qed.

Lemma plain_signed n : plain (pystr.signed n) = true.
Proof.
  unfold pystr.signed. destruct (n <? 0); rewrite plain_app;
    by rewrite (all_digits_plain (pystr.of_nonneg _))
      by apply of_nonneg_digits.
Qed.

Lemma exponent_text_plain ex E : exponent_text ex E -> plain ex = true.
Proof.
  intros [[-> _]| ->]; [done|]. rewrite plain_app. by rewrite plain_signed.
Qed.

Lemma len_drop n s :
  Z.of_nat n <= pystr.len s ->
  pystr.len (pystr.drop n s) = pystr.len s - Z.of_nat n.
Proof.
  intros Hn. pose proof (len_take n s Hn) as Ht.
  pose proof (len_app (pystr.take n s) (pystr.drop n s)) as Ha.
  rewrite take_drop in Ha. lia.
Qed.

(** The text of a finite number after its sign: digits first, no blanks,
    and read back as the coefficient and the exponent. *)
Lemma finite_text c e :
  exists body,
    (forall sign,
       decimal.__str__ (Finite sign c e) =
       (if sign then "-" else "") ++ body) /\
    (exists ch r, body = String ch r /\ pystr.isdigit ch = true) /\
    plain body = true /\
    parse_number body = Some (Z.of_N c, e).
Proof.
  unfold decimal.__str__. cbn [sign_of].
  pose proof (of_nonneg_digits (Z.of_N c)) as Hd.
  pose proof (of_nonneg_nonempty (Z.of_N c)) as Hne.
  pose proof (of_nonneg_value (Z.of_N c) ltac:(lia)) as Hv.
  pose proof (len_of_nonneg_pos (Z.of_N c)) as Hl.
  set (_int := pystr.of_nonneg (Z.of_N c)) in *.
  set (leftdigits := e + pystr.len _int).
  set (dotplace := if (e <=? 0) && (-6 <? leftdigits) then leftdigits else 1).
  assert (dotplace = leftdigits /\ e <= 0 \/ dotplace = 1) as Hdp.
  { unfold dotplace. destruct (Z.leb_spec e 0); cbn [andb]; [|by right].
    destruct (-6 <? leftdigits); [by left|by right]. }
  set (ex := if leftdigits =? dotplace then ""
             else "E" ++ pystr.signed (leftdigits - dotplace)).
  assert (exponent_text ex (leftdigits - dotplace)) as Hex.
  { unfold ex. destruct (Z.eqb_spec leftdigits dotplace); [left|by right].
    split; [done|lia]. }
  pose proof (exponent_text_plain _ _ Hex) as Hpex.
  clearbody ex dotplace.
  destruct (Z.leb_spec dotplace 0) as [H0|H0].
  - exists ("0" ++ ("." ++ pystr.repeat_char "0" (- dotplace) ++ _int) ++ ex).
    split; [done|]. split; [by eexists _, _|]. split.
    + rewrite !plain_app, Hpex.
      rewrite (all_digits_plain _int) by done.
      by rewrite (all_digits_plain (pystr.repeat_char _ _))
        by apply zeros_digits.
    + rewrite parse_number_fraction with (E := leftdigits - dotplace);
        [|done|by rewrite all_digits_app, zeros_digits|by eexists _, _|done].
      rewrite !int_of_digits_app, len_app, len_zeros by lia.
      change (pystr.int_of_digits 0 "0") with 0.
      rewrite int_of_zeros, Hv. f_equal. f_equal. lia.
  - destruct (Z.leb_spec (pystr.len _int) dotplace) as [H1|H1].
    + exists (_int ++ ex). split.
      { intros sign. rewrite repeat_char_none by lia.
        change ("" ++ ex) with ex. by rewrite app_empty. }
      split; [by apply digits_first|]. split.
      * by rewrite plain_app, Hpex, all_digits_plain.
      * rewrite parse_number_whole with (E := leftdigits - dotplace) by done.
        rewrite Hv. f_equal. f_equal. lia.
    + exists (pystr.take (Z.to_nat dotplace) _int
              ++ ("." ++ pystr.drop (Z.to_nat dotplace) _int) ++ ex).
      split; [done|].
      assert (exists ch r, pystr.take (Z.to_nat dotplace) _int = String ch r)
        as Htake by (apply take_nonempty; [lia|done]).
      split; [apply digits_first; [by apply all_digits_take|done]|]. split.
      * rewrite !plain_app, Hpex.
        rewrite (all_digits_plain (pystr.take _ _))
          by (by apply all_digits_take).
        by rewrite (all_digits_plain (pystr.drop _ _))
          by (by apply all_digits_drop).
      * rewrite parse_number_fraction with (E := leftdigits - dotplace);
          [|by apply all_digits_take|by apply all_digits_drop|done|done].
        rewrite take_drop, Hv, len_drop by lia. f_equal. f_equal. lia.
Qed.

Lemma read_nan sign (signal : bool) (x : string) :
  all_digits x = true ->
  read sign (String.append (if signal then "sNaN" else "NaN") x) =
  Returns (NaN sign signal (Z.to_N (pystr.int_of_digits 0 x))).
Proof.
  intros Hx. unfold read.
  set (s := String.append (if signal then "sNaN" else "NaN") x).
  assert (parse_number s = None) as -> by (by destruct signal).
  assert (parse_infinity s = false) as -> by (by destruct signal).
  assert (parse_nan s =
          let '(diag, rest) := pystr.span_digits x in
          match rest with
          | EmptyString => Some (signal, pystr.int_of_digits 0 diag)
          | _ => None
          end) as -> by (by destruct signal).
  by rewrite span_digits_all.
Qed.

Lemma nan_text sign signal p :
  decimal.of_str (decimal.__str__ (NaN sign signal p)) =
  Returns (NaN sign signal p).
Proof.
  unfold decimal.__str__. cbn [sign_of].
  assert (exists x : string,
            (if (p =? 0)%N then "" else pystr.of_nonneg (Z.of_N p)) = x /\
            all_digits x = true /\
            Z.to_N (pystr.int_of_digits 0 x) = p) as (x & -> & Hx & Hp).
  { destruct (N.eqb_spec p 0) as [->|Hp]; eexists; (split; [done|]).
    - done.
    - split; [apply of_nonneg_digits|]. rewrite of_nonneg_value; lia. }
  assert (plain (String.append (if signal then "sNaN" else "NaN") x) = true)
    as Hplain.
  { rewrite plain_app, (all_digits_plain x) by done. by destruct signal. }
  destruct sign.
  - rewrite of_str_negative by done. by rewrite read_nan, Hp.
  - change (String.append "" ?s) with s. rewrite <- Hp.
    rewrite <- read_nan by done.
    destruct signal.
    + change (String.append "sNaN" x)
        with (String "s" (String.append "NaN" x)) in *.
      by apply of_str_unsigned.
    + change (String.append "NaN" x)
        with (String "N" (String.append "aN" x)) in *.
      by apply of_str_unsigned.
Qed.

Lemma infinity_text sign :
  decimal.of_str (decimal.__str__ (Infinity sign)) = Returns (Infinity sign).
Proof. by destruct sign. Qed.

Lemma finite_round_trip sign c e :
  decimal.of_str (decimal.__str__ (Finite sign c e)) =
  Returns (Finite sign c e).
Proof.
  destruct (finite_text c e)
    as (body & Hstr & (ch & r & Hbody & Hch) & Hplain & Hparse).
  rewrite Hstr.
  assert (read sign body = Returns (Finite sign c e)) as <-.
  { unfold read. rewrite Hparse. by rewrite N2Z.id. }
  destruct sign; [by apply of_str_negative|].
  change (String.append "" body) with body. subst body.
  destruct (digit_unsigned ch Hch). by apply of_str_unsigned.
Qed.

Lemma of_str_str d : decimal.of_str (decimal.__str__ d) = Returns d.
Proof.
  destruct d as [sign c e|sign|sign signal p].
  - apply finite_round_trip.
  - apply infinity_text.
  - apply nan_text.
Qed.

(** X22. A number written with [str] and read again with [Decimal] is the
    same number: the same sign, coefficient and exponent, and for a NaN the
    same kind and payload. *)
Theorem text_round_trip (d : Decimal) :
  decimal.of_str (decimal.__str__ d) = Returns d.
Proof. destruct d; apply of_str_str. Qed.

(** Words of a line. *)
Lemma plain_nonblank s : plain s = true -> nonblank s = true.
Proof.
  induction s as [|ch s IH]; [done|]. cbn [plain nonblank].
  intros [[-> _]%andb_prop Hs]%andb_prop. by apply IH.
Qed.

Lemma nonblank_app s1 s2 : nonblank (s1 ++ s2) = nonblank s1 && nonblank s2.
Proof.
  induction s1 as [|ch s1 IH]; [done|].
  change (String ch s1 ++ s2) with (String ch (s1 ++ s2)).
  cbn [nonblank]. rewrite IH. by rewrite andb_assoc.
Qed.

Lemma split_from_word w : forall acc rest,
  nonblank w = true ->
  pystr.split_from (Some acc) (w ++ rest) =
  pystr.split_from (Some (acc ++ w)) rest.
Proof.
  induction w as [|ch w IH]; intros acc rest Hw.
  - change ("" ++ rest) with rest. by rewrite app_empty.
  - cbn [nonblank] in Hw. apply andb_prop in Hw as [Hch Hw].
    change (String ch w ++ rest) with (String ch (w ++ rest)).
    cbn [pystr.split_from]. destruct (pystr.isspace ch); [done|].
    rewrite IH by done. by rewrite app_string_assoc.
Qed.

Lemma split_from_start ch w rest :
  nonblank (String ch w) = true ->
  pystr.split_from None (String ch w ++ rest) =
  pystr.split_from (Some (String ch w)) rest.
Proof.
  cbn [nonblank]. intros [Hch Hw]%andb_prop.
  change (String ch w ++ rest) with (String ch (w ++ rest)).
  cbn [pystr.split_from]. destruct (pystr.isspace ch); [done|].
  by rewrite split_from_word.
Qed.

Lemma split_from_space acc rest :
  pystr.split_from (Some acc) (" " ++ rest) =
  acc :: pystr.split_from None rest.
Proof. reflexivity. Qed.

Lemma split_three_words (a w b : string) :
  a <> "" -> w <> "" -> b <> "" ->
  nonblank a = true -> nonblank w = true -> nonblank b = true ->
  pystr.split (a ++ " " ++ w ++ " " ++ b) = [a; w; b].
Proof.
  intros Ha Hw Hb Ha' Hw' Hb'. unfold pystr.split.
  destruct a as [|ca a]; [done|]. destruct w as [|cw w]; [done|].
  destruct b as [|cb b]; [done|].
  rewrite split_from_start, split_from_space by done.
  rewrite split_from_start, split_from_space by done.
  rewrite <- (app_empty (String cb b)) at 1.
  by rewrite split_from_start.
Qed.

Lemma split_from_words s : forall word,
  (forall w, word = Some w -> nonblank w = true) ->
  Forall (fun w => nonblank w = true) (pystr.split_from word s).
Proof.
  induction s as [|ch s IH]; intros word Hword.
  - destruct word as [w|]; [|constructor].
    constructor; [by apply Hword|constructor].
  - cbn [pystr.split_from]. destruct (pystr.isspace ch) eqn:Hch.
    + destruct word as [w|]; [constructor; [by apply Hword|]|];
        by apply IH.
    + destruct word as [w|]; apply IH; intros w' [= <-].
      * rewrite nonblank_app, (Hword w) by done. cbn [nonblank].
        by rewrite Hch.
      * cbn [nonblank]. by rewrite Hch.
Qed.

Lemma one_word w :
  pystr.split w = [w] -> w <> "" /\ nonblank w = true.
Proof.
  intros Hw. split; [by intros ->|].
  pose proof (split_from_words w None ltac:(done)) as Hall.
  fold (pystr.split w) in Hall. rewrite Hw in Hall.
  by apply Forall_cons in Hall as [? _].
Qed.

Lemma str_one_word d :
  decimal.__str__ d <> "" /\ nonblank (decimal.__str__ d) = true.
Proof.
  destruct d as [sign c e|sign|sign signal p].
  - destruct (finite_text c e) as (body & -> & (ch & r & -> & _) & Hplain & _).
    split; [by destruct sign|].
    rewrite nonblank_app, (plain_nonblank _ Hplain). by destruct sign.
  - by destruct sign.
  - unfold decimal.__str__. cbn [sign_of]. split; [by destruct sign, signal|].
    rewrite !nonblank_app.
    assert (nonblank (if (p =? 0)%N then "" else pystr.of_nonneg (Z.of_N p))
            = true) as ->.
    { destruct (p =? 0)%N; [done|].
      apply plain_nonblank, all_digits_plain, of_nonneg_digits. }
    by destruct sign, signal.
Qed.

(** X23. Every number can be requested in the form in which the calculator
    prints numbers: the line made of [str(x)], a word naming an operation
    and [str(y)] is read as the operands [x] and [y] themselves, so the
    result of one request can be typed as an operand of the next. *)
Theorem printed_numbers_are_operands (self : Calculator) (σ : state)
  (items : list loc) (word : string) (op : Operation) (x y v : Decimal) :
  history_items σ (history self) items ->
  pystr.split word = [word] ->
  operations self !! pystr.lower word = Some op ->
  operation.execute op x y = Returns v ->
  exists σ' l,
    Calculator._process_calculation self
      (decimal.__str__ x ++ " " ++ word ++ " " ++ decimal.__str__ y) σ =
      (Returns tt, σ') /\
    stdout σ' =
      (stdout σ ++
       [("Result: " ++ decimal.__str__ x ++ " " ++ operation.__str__ op
         ++ " " ++ decimal.__str__ y ++ " = " ++ decimal.__str__ v)%string])%list /\
    is_Calculation σ' l (mkCalculation x y op (Some v)) /\
    history_items σ' (history self) (items ++ [l]).
Proof.
  intros Hh Hword Hop Hv.
  destruct (one_word word Hword) as [Hw Hw'].
  destruct (str_one_word x) as [Hx Hx'], (str_one_word y) as [Hy Hy'].
  pose proof (split_three_words _ _ _ Hx Hw Hy Hx' Hw' Hy') as Hs.
  exists (with_stdout (recorded (history self) σ items x y op v)
            (stdout σ ++ ["Result: " ++ display (mkCalculation x y op None) v])),
         (new_loc σ).
  split.
  { eapply process_computed; eauto using of_str_str. }
  split; [done|].
  split; [by apply (recorded_is_Calculation self σ x y op items Hh v)|].
  by apply (recorded_history self σ x y op items v).
Qed.

Lemma printed_numbers_are_operands_witness :
  let self := mkCalculator Calculator.operations_table (mkCalculationHistory 0%nat) in
  let σ := snd (Calculator.__init__ initial) in
  history_items σ (history self) [] /\
  exists σ',
    Calculator._process_calculation self "-0.75 Multiply 2E+3" σ =
      (Returns tt, σ') /\
    stdout σ' = ["Result: -0.75 * 2E+3 = -1.50E+3"].
Proof.
  intros self σ.
  assert (history_items σ (history self) []) as Hh by reflexivity.
  split; [exact Hh|].
  destruct (printed_numbers_are_operands self σ [] "Multiply" Multiplication
              (Finite true 75 (-2)) (Finite false 2 3) (Finite true 150 1)
              Hh eq_refl eq_refl eq_refl)
    as (σ' & l & Hrun & Hout & _).
  exists σ'. split; [exact Hrun|exact Hout].
Defined.

(** ** The repository's tests and the scenarios of the specification

    The values that [tests/test_operations.py], [tests/test_calculations.py]
    and [tests/test_calculator.py] expect, computed by the model. *)

Example test_addition :
  map (fun '(x, y) => shown (Addition.execute (dec x) (dec y)))
      [("5", "3"); ("0", "0"); ("-5", "3"); ("5", "-3"); ("-5", "-3");
       ("10.5", "2.3"); ("1000000", "1")] =
  map Returns ["8"; "0"; "-2"; "2"; "-8"; "12.8"; "1000001"].
Proof. vm_compute. reflexivity. Qed.

Example test_subtraction :
  map (fun '(x, y) => shown (Subtraction.execute (dec x) (dec y)))
      [("5", "3"); ("0", "0"); ("-5", "3"); ("5", "-3"); ("-5", "-3");
       ("10.5", "2.3"); ("1", "1000000")] =
  map Returns ["2"; "0"; "-8"; "8"; "-2"; "8.2"; "-999999"].
Proof. vm_compute. reflexivity. Qed.

Example test_multiplication :
  map (fun '(x, y) => shown (Multiplication.execute (dec x) (dec y)))
      [("5", "3"); ("0", "5"); ("5", "0"); ("-5", "3"); ("5", "-3");
       ("-5", "-3"); ("2.5", "4"); ("0.1", "0.1")] =
  map Returns ["15"; "0"; "0"; "-15"; "-15"; "15"; "10.0"; "0.01"].
Proof. vm_compute. reflexivity. Qed.

Example test_division :
  map (fun '(x, y) => shown (Division.execute (dec x) (dec y)))
      [("6", "3"); ("5", "2"); ("-6", "3"); ("6", "-3"); ("-6", "-3");
       ("0", "5"); ("1", "3")] =
  map Returns ["2"; "2.5"; "-2"; "-2"; "2"; "0";
               "0.3333333333333333333333333333"].
Proof. vm_compute. reflexivity. Qed.

Example test_division_by_zero :
  Division.execute (dec "5") (dec "0") = Raises (ValueError "Cannot divide by zero").
Proof. reflexivity. Qed.

Example scenario_1 : session ["5 + 3"] = (Returns 1, ["Result: 5 + 3 = 8"]).
Proof. vm_compute. reflexivity. Qed.

Example scenario_2 :
  session ["10.5 subtract 2.3"] = (Returns 1, ["Result: 10.5 - 2.3 = 8.2"]).
Proof. vm_compute. reflexivity. Qed.

Example scenario_3 :
  session ["5 + 3"; "5 / 0"] =
  (Returns 1, ["Result: 5 + 3 = 8"; "Error: Cannot divide by zero"]).
Proof. vm_compute. reflexivity. Qed.

Example scenario_4 :
  session ["abc + 3"] =
  (Returns 0,
   ["Error: Invalid number format: [<class 'decimal.ConversionSyntax'>]";
    "Use 'help' command for usage instructions."]).
Proof. vm_compute. reflexivity. Qed.

Example scenario_5 :
  session ["5 % 3"] =
  (Returns 0,
   ["Error: Unknown operation: %";
    "Use 'help' command for usage instructions."]).
Proof. vm_compute. reflexivity. Qed.

Example interactive_token_is_lowercased :
  session ["5 ADD 3"; "1 Divide 4"] =
  (Returns 2, ["Result: 5 + 3 = 8"; "Result: 1 / 4 = 0.25"]).
Proof. vm_compute. reflexivity. Qed.
